(** * NC_Dashboard: the derivation layer of the digital NC register

    A shallow embedding of the derivation core of [NC_Dashboard_BetaV1.py]:
    the date/time normalisers ([_normalize_date_str], [_normalize_time_str]),
    the timestamp combiner ([combine_datetime]), the derived columns of
    [add_derived_columns] and the SLA rate of [metrics_summary]; and, around
    this core, the counts of the metrics header, [humanize_td], the colour
    helpers [_hex_to_rgb] and [_rgb_to_hex], the column labels of
    [normalize_colname], [load_data] and [preprocess], and the masks of
    [filtered_view].

    Conventions of the embedding.
    - A Python [str] is a [string]; a character is a code point below 256
      (Latin-1), and the character classes of [re] and [str] are written
      out for that range.
    - A Python [int] is a [Z].
    - A pandas [Timestamp] is the number of whole seconds since
      1970-01-01 00:00:00 (the normalisers never produce fractions of a
      second); the library stores nanoseconds in 64 bits, which bounds the
      representable instants.
    - A [float64] is the rational it stands for: hours, costs and rates are
      exact in [Q]; rounding and overflow of differences are not modelled.
    - A [DataFrame] is a row count with a finite map from column labels to
      columns; a column is the list of its cells. The body of the pass is
      the list of its assignments, run in order on one frame.
    - The library behaviour is that of pandas 2 with numpy 1, under which
      the pass returns.
    - What Python and pandas do to values of other kinds ([str] of a number,
      [pd.to_numeric] of a text) is a parameter of the development;
      [pd.to_datetime] is written out for the texts the combiner builds. *)

From Stdlib Require Import ZArith QArith Qminmax Qreduction String Ascii DecimalString Lia.
From stdpp Require Import base option list gmap strings fin_maps.

Local Open Scope string_scope.
Local Open Scope Z_scope.

(** ** Python strings *)

Module Py.

Definition ord (c : ascii) : Z := Z.of_N (N_of_ascii c).

(** [str.isspace] on one character, which is also [\s] of [re]. *)
Definition isspace (c : ascii) : bool :=
  let n := ord c in
  ((9 <=? n) && (n <=? 13)) || ((28 <=? n) && (n <=? 32))
  || (n =? 133) || (n =? 160).

(** [\d] of [re]: a decimal digit. *)
Definition isdecimal (c : ascii) : bool :=
  let n := ord c in (48 <=? n) && (n <=? 57).

(** [\w] of [re]: alphanumeric or underscore. *)
Definition isword (c : ascii) : bool :=
  let n := ord c in
  isdecimal c
  || ((65 <=? n) && (n <=? 90)) || ((97 <=? n) && (n <=? 122)) || (n =? 95)
  || (n =? 170) || (n =? 178) || (n =? 179) || (n =? 181) || (n =? 185)
  || (n =? 186) || ((188 <=? n) && (n <=? 190))
  || ((192 <=? n) && (n <=? 255) && negb (n =? 215) && negb (n =? 247)).

Definition lower_char (c : ascii) : ascii :=
  let n := ord c in
  if ((65 <=? n) && (n <=? 90))
     || ((192 <=? n) && (n <=? 222) && negb (n =? 215))
  then ascii_of_N (Z.to_N (n + 32)) else c.

Fixpoint lower (s : string) : string :=
  match s with
  | EmptyString => EmptyString
  | String c r => String (lower_char c) (lower r)
  end.

Fixpoint lstrip (s : string) : string :=
  match s with
  | EmptyString => EmptyString
  | String c r => if isspace c then lstrip r else s
  end.

Fixpoint rev_onto (s acc : string) : string :=
  match s with
  | EmptyString => acc
  | String c r => rev_onto r (String c acc)
  end.

Definition rev (s : string) : string := rev_onto s EmptyString.

Definition rstrip (s : string) : string := rev (lstrip (rev s)).

(** [s.strip()] *)
Definition strip (s : string) : string := rstrip (lstrip s).

(** [s.replace(c, "")] for a one-character [c]. *)
Fixpoint remove_char (x : ascii) (s : string) : string :=
  match s with
  | EmptyString => EmptyString
  | String c r => if Ascii.eqb c x then remove_char x r else String c (remove_char x r)
  end.

(** [sub in s] *)
Fixpoint contains (sub s : string) : bool :=
  String.prefix sub s ||
  match s with
  | EmptyString => false
  | String _ r => contains sub r
  end.

(** [s in (t1, t2, ...)] *)
Definition in_tuple (s : string) (ts : list string) : bool :=
  existsb (String.eqb s) ts.

(** [int(s)] for a string of decimal digits. *)
Fixpoint int_acc (acc : Z) (s : string) : Z :=
  match s with
  | EmptyString => acc
  | String c r => int_acc (acc * 10 + (ord c - 48)) r
  end.

Definition int (s : string) : Z := int_acc 0 s.

(** [str(n)] for a non-negative [n]. *)
Definition digits (n : Z) : string :=
  NilZero.string_of_uint (N.to_uint (Z.to_N n)).

Fixpoint zeros (k : nat) : string :=
  match k with
  | O => EmptyString
  | S k' => String "0" (zeros k')
  end.

(** The format [{n:0wd}]: the sign first, then zeros up to width [w]. *)
Definition fmt_0d (w : nat) (n : Z) : string :=
  if n <? 0 then
    let ds := digits (- n) in
    String "-" (zeros (w - 1 - String.length ds) +:+ ds)
  else
    let ds := digits n in
    zeros (w - String.length ds) +:+ ds.

End Py.

(** ** The regular expressions of the parser

    Each pattern is anchored at both ends and alternates runs of digits with
    characters that are not digits, so the match is unique: a digit group is
    the whole run of digits at its place. A matcher returns the groups. *)

Module Re.

(** The longest run of digits at the head of [s], and what follows it. *)
Fixpoint span_digits (s : string) : string * string :=
  match s with
  | EmptyString => (EmptyString, EmptyString)
  | String c r =>
      if Py.isdecimal c then
        let '(ds, rest) := span_digits r in (String c ds, rest)
      else (EmptyString, s)
  end.

(** [\d{lo,hi}] followed by something that is not a digit. *)
Definition digits_between (lo hi : nat) (s : string) : option (string * string) :=
  let '(ds, rest) := span_digits s in
  let n := String.length ds in
  if (lo <=? n)%nat && (n <=? hi)%nat then Some (ds, rest) else None.

Definition expect (x : ascii) (s : string) : option string :=
  match s with
  | String c r => if Ascii.eqb c x then Some r else None
  | EmptyString => None
  end.

(** [\s*$] *)
Definition only_space (s : string) : bool :=
  match Py.lstrip s with EmptyString => true | _ => false end.

(** [^\s*(\d{1,2})SEP(\d{1,2})SEP(\d{2,4})\s*$] *)
Definition match_dmy (sep : ascii) (s : string) : option (string * string * string) :=
  '(g1, s) ← digits_between 1 2 (Py.lstrip s);
  s ← expect sep s;
  '(g2, s) ← digits_between 1 2 s;
  s ← expect sep s;
  '(g3, s) ← digits_between 2 4 s;
  if only_space s then Some (g1, g2, g3) else None.

Definition _date_ddmmyyyy_slash := match_dmy "/".
Definition _date_ddmmyyyy_dash := match_dmy "-".

(** [^\s*(\d{4})-(\d{1,2})-(\d{1,2})\s*$] *)
Definition _date_yyyymmdd_dash (s : string) : option (string * string * string) :=
  '(g1, s) ← digits_between 4 4 (Py.lstrip s);
  s ← expect "-" s;
  '(g2, s) ← digits_between 1 2 s;
  s ← expect "-" s;
  '(g3, s) ← digits_between 1 2 s;
  if only_space s then Some (g1, g2, g3) else None.

(** [^\s*(\d{1,2}):(\d{2})(?::(\d{2}))?], the head shared by the two time
    patterns: the groups and the rest of the input. The optional group is
    taken exactly when a colon follows, as nothing after it in either
    pattern can match a colon. *)
Definition match_hms (s : string) : option (string * string * option string * string) :=
  '(g1, s) ← digits_between 1 2 (Py.lstrip s);
  s ← expect ":" s;
  '(g2, s) ← digits_between 2 2 s;
  match s with
  | String ":" r =>
      '(g3, s) ← digits_between 2 2 r;
      Some (g1, g2, Some g3, s)
  | _ => Some (g1, g2, None, s)
  end.

(** One character of the pattern under [re.I]. *)
Definition expect_nocase (x : ascii) (s : string) : option (ascii * string) :=
  match s with
  | String c r => if Ascii.eqb (Py.lower_char c) x then Some (c, r) else None
  | EmptyString => None
  end.

(** [\.?] : the text it consumed and the rest. *)
Definition optional_dot (s : string) : string * string :=
  match s with
  | String "." r => (".", r)
  | _ => (EmptyString, s)
  end.

(** [([ap]\.?m\.?)\s*$] under [re.I]: the text of the group. *)
Definition match_marker (s : string) : option string :=
  match s with
  | String c r =>
      if Ascii.eqb (Py.lower_char c) "a" || Ascii.eqb (Py.lower_char c) "p" then
        let '(d1, r) := optional_dot r in
        '(m, r) ← expect_nocase "m" r;
        let '(d2, r) := optional_dot r in
        if only_space r then Some (String c (d1 +:+ String m d2)) else None
      else None
  | EmptyString => None
  end.

(** [^\s*(\d{1,2}):(\d{2})(?::(\d{2}))?\s*([ap]\.?m\.?)\s*$] with [re.I] *)
Definition _time_hhmm_ampm (s : string)
  : option (string * string * option string * string) :=
  '(g1, g2, g3, s) ← match_hms s;
  g4 ← match_marker (Py.lstrip s);
  Some (g1, g2, g3, g4).

(** [^\s*(\d{1,2}):(\d{2})(?::(\d{2}))?\s*$] *)
Definition _time_hhmm_24 (s : string) : option (string * string * option string) :=
  '(g1, g2, g3, s) ← match_hms s;
  if only_space s then Some (g1, g2, g3) else None.

End Re.

(** ** Explicit date/time parsing *)

Definition _norm_year (y : Z) : Z :=
  if y <? 100 then (if y <? 70 then 2000 + y else 1900 + y) else y.

(** [if not s or s.lower() in ("nan", "nat", "none")] *)
Definition is_sentinel (s : string) : bool :=
  String.eqb s "" || Py.in_tuple (Py.lower s) ["nan"; "nat"; "none"].

(** [f"{y:04d}-{mth:02d}-{d:02d}"] *)
Definition fmt_date (y mth d : Z) : string :=
  Py.fmt_0d 4 y +:+ "-" +:+ Py.fmt_0d 2 mth +:+ "-" +:+ Py.fmt_0d 2 d.

(** [f"{hh:02d}:{mm:02d}:{ss:02d}"] *)
Definition fmt_time (hh mm ss : Z) : string :=
  Py.fmt_0d 2 hh +:+ ":" +:+ Py.fmt_0d 2 mm +:+ ":" +:+ Py.fmt_0d 2 ss.

(** [m = _date_ddmmyyyy_slash.match(s) or _date_ddmmyyyy_dash.match(s)] *)
Definition match_ddmmyyyy (s : string) : option (string * string * string) :=
  match Re._date_ddmmyyyy_slash s with
  | Some g => Some g
  | None => Re._date_ddmmyyyy_dash s
  end.

(** The formatting of integers cannot raise, so the [try] around it always
    takes its first branch. *)
Definition _normalize_date_str (s : string) : string :=
  if is_sentinel s then "" else
  let s := Py.strip s in
  match match_ddmmyyyy s with
  | Some (g1, g2, g3) =>
      let d := Py.int g1 in
      let mth := Py.int g2 in
      let y := _norm_year (Py.int g3) in
      fmt_date y mth d
  | None =>
      match Re._date_yyyymmdd_dash s with
      | Some (g1, g2, g3) =>
          let y := Py.int g1 in
          let mth := Py.int g2 in
          let d := Py.int g3 in
          fmt_date y mth d
      | None => ""
      end
  end.

(** [0 <= hh <= 23 and 0 <= mm <= 59 and 0 <= ss <= 59] *)
Definition time_in_range (hh mm ss : Z) : bool :=
  (0 <=? hh) && (hh <=? 23) && (0 <=? mm) && (mm <=? 59)
  && (0 <=? ss) && (ss <=? 59).

(** [ss = int(m.group(3)) if m.group(3) else 0] *)
Definition seconds_group (g3 : option string) : Z :=
  match g3 with
  | Some g => if String.eqb g "" then 0 else Py.int g
  | None => 0
  end.

(** The body of the 12-hour branch, after the groups are read. *)
Definition ampm_branch (hh mm ss : Z) (ampm : string) : string :=
  let hh := if Py.contains "pm" ampm && (hh <? 12) then hh + 12 else hh in
  let hh := if Py.contains "am" ampm && (hh =? 12) then 0 else hh in
  if negb (time_in_range hh mm ss) then "" else fmt_time hh mm ss.

(** [s.strip().lower().replace(".", "")] *)
Definition time_text (s : string) : string :=
  Py.remove_char "." (Py.lower (Py.strip s)).

Definition _normalize_time_str (s : string) : string :=
  if is_sentinel s then "" else
  let s0 := time_text s in
  match Re._time_hhmm_ampm s0 with
  | Some (g1, g2, g3, g4) =>
      ampm_branch (Py.int g1) (Py.int g2) (seconds_group g3) (Py.lower g4)
  | None =>
      match Re._time_hhmm_24 s0 with
      | Some (g1, g2, g3) =>
          let hh := Py.int g1 in
          let mm := Py.int g2 in
          let ss := seconds_group g3 in
          if negb (time_in_range hh mm ss) then "" else fmt_time hh mm ss
      | None => ""
      end
  end.

(** ** Timestamps *)

Module Calendar.

Definition is_leap (y : Z) : bool :=
  (y mod 4 =? 0) && (negb (y mod 100 =? 0) || (y mod 400 =? 0)).

Definition days_in_month (y m : Z) : Z :=
  if (m =? 2) then (if is_leap y then 29 else 28)
  else if (m =? 4) || (m =? 6) || (m =? 9) || (m =? 11) then 30
  else 31.

(** The calendar check of [datetime]: years 1 to 9999. *)
Definition valid_date (y m d : Z) : bool :=
  (1 <=? y) && (y <=? 9999) && (1 <=? m) && (m <=? 12)
  && (1 <=? d) && (d <=? days_in_month y m).

(** Days from 1970-01-01 to the given day of the proleptic Gregorian
    calendar. *)
Definition days_from_civil (y m d : Z) : Z :=
  let y' := if m <=? 2 then y - 1 else y in
  let era := y' / 400 in
  let yoe := y' - era * 400 in
  let mp := (m + 9) mod 12 in
  let doy := (153 * mp + 2) / 5 + d - 1 in
  let doe := yoe * 365 + yoe / 4 - yoe / 100 + doy in
  era * 146097 + doe - 719468.

Definition epoch_seconds (y m d hh mm ss : Z) : Z :=
  days_from_civil y m d * 86400 + hh * 3600 + mm * 60 + ss.

(** The whole seconds a 64-bit count of nanoseconds can hold:
    1677-09-21 00:12:44 to 2262-04-11 23:47:16. *)
Definition ts_min : Z := -9223372036.
Definition ts_max : Z := 9223372036.

Definition representable (t : Z) : bool := (ts_min <=? t) && (t <=? ts_max).

End Calendar.

(** Exactly [n] digits at the head of [s]: their value and the rest. *)
Fixpoint fixed_digits (n : nat) (acc : Z) (s : string) : option (Z * string) :=
  match n with
  | O => Some (acc, s)
  | S n' =>
      match s with
      | String c r =>
          if Py.isdecimal c then fixed_digits n' (acc * 10 + (Py.ord c - 48)) r
          else None
      | EmptyString => None
      end
  end.

(** [pd.to_datetime(full, format="%Y-%m-%d %H:%M:%S", errors="coerce")] on
    one string. The function is the library's, not the repository's; it is
    given here on the texts the combiner passes to it, the empty string and
    the zero-padded form [YYYY-MM-DD HH:MM:SS]: a text that is not a date of
    the calendar, or an instant that 64 bits of nanoseconds cannot hold, is
    coerced to NaT ([None]). *)
Definition to_datetime (full : string) : option Z :=
  '(y, s) ← fixed_digits 4 0 full;
  s ← Re.expect "-" s;
  '(m, s) ← fixed_digits 2 0 s;
  s ← Re.expect "-" s;
  '(d, s) ← fixed_digits 2 0 s;
  s ← Re.expect " " s;
  '(hh, s) ← fixed_digits 2 0 s;
  s ← Re.expect ":" s;
  '(mm, s) ← fixed_digits 2 0 s;
  s ← Re.expect ":" s;
  '(ss, s) ← fixed_digits 2 0 s;
  if String.eqb s ""
     && Calendar.valid_date y m d && time_in_range hh mm ss
     && Calendar.representable (Calendar.epoch_seconds y m d hh mm ss)
  then Some (Calendar.epoch_seconds y m d hh mm ss) else None.

(** ** Cells and vectorised operations *)

(** A cell of a table: missing ([NaN], [NaT], [None], [pd.NA]), text, a
    number (a [float64], or an [int64] flag), or a timestamp. *)
Inductive cell :=
| NA
| Str (s : string)
| Num (x : Q)
| Ts (t : Z).

Definition cell_isna (c : cell) : bool :=
  match c with NA => true | _ => false end.

Definition as_instant (c : cell) : option Z :=
  match c with Ts t => Some t | _ => None end.

Definition of_instant (o : option Z) : cell :=
  match o with Some t => Ts t | None => NA end.

(** [True]/[False] as [1]/[0], by [.astype(int)] or by promotion to
    [float64]. *)
Definition of_bool (b : bool) : cell := Num (if b then 1%Q else 0%Q).

Definition of_number (o : option Q) : cell :=
  match o with Some x => Num x | None => NA end.

(** A comparison of two datetime cells; it is false when either is [NaT]. *)
Definition cmp_dt (f : Z → Z → bool) (a b : cell) : bool :=
  match as_instant a, as_instant b with
  | Some x, Some y => f x y
  | _, _ => false
  end.

(** [.total_seconds() / 3600.0] of a difference of [secs] seconds. *)
Definition hours (secs : Z) : Q := Qred (secs # 3600).

(** [(a - b).dt.total_seconds() / 3600.0] on one row. *)
Definition sub_hours (a b : cell) : cell :=
  match as_instant a, as_instant b with
  | Some x, Some y => Num (hours (x - y))
  | _, _ => NA
  end.

(** The larger of two datetime cells, skipping [NaT]. *)
Definition max_skipna (a b : cell) : cell :=
  match as_instant a, as_instant b with
  | Some x, Some y => Ts (Z.max x y)
  | Some x, None => Ts x
  | None, Some y => Ts y
  | None, None => NA
  end.

(** An argument of a vectorised operation: a scalar is broadcast. *)
Inductive operand (A : Type) :=
| Scalar (c : A)
| Array (l : list A).
Arguments Scalar {A} c.
Arguments Array {A} l.

Module S.

Definition isna (s : list cell) : list bool := fmap cell_isna s.
Definition notna (s : list cell) : list bool := fmap (λ c, negb (cell_isna c)) s.
Definition and_ (a b : list bool) : list bool := zip_with andb a b.
Definition or_ (a b : list bool) : list bool := zip_with orb a b.
Definition gt (a b : list cell) : list bool := zip_with (cmp_dt Z.gtb) a b.
Definition ge (a b : list cell) : list bool := zip_with (cmp_dt Z.geb) a b.
Definition le (a b : list cell) : list bool := zip_with (cmp_dt Z.leb) a b.
Definition eq (a b : list cell) : list bool := zip_with (cmp_dt Z.eqb) a b.
Definition sub_hours (a b : list cell) : list cell := zip_with sub_hours a b.
Definition astype_int (m : list bool) : list cell := fmap of_bool m.

Definition broadcast {A} (n : nat) (o : operand A) : list A :=
  match o with
  | Scalar c => replicate n c
  | Array l => l
  end.

(** [np.where(mask, x, y)] *)
Definition where_ {A} (mask : list bool) (x y : operand A) : list A :=
  zip_with (λ (m : bool) (xy : A * A), if m then xy.1 else xy.2) mask
    (zip (broadcast (length mask) x) (broadcast (length mask) y)).

(** [target.loc[mask] = src] *)
Definition loc_assign {A} (target : list A) (mask : list bool) (src : operand A)
  : list A :=
  where_ mask src (Array target).

(** [np.isfinite] on a column of floats. *)
Definition isfinite (s : list cell) : list bool :=
  fmap (λ c, match c with Num _ => true | _ => false end) s.

(** [np.maximum(s, x0)]; NaN stays NaN. *)
Definition maximum (s : list cell) (x0 : Q) : list cell :=
  fmap (λ c, match c with Num x => Num (Qmax x x0) | _ => NA end) s.

(** [pd.concat([...], axis=1).max(axis=1, skipna=True)] *)
Definition row_max (first : list cell) (others : list (list cell)) : list cell :=
  foldl (zip_with max_skipna) first others.

(** One step of a row-wise sum that skips NaN and is NaN when no value was
    seen ([min_count=1]). *)
Definition nanadd (a b : option Q) : option Q :=
  match a, b with
  | Some x, Some y => Some (x + y)%Q
  | Some x, None => Some x
  | None, y => y
  end.

(** [.sum(axis=1, min_count=1)] over the given columns of a frame of [n]
    rows. *)
Definition row_sum (n : nat) (cols : list (list (option Q))) : list (option Q) :=
  foldl (zip_with nanadd) (replicate n None) cols.

(** [a.fillna(b)] *)
Definition fillna (a b : list (option Q)) : list (option Q) :=
  zip_with (λ x y, match x with Some _ => x | None => y end) a b.

End S.

(** ** Frames *)

Record DataFrame := mkDF {
  nrows : nat;
  columns : gmap string (list cell)
}.

(** [col in df.columns] *)
Definition has_col (df : DataFrame) (col : string) : bool :=
  bool_decide (is_Some (columns df !! col)).

(** [df[col]]. Every column read this way below has been assigned before,
    so the [KeyError] of a missing label cannot occur. *)
Definition get_col (df : DataFrame) (col : string) : list cell :=
  default [] (columns df !! col).

(** [df[col] = s] *)
Definition set_col (df : DataFrame) (col : string) (s : list cell) : DataFrame :=
  mkDF (nrows df) (<[col := s]> (columns df)).

(** A statement [df[col] = f(df)]. *)
Definition assign (col : string) (f : DataFrame → list cell) (df : DataFrame)
  : DataFrame :=
  set_col df col (f df).

(** A statement [if cond(df): df[col] = f(df)]. *)
Definition assign_if (cond : DataFrame → bool) (col : string)
    (f : DataFrame → list cell) (df : DataFrame) : DataFrame :=
  if cond df then assign col f df else df.

(** The body of the pass is a sequence of such statements, run in order on
    the same frame. *)
Inductive statement :=
| Assign (col : string) (f : DataFrame → list cell)
| AssignIf (cond : DataFrame → bool) (col : string) (f : DataFrame → list cell).

Definition exec (s : statement) (df : DataFrame) : DataFrame :=
  match s with
  | Assign col f => assign col f df
  | AssignIf cond col f => assign_if cond col f df
  end.

Definition target (s : statement) : string :=
  match s with
  | Assign col _ => col
  | AssignIf _ col _ => col
  end.

Definition run (p : list statement) (df : DataFrame) : DataFrame :=
  foldl (λ d s, exec s d) df p.

Definition _safe_get (df : DataFrame) (col : string) : list cell :=
  match columns df !! col with
  | Some s => s
  | None => replicate (nrows df) NA
  end.

(** Every column has one cell per row. *)
Definition wfb (df : DataFrame) : bool :=
  forallb (λ cs : string * list cell, Nat.eqb (length cs.2) (nrows df))
          (map_to_list (columns df)).

Definition wf (df : DataFrame) : Prop := wfb df = true.

(** [\b(closed|approved|resolved|complete)\b], searched anywhere in the
    text. [prev] tells whether the character before the position is a word
    character. *)
Definition closed_words : list string :=
  ["closed"; "approved"; "resolved"; "complete"].

Definition next_is_word (s : string) : bool :=
  match s with
  | String c _ => Py.isword c
  | EmptyString => false
  end.

Fixpoint drop_prefix (w s : string) : option string :=
  match w, s with
  | EmptyString, _ => Some s
  | String a w', String b s' => if Ascii.eqb a b then drop_prefix w' s' else None
  | String _ _, EmptyString => None
  end.

Fixpoint last_is_word (prev : bool) (w : string) : bool :=
  match w with
  | EmptyString => prev
  | String c r => last_is_word (Py.isword c) r
  end.

(** The pattern matched at the head of [s]. *)
Definition word_here (prev : bool) (s : string) (w : string) : bool :=
  xorb prev (next_is_word s) &&
  match drop_prefix w s with
  | Some rest => xorb (last_is_word prev w) (next_is_word rest)
  | None => false
  end.

Fixpoint search_closed (prev : bool) (s : string) : bool :=
  existsb (word_here prev s) closed_words ||
  match s with
  | EmptyString => false
  | String c r => search_closed (Py.isword c) r
  end.

(** [s.rsplit("/", 1)[-1]]: what follows the last slash. *)
Fixpoint until_slash (s : string) : string :=
  match s with
  | EmptyString => EmptyString
  | String c r => if Ascii.eqb c "/" then EmptyString else String c (until_slash r)
  end.

Definition after_last_slash (s : string) : string :=
  Py.rev (until_slash (Py.rev s)).

(** ** The derivation pass *)

Section Derivation.

(** Two conversions are the interpreter's and the library's own:
    [str(v)] of a value that is neither text nor missing, and
    [pd.to_numeric(v, errors="coerce")] of a value that is not a float
    already (text is parsed, anything it cannot convert becomes NaN). *)
Variable str_of_value : cell → string.
Variable to_numeric_object : cell → option Q.

(** [.astype(str)] on one cell. *)
Definition astype_str (c : cell) : string :=
  match c with
  | NA => "nan"
  | Str s => s
  | _ => str_of_value c
  end.

(** [pd.to_numeric(..., errors="coerce")] on one cell. *)
Definition to_numeric (c : cell) : option Q :=
  match c with
  | NA => None
  | Num x => Some x
  | _ => to_numeric_object c
  end.

Definition _normalize_series_date (s : list cell) : list string :=
  fmap (λ c, _normalize_date_str (astype_str c)) s.

Definition _normalize_series_time (s : list cell) : list string :=
  fmap (λ c, _normalize_time_str (astype_str c)) s.

Definition combine_datetime (date_series time_series : list cell) : list cell :=
  let d := _normalize_series_date date_series in
  let t := _normalize_series_time time_series in
  let has_date := fmap (λ x, negb (String.eqb x "")) d in
  let t := S.where_ (S.and_ (fmap (λ x, String.eqb x "") t) has_date)
             (Scalar "00:00:00") (Array t) in
  let full := S.where_ has_date
                (Array (zip_with (λ a b, (a +:+ " ") +:+ b) d t)) (Scalar "") in
  fmap (λ x, of_instant (to_datetime x)) full.

(** One row of [combine_datetime]. *)
Definition combine_row (dc tc : cell) : cell :=
  let d := _normalize_date_str (astype_str dc) in
  let t := _normalize_time_str (astype_str tc) in
  let has_date := negb (String.eqb d "") in
  let t := if String.eqb t "" && has_date then "00:00:00" else t in
  of_instant (to_datetime (if has_date then (d +:+ " ") +:+ t else "")).

Definition extract_location_variable (raw : list cell) : list cell :=
  let _extract (val : cell) : cell :=
    if cell_isna val then val else
    let s := astype_str val in
    Str (if Py.contains "/" s then Py.strip (after_last_slash s) else Py.strip s) in
  fmap _extract raw.

(** [s.where(s.notna(), "").astype(str).str.strip()] of [_safe_get(df, name)] *)
Definition _nz (df : DataFrame) (series_name : string) : list string :=
  fmap (λ c, Py.strip (if cell_isna c then "" else astype_str c))
      (_safe_get df series_name).

Definition ne_empty (s : list string) : list bool :=
  fmap (λ x, negb (String.eqb x "")) s.

Definition future_columns : list string :=
  ["Root Cause Analysis"; "Correction"; "Corrective Action";
   "Labour Cost"; "Material Cost"; "Machinery Cost"; "Other Cost"; "Total Cost"].

(** [if col not in df.columns: df[col] = np.nan] *)
Definition ensure_column (df : DataFrame) (col : string) : DataFrame :=
  if has_col df col then df else set_col df col (replicate (nrows df) NA).

Definition ensure_future_columns (df : DataFrame) : DataFrame :=
  foldl ensure_column df future_columns.

Definition location_fixed (df : DataFrame) : list cell :=
  if has_col df "Location Variable"
  then extract_location_variable (_safe_get df "Location Variable")
  else replicate (nrows df) NA.

(** [eff = closed.copy(); eff.loc[mask_eff] = responded[mask_eff]] *)
Definition effective_resolution (closed responded raised : list cell) : list cell :=
  let eff := closed in
  let mask_eff :=
    S.and_ (S.and_ (S.and_ (S.isna eff) (S.notna responded)) (S.notna raised))
           (S.gt responded raised) in
  S.loc_assign eff mask_eff (Array responded).

Definition responded_not_closed (closed responded raised : list cell) : list cell :=
  S.astype_int
    (S.and_ (S.and_ (S.and_ (S.isna closed) (S.notna responded)) (S.notna raised))
            (S.gt responded raised)).

Definition close_after_response (eff responded : list cell) : list cell :=
  let mask_car :=
    S.and_ (S.and_ (S.notna eff) (S.notna responded)) (S.ge eff responded) in
  S.where_ mask_car (Array (S.sub_hours eff responded)) (Scalar NA).

Definition sla_met (deadline eff : list cell) : list cell :=
  S.where_ (S.and_ (S.notna deadline) (S.notna eff))
    (Array (fmap of_bool (S.le eff deadline))) (Scalar NA).

Definition cost_parts : list string :=
  ["Labour Cost"; "Material Cost"; "Machinery Cost"; "Other Cost"].

(** [df[[p for p in parts if p in df.columns]].apply(pd.to_numeric,
    errors="coerce").sum(axis=1, min_count=1)] *)
Definition part_sum (df : DataFrame) : list (option Q) :=
  S.row_sum (nrows df)
    (fmap (λ p, fmap to_numeric (get_col df p))
         (filter (λ p, has_col df p = true) cost_parts)).

Definition total_cost (df : DataFrame) : list cell :=
  fmap of_number (S.fillna (fmap to_numeric (get_col df "Total Cost")) (part_sum df)).

Definition has_reject_evidence (df : DataFrame) : list bool :=
  S.or_ (S.or_ (S.or_ (S.or_
    (S.notna (get_col df "_RejectedOnDT"))
    (ne_empty (_nz df "Rejected By"))) (ne_empty (_nz df "Rejected Comment")))
    (ne_empty (_nz df "Rejected On Date"))) (ne_empty (_nz df "Rejected On Time")).

Definition has_close_evidence (df : DataFrame) : list bool :=
  let cur_status := fmap Py.lower (_nz df "Current Status") in
  let closedish := fmap (search_closed false) cur_status in
  S.or_ (S.or_ (S.or_ (S.or_ (S.or_
    (S.notna (get_col df "_ClosedOnDT")) closedish)
    (ne_empty (_nz df "Closed By"))) (ne_empty (_nz df "Closed Comment")))
    (ne_empty (_nz df "Closed On Date"))) (ne_empty (_nz df "Closed On Time")).

Definition both_dt (df : DataFrame) : list bool :=
  S.and_ (S.notna (get_col df "_RejectedOnDT")) (S.notna (get_col df "_ClosedOnDT")).

Definition r2c_hours (df : DataFrame) : list cell :=
  let dur_hours :=
    S.where_ (both_dt df)
      (Array (S.sub_hours (get_col df "_ClosedOnDT") (get_col df "_RejectedOnDT")))
      (Scalar NA) in
  S.where_ (S.isfinite dur_hours) (Array (S.maximum dur_hours 0)) (Scalar NA).

Definition last_status_change (df : DataFrame) : list cell :=
  S.row_max (get_col df "_ClosedOnDT")
    [get_col df "_RejectedOnDT"; get_col df "_RespondedOnDT";
     get_col df "_EffectiveResolutionDT"].

(** The first labelling: each later assignment overwrites the earlier. *)
Definition last_status_event_object (df : DataFrame) : list cell :=
  let latest := get_col df "_LastStatusChangeDT" in
  let evt := replicate (nrows df) NA in
  let m := S.and_ (S.notna latest) (S.eq (get_col df "_ClosedOnDT") latest) in
  let evt := S.loc_assign evt m (Scalar (Str "Closed")) in
  let m := S.and_ (S.notna latest) (S.eq (get_col df "_RejectedOnDT") latest) in
  let evt := S.loc_assign evt m (Scalar (Str "Rejected")) in
  let m := S.and_ (S.notna latest) (S.eq (get_col df "_RespondedOnDT") latest) in
  let evt := S.loc_assign evt m (Scalar (Str "Responded")) in
  let m := S.and_ (S.notna latest) (S.eq (get_col df "_EffectiveResolutionDT") latest) in
  S.loc_assign evt m (Scalar (Str "Effective")).

(** The second labelling, by priority. The array of [np.where] has a string
    dtype, in which [np.nan] is the text [nan]. *)
Definition last_status_event (df : DataFrame) : list cell :=
  let latest := get_col df "_LastStatusChangeDT" in
  S.where_ (S.eq (get_col df "_ClosedOnDT") latest) (Scalar (Str "Closed"))
    (Array (S.where_ (S.eq (get_col df "_RejectedOnDT") latest) (Scalar (Str "Rejected"))
    (Array (S.where_ (S.eq (get_col df "_RespondedOnDT") latest) (Scalar (Str "Responded"))
    (Array (S.where_ (S.eq (get_col df "_EffectiveResolutionDT") latest)
              (Scalar (Str "Effective")) (Scalar (Str "nan")))))))).

(** The statements of [add_derived_columns] after the loop that creates the
    missing columns. *)
Definition derivation : list statement := [
  Assign "Location Variable (Fixed)" location_fixed;
  Assign "_RaisedOnDT" (λ df, combine_datetime
    (_safe_get df "Raised On Date") (_safe_get df "Raised On Time"));
  Assign "_DeadlineDT" (λ df, combine_datetime
    (_safe_get df "Deadline Date") (_safe_get df "Deadline Time"));
  Assign "_RespondedOnDT" (λ df, combine_datetime
    (_safe_get df "Responded On Date") (_safe_get df "Responded On Time"));
  Assign "_RejectedOnDT" (λ df, combine_datetime
    (_safe_get df "Rejected On Date") (_safe_get df "Rejected On Time"));
  Assign "_ClosedOnDT" (λ df, combine_datetime
    (_safe_get df "Closed On Date") (_safe_get df "Closed On Time"));
  Assign "_EffectiveResolutionDT" (λ df, effective_resolution
    (get_col df "_ClosedOnDT") (get_col df "_RespondedOnDT")
    (get_col df "_RaisedOnDT"));
  Assign "Computed Closure Time (Hrs)" (λ df, S.sub_hours
    (get_col df "_EffectiveResolutionDT") (get_col df "_RaisedOnDT"));
  Assign "Responding Time (Hrs)" (λ df, S.sub_hours
    (get_col df "_RespondedOnDT") (get_col df "_RaisedOnDT"));
  Assign "_RespondedNotClosed_Flag" (λ df, responded_not_closed
    (get_col df "_ClosedOnDT") (get_col df "_RespondedOnDT")
    (get_col df "_RaisedOnDT"));
  Assign "Close After Response (Hrs)" (λ df, close_after_response
    (get_col df "_EffectiveResolutionDT") (get_col df "_RespondedOnDT"));
  Assign "SLA Met" (λ df, sla_met
    (get_col df "_DeadlineDT") (get_col df "_EffectiveResolutionDT"));
  AssignIf (λ df, has_col df "Total Cost") "Total Cost" total_cost;
  Assign "_R2C_Flag" (λ df, S.astype_int
    (S.and_ (has_reject_evidence df) (has_close_evidence df)));
  Assign "_R2C_Strict_Flag" (λ df, S.astype_int (both_dt df));
  Assign "R2C Hours (>=0)" r2c_hours;
  Assign "_LastStatusChangeDT" last_status_change;
  Assign "_LastStatusEvent" last_status_event_object;
  Assign "_LastStatusEvent" last_status_event
].

Definition add_derived_columns (df : DataFrame) : DataFrame :=
  run derivation (ensure_future_columns df).

(** ** Metrics header: the SLA rate *)

Definition number_of (c : cell) : Q :=
  match c with Num x => x | _ => 0%Q end.

(** [s.mean()] of a column of floats without NaN. *)
Definition mean (s : list cell) : Q :=
  (foldl (λ acc c, acc + number_of c) 0 s / inject_Z (Z.of_nat (length s)))%Q.

(** [sla_known] and [sla_rate] of [metrics_summary]; [None] is NaN. *)
Definition sla_known (df : DataFrame) : list cell :=
  if has_col df "SLA Met"
  then filter (λ c, cell_isna c = false) (get_col df "SLA Met")
  else [].

Definition sla_rate (df : DataFrame) : option Q :=
  let known := sla_known df in
  if (0 <? length known)%nat then Some (mean known * 100)%Q else None.

End Derivation.

(** ** Notions used in the statements *)

(** The cell of row [i] in column [col], and the instant it holds. *)
Definition cell_at (df : DataFrame) (col : string) (i : nat) : option cell :=
  columns df !! col ≫= (λ s, s !! i).

Definition instant_at (df : DataFrame) (col : string) (i : nat) : option Z :=
  cell_at df col i ≫= as_instant.

(** EffectiveResolutionAt, in the words of the specification: ClosedAt if
    present; otherwise RespondedAt if RespondedAt and RaisedAt are present
    and RespondedAt is after RaisedAt; otherwise absent. *)
Definition spec_EffectiveResolutionAt (closed responded raised : option Z)
  : option Z :=
  match closed with
  | Some c => Some c
  | None =>
      match responded, raised with
      | Some rs, Some ra => if ra <? rs then Some rs else None
      | _, _ => None
      end
  end.

(** LastStatusEvent, in the words of the specification: the label of the
    candidate that equals the latest instant, by priority
    Closed > Rejected > Responded > Effective. *)
Definition spec_LastStatusEvent
    (closed rejected responded effective : option Z) (latest : Z)
  : option string :=
  if bool_decide (closed = Some latest) then Some "Closed"
  else if bool_decide (rejected = Some latest) then Some "Rejected"
  else if bool_decide (responded = Some latest) then Some "Responded"
  else if bool_decide (effective = Some latest) then Some "Effective"
  else None.

(** SLAMet, in the words of the specification: the truth value of
    EffectiveResolutionAt ≤ DeadlineAt when both are present, unknown
    otherwise. The outer [None] is "unknown". *)
Definition spec_SLAMet (effective deadline : option Z) : option bool :=
  match effective, deadline with
  | Some e, Some d => Some (e <=? d)
  | _, _ => None
  end.

(** The cell of a ternary value: [1.0], [0.0] or NaN. *)
Definition of_ternary (o : option bool) : cell :=
  match o with Some b => of_bool b | None => NA end.

(** The R2C duration, in the words of the specification:
    max(ClosedAt − RejectedAt, 0) in hours when both are present. *)
Definition spec_R2C_hours (rejected closed : option Z) : option Q :=
  match rejected, closed with
  | Some j, Some c => Some (hours (Z.max (c - j) 0))
  | _, _ => None
  end.

(** The fallback of the cost reconciliation, in the words of the
    specification: the sum of the component costs that are numeric, missing
    when none is. *)
Definition spec_part_sum (parts : list (option Q)) : option Q :=
  match omap id parts with
  | [] => None
  | x :: xs => Some (foldl Qplus x xs)
  end.

Definition spec_reconciled (total : option Q) (parts : list (option Q))
  : option Q :=
  match total with
  | Some x => Some x
  | None => spec_part_sum parts
  end.

(** Counting the cells of a column that satisfy a test. *)
Definition count (f : cell → bool) (s : list cell) : nat :=
  length (filter (λ c, f c = true) s).

Definition is_known (c : cell) : bool := negb (cell_isna c).

Definition is_met (c : cell) : bool :=
  match c with Num x => Qeq_bool x 1 | _ => false end.

(** A cell of a datetime column: a timestamp or NaT. *)
Definition datetime_cell (c : cell) : Prop := c = of_instant (as_instant c).

(** Two frames agree on the columns [R] and on the number of rows. *)
Definition agree (R : list string) (d d' : DataFrame) : Prop :=
  nrows d = nrows d' ∧ ∀ x, x ∈ R → columns d !! x = columns d' !! x.

(** [f] reads no column outside [R]. *)
Definition local {A} (R : list string) (f : DataFrame → A) : Prop :=
  ∀ d d', agree R d d' → f d = f d'.

(** No statement of [p] assigns a column of [R]. *)
Definition untouched (R : list string) (p : list statement) : bool :=
  forallb (λ x, negb (existsb (String.eqb x) (target <$> p))) R.

(** A text made of decimal digits only. *)
Definition all_digits (s : string) : Prop :=
  ∀ c, In c (list_ascii_of_string s) → Py.isdecimal c = true.

(** The strict parse reads back the formatted number [y]. *)
Definition roundtrip_ok (w : nat) (y : Z) : bool :=
  match fixed_digits w 0 (Py.fmt_0d w y) with
  | Some (v, "") => v =? y
  | _ => false
  end.

(** A cell of the SLA column. *)
Definition ternary_cell (c : cell) : Prop := c = NA ∨ c = Num 1 ∨ c = Num 0.

(** ** A sample register

    Ten rows. Rows 2, 3 and 4 have no deadline or no effective resolution;
    row 1 is responded but not closed; row 5 is closed and responded at the
    same instant; row 6 is rejected after it is closed. Numbers occur in the
    cost columns only, which are never converted to text, and the one text
    in a cost column is not a number. *)

Definition sample_str_of_value : cell → string := λ _, "".
Definition sample_to_numeric_object : cell → option Q := λ _, None.

Definition sample : DataFrame := mkDF 10 (list_to_map [
  ("Raised On Date",
   [Str "01/01/2024"; Str "01/01/2024"; Str "01/01/2024"; Str "05/01/2024"; NA;
    Str "05/01/2024"; Str "01/01/2024"; Str "01/01/2024"; Str "2024-01-01";
    Str "1-1-24"]);
  ("Raised On Time",
   [Str "9:00"; NA; NA; NA; NA; NA; NA; NA; Str "08:15:30"; Str "7:45 PM"]);
  ("Deadline Date",
   [Str "05/01/2024"; Str "02/01/2024"; NA; Str "10/01/2024"; NA;
    Str "07/01/2024"; Str "06/01/2024"; Str "03/01/2024"; Str "2024-01-31";
    Str "02/01/2024"]);
  ("Responded On Date",
   [Str "02/01/2024"; Str "03/01/2024"; NA; Str "04/01/2024"; NA;
    Str "06/01/2024"; NA; NA; NA; NA]);
  ("Responded On Time",
   [Str "10:00am"; NA; NA; NA; NA; Str "10:00"; NA; NA; NA; NA]);
  ("Rejected On Date",
   [NA; NA; NA; NA; NA; NA; Str "08/01/2024"; Str "02/01/2024"; NA; NA]);
  ("Closed On Date",
   [Str "03/01/2024"; NA; Str "02/01/2024"; NA; NA; Str "06/01/2024";
    Str "07/01/2024"; Str "03/01/2024"; Str "2024-01-15"; Str "09/01/2024"]);
  ("Closed On Time",
   [Str "2:30pm"; NA; NA; NA; NA; Str "10:00 a.m."; NA; NA; NA; NA]);
  ("Labour Cost",
   [Num 100; Num 10; NA; NA; NA; NA; NA; NA; NA; NA]);
  ("Machinery Cost",
   [Num 50; Num 20; Str "n/a"; NA; NA; NA; NA; NA; NA; NA]);
  ("Total Cost",
   [NA; Num 500; NA; NA; NA; NA; NA; NA; NA; NA])
]).

Definition sample_out : DataFrame :=
  add_derived_columns sample_str_of_value sample_to_numeric_object sample.

(** ** Further notions used in the statements *)

(** The integers [0 .. n-1]. *)
Definition Zrange (n : Z) : list Z := Z.of_nat <$> seq 0 (Z.to_nat n).

(** The hour of the 24-hour clock for an hour of the 12-hour clock. *)
Definition hour24 (h : Z) (pm : bool) : Z :=
  if pm then (if h =? 12 then 12 else h + 12)
  else (if h =? 12 then 0 else h).

(** The 12-hour time [H:MM] followed by the marker [mk] is normalised to
    the 24-hour time. *)
Definition time_hm_ok (mk : string * bool) (h m : Z) : bool :=
  String.eqb
    (_normalize_time_str (Py.digits h +:+ ":" +:+ Py.fmt_0d 2 m +:+ mk.1))
    (fmt_time (hour24 h mk.2) m 0).

(** Spellings of the marker, with whether they mean the afternoon. *)
Definition markers : list (string * bool) :=
  [("am", false); ("pm", true); (" AM", false); (" PM", true);
   ("a.m.", false); (" P.M.", true)].

Definition plain_markers : list (string * bool) := [("am", false); ("pm", true)].

(** Every character of a text passes a test. *)
Fixpoint string_forallb (f : ascii → bool) (s : string) : bool :=
  match s with
  | EmptyString => true
  | String c r => f c && string_forallb f r
  end.

(** The text of [n] in a field of [w] zeros is [w] digits that read [n]. *)
Definition fmt_ok (w : nat) (n : Z) : bool :=
  string_forallb Py.isdecimal (Py.fmt_0d w n)
  && Nat.eqb (String.length (Py.fmt_0d w n)) w
  && (Py.int (Py.fmt_0d w n) =? n).

(** The first character of a text passes a test; false on the empty text. *)
Definition head_is (f : ascii → bool) (s : string) : bool :=
  match s with
  | String c _ => f c
  | EmptyString => false
  end.

(** The last character of a text passes a test; false on the empty text. *)
Definition last_is (f : ascii → bool) (s : string) : bool :=
  head_is f (Py.rev s).

(** A text of white space only, possibly empty. *)
Definition white (s : string) : bool := string_forallb Py.isspace s.

(** A text of [lo] to [hi] digits: what a group [\d{lo,hi}] matches. *)
Definition digit_group (lo hi : nat) (g : string) : bool :=
  string_forallb Py.isdecimal g
  && (lo <=? String.length g)%nat && (String.length g <=? hi)%nat.

(** The cell of row [i] of a raw column; a column that is missing reads as
    missing values, as [_safe_get] has it. *)
Definition field (df : DataFrame) (col : string) (i : nat) : cell :=
  default NA (_safe_get df col !! i).

(** The datetime columns of the pass with the raw date and time columns
    each is combined from. *)
Definition datetime_sources : list (string * (string * string)) :=
  [("_RaisedOnDT", ("Raised On Date", "Raised On Time"));
   ("_DeadlineDT", ("Deadline Date", "Deadline Time"));
   ("_RespondedOnDT", ("Responded On Date", "Responded On Time"));
   ("_RejectedOnDT", ("Rejected On Date", "Rejected On Time"));
   ("_ClosedOnDT", ("Closed On Date", "Closed On Time"))].

(** The evidence of a rejection and of a closure on one row, as the masks
    of the pass have it. *)
Section Evidence.

Variable str_of_value : cell → string.

(** One cell of [_nz]: the stripped text, a missing value being empty. *)
Definition nz_text (c : cell) : string :=
  Py.strip (if cell_isna c then "" else astype_str str_of_value c).

Definition filled (c : cell) : bool := negb (String.eqb (nz_text c) "").

Definition present (o : option Z) : bool :=
  match o with Some _ => true | None => false end.

Definition reject_evidence_row (df : DataFrame) (i : nat) (rejected : option Z)
  : bool :=
  present rejected
  || filled (field df "Rejected By" i) || filled (field df "Rejected Comment" i)
  || filled (field df "Rejected On Date" i)
  || filled (field df "Rejected On Time" i).

Definition close_evidence_row (df : DataFrame) (i : nat) (closed : option Z)
  : bool :=
  present closed
  || search_closed false (Py.lower (nz_text (field df "Current Status" i)))
  || filled (field df "Closed By" i) || filled (field df "Closed Comment" i)
  || filled (field df "Closed On Date" i) || filled (field df "Closed On Time" i).

End Evidence.

(** The columns the pass adds to the frame, in the order of their first
    assignment. *)
Definition derived_columns : list string :=
  ["Location Variable (Fixed)"; "_RaisedOnDT"; "_DeadlineDT"; "_RespondedOnDT";
   "_RejectedOnDT"; "_ClosedOnDT"; "_EffectiveResolutionDT";
   "Computed Closure Time (Hrs)"; "Responding Time (Hrs)";
   "_RespondedNotClosed_Flag"; "Close After Response (Hrs)"; "SLA Met";
   "_R2C_Flag"; "_R2C_Strict_Flag"; "R2C Hours (>=0)"; "_LastStatusChangeDT";
   "_LastStatusEvent"].

(** An operand of a vectorised operation fits a column of [n] rows. *)
Definition fits {A} (n : nat) (o : operand A) : Prop :=
  match o with
  | Scalar _ => True
  | Array l => length l = n
  end.

(** ** Metrics header: the counts

    [total_issues], [resolved] and [open_issues] of [metrics_summary]. *)

Definition total_issues (df : DataFrame) : Z := Z.of_nat (nrows df).

(** [(df["_EffectiveResolutionDT"].notna()).sum()] *)
Definition resolved (df : DataFrame) : Z :=
  Z.of_nat (count is_known (get_col df "_EffectiveResolutionDT")).

Definition open_issues (df : DataFrame) : Z := total_issues df - resolved df.

(** A character that [lower] and the removal of periods leave alone. *)
Definition plain_char (c : ascii) : bool :=
  Ascii.eqb (Py.lower_char c) c && negb (Ascii.eqb c ".").

(** ** Durations in words: [humanize_td]

    A [Timedelta] is its count of nanoseconds; [None] is [NaT]. *)

(** [int(x.total_seconds())]: [total_seconds] adds the days, the seconds and
    the microseconds of the duration (pandas 2; what is below a microsecond
    is not counted), which is the whole microseconds over a million, and
    [int] cuts the fraction off towards zero. *)
Definition total_seconds_int (ns : Z) : Z :=
  Z.quot (ns / 1000) 1000000.

(** [sep.join(parts)] *)
Fixpoint join (sep : string) (parts : list string) : string :=
  match parts with
  | [] => ""
  | [p] => p
  | p :: rest => p +:+ sep +:+ join sep rest
  end.

(** [if n: parts.append(f"{n}{unit}")] *)
Definition part (n : Z) (unit : string) : list string :=
  if n =? 0 then [] else [Py.digits n +:+ unit].

(** [_fmt] of [humanize_td] *)
Definition humanize (x : option Z) : string :=
  match x with
  | None => ""
  | Some ns =>
      let total_seconds := total_seconds_int ns in
      if total_seconds <? 0 then "" else
      let days := total_seconds / 86400 in
      let rem := total_seconds mod 86400 in
      let hours := rem / 3600 in
      let rem := rem mod 3600 in
      let minutes := rem / 60 in
      let parts := (part days "d" ++ part hours "h" ++ part minutes "m")%list in
      match parts with
      | [] => "0m"
      | _ => join " " parts
      end
  end.

Definition humanize_td (td : list (option Z)) : list string := humanize <$> td.

(** ** Colours: [_hex_to_rgb] and [_rgb_to_hex] *)

(** The value of a hexadecimal digit, in either case. *)
Definition hex_value (c : ascii) : option Z :=
  let n := Py.ord c in
  if (48 <=? n) && (n <=? 57) then Some (n - 48)
  else if (65 <=? n) && (n <=? 70) then Some (n - 55)
  else if (97 <=? n) && (n <=? 102) then Some (n - 87)
  else None.

(** [int(s, 16)] on a slice of at most two characters: white space around
    the text and a sign before it are accepted, then one or two hexadecimal
    digits must follow; [None] is [ValueError]. (A prefix [0x] or an
    underscore needs more characters than a slice has.) *)
Definition int16 (s : string) : option Z :=
  let s := Py.strip s in
  let '(sign, s) :=
    match s with
    | String "+" r => (1, r)
    | String "-" r => (-1, r)
    | _ => (1, s)
    end in
  match s with
  | String a EmptyString => v ← hex_value a; Some (sign * v)
  | String a (String b EmptyString) =>
      v ← hex_value a; w ← hex_value b; Some (sign * (16 * v + w))
  | _ => None
  end.

(** [h.lstrip("#")] *)
Fixpoint lstrip_hash (h : string) : string :=
  match h with
  | String "#" r => lstrip_hash r
  | _ => h
  end.

(** [tuple(int(h[i:i+2], 16) for i in (0, 2, 4))] *)
Definition _hex_to_rgb (h : string) : option (Z * Z * Z) :=
  let h := lstrip_hash h in
  r ← int16 (String.substring 0 2 h);
  g ← int16 (String.substring 2 2 h);
  b ← int16 (String.substring 4 2 h);
  Some (r, g, b).

(** One hexadecimal digit in capitals. *)
Definition hex_digit (n : Z) : ascii :=
  ascii_of_N (Z.to_N (if n <? 10 then 48 + n else 55 + n)).

(** The hexadecimal digits of a non-negative number, most significant
    first; [fuel] bounds their number. *)
Fixpoint hex_digits_aux (fuel : nat) (n : Z) (acc : string) : string :=
  match fuel with
  | O => acc
  | S fuel' =>
      let acc := String (hex_digit (n mod 16)) acc in
      if n / 16 =? 0 then acc else hex_digits_aux fuel' (n / 16) acc
  end.

Definition hex_digits (n : Z) : string :=
  hex_digits_aux (S (Z.to_nat (Z.log2 n))) n "".

(** The format [%02X]: the sign first, then zeros up to width 2. *)
Definition fmt_02X (n : Z) : string :=
  if n <? 0 then
    let ds := hex_digits (- n) in
    String "-" (Py.zeros (1 - String.length ds) +:+ ds)
  else
    let ds := hex_digits n in
    Py.zeros (2 - String.length ds) +:+ ds.

(** ["#%02X%02X%02X" % rgb] *)
Definition _rgb_to_hex (rgb : Z * Z * Z) : string :=
  let '(r, g, b) := rgb in
  "#" +:+ fmt_02X r +:+ fmt_02X g +:+ fmt_02X b.

(** One component survives the round trip. *)
Definition hex_ok (n : Z) : bool :=
  match fmt_02X n with
  | String a (String b EmptyString) =>
      negb (Ascii.eqb a "#")
      && match int16 (String a (String b "")) with
         | Some v => v =? n
         | None => false
         end
  | _ => false
  end.

(** ** Column labels: [normalize_colname] and the end of [load_data]

    A label may hold any character, so here a text is the list of its code
    points. *)

Module U.

(** [str.isspace] on one code point, which is also [\s] of [re] on text. *)
Definition isspace (c : Z) : bool :=
  ((9 <=? c) && (c <=? 13)) || ((28 <=? c) && (c <=? 32))
  || (c =? 133) || (c =? 160) || (c =? 5760)
  || ((8192 <=? c) && (c <=? 8202))
  || (c =? 8232) || (c =? 8233) || (c =? 8239) || (c =? 8287) || (c =? 12288).

(** [s.replace(a, b)] for one-character [a] and [b]. *)
Definition replace (a b : Z) (s : list Z) : list Z :=
  (λ c, if c =? a then b else c) <$> s.

(** [re.sub(r"\s+", " ", s)]: every run of white space becomes one blank.
    [in_run] tells whether the character before is white space. *)
Fixpoint collapse (in_run : bool) (s : list Z) : list Z :=
  match s with
  | [] => []
  | c :: r =>
      if isspace c then (if in_run then collapse true r else 32 :: collapse true r)
      else c :: collapse false r
  end.

Fixpoint lstrip (s : list Z) : list Z :=
  match s with
  | [] => []
  | c :: r => if isspace c then lstrip r else s
  end.

(** The text without the white space at its end. *)
Fixpoint rstrip (s : list Z) : list Z :=
  match s with
  | [] => []
  | c :: r =>
      match rstrip r with
      | [] => if isspace c then [] else [c]
      | r' => c :: r'
      end
  end.

Definition strip (s : list Z) : list Z := rstrip (lstrip s).

End U.

(** The three replacements are of the en dash (code point 8211), the em
    dash (8212) and the no-break space (160). *)
Definition normalize_colname (c : list Z) : list Z :=
  let s := U.replace 160 32 (U.replace 8212 45 (U.replace 8211 45 c)) in
  let s := U.strip (U.collapse false s) in
  s.

(** The columns of a frame being read, in their order, with their labels;
    labels may repeat. *)
Definition labelled (A : Type) : Type := list (list Z * A).

(** [df.rename(columns={c: normalize_colname(c) for c in df.columns})] *)
Definition rename_columns {A} (cols : labelled A) : labelled A :=
  (λ p, (normalize_colname p.1, p.2)) <$> cols.

(** [df.loc[:, ~pd.Series(df.columns).duplicated().values]]: a column whose
    label was seen before is dropped. *)
Fixpoint drop_duplicated {A} (seen : list (list Z)) (cols : labelled A)
  : labelled A :=
  match cols with
  | [] => []
  | p :: r =>
      if bool_decide (p.1 ∈ seen) then drop_duplicated seen r
      else p :: drop_duplicated (p.1 :: seen) r
  end.

(** The last two statements of [load_data]. *)
Definition load_columns {A} (cols : labelled A) : labelled A :=
  drop_duplicated [] (rename_columns cols).

(** [df.columns = [c.strip() for c in df.columns]] of [preprocess] *)
Definition strip_labels {A} (cols : labelled A) : labelled A :=
  (λ p, (U.strip p.1, p.2)) <$> cols.

(** The first column with the label [k]. *)
Fixpoint first_labelled {A} (k : list Z) (cols : labelled A) : option A :=
  match cols with
  | [] => None
  | p :: r => if bool_decide (p.1 = k) then Some p.2 else first_labelled k r
  end.

(** A text in which white space is single blanks between other characters,
    [prev] telling whether a blank may not come first. *)
Fixpoint tidy (prev : bool) (s : list Z) : bool :=
  match s with
  | [] => true
  | c :: r =>
      if c =? 32 then negb prev && tidy true r
      else negb (U.isspace c) && tidy false r
  end.

(** No en dash and no em dash. *)
Definition no_dash (s : list Z) : bool :=
  forallb (λ c, negb (c =? 8211) && negb (c =? 8212)) s.

(** ** The filtered view

    [filtered_view] reads its selections from the widgets of the sidebar;
    here they are a parameter. A selection is the list of the chosen texts,
    empty when nothing is chosen; a bound of the date range is the number
    of the day since 1970-01-01, [None] when the date filter is off. *)

Record filters := mkFilters {
  proj : list string;
  status : list string;
  types_l0 : list string;
  types_l1 : list string;
  types_l2 : list string;
  tags1 : list string;
  tags2 : list string;
  raised_by : list string;
  assigned_team : list string;
  assigned_user : list string;
  date_min : option Z;
  date_max : option Z
}.

(** The columns that are filtered, each with its selection, in the order of
    the source. *)
Definition filter_columns (f : filters) : list (string * list string) :=
  [("Project Name", proj f); ("Current Status", status f);
   ("Type L0", types_l0 f); ("Type L1", types_l1 f); ("Type L2", types_l2 f);
   ("Tag 1", tags1 f); ("Tag 2", tags2 f); ("Raised By", raised_by f);
   ("Assigned Team", assigned_team f); ("Assigned Team User", assigned_user f)].

(** [df.loc[m]] on one column. *)
Fixpoint mask_filter {A} (m : list bool) (l : list A) : list A :=
  match m, l with
  | b :: m', x :: l' => if b then x :: mask_filter m' l' else mask_filter m' l'
  | _, _ => []
  end.

(** [df.loc[m].copy()] *)
Definition select_rows (m : list bool) (df : DataFrame) : DataFrame :=
  mkDF (length (filter (λ b, b = true) m)) (mask_filter m <$> columns df).

(** [m &= x]; [None] is an exception raised on the way. *)
Definition and_mask (m x : option (list bool)) : option (list bool) :=
  m ← m; x ← x; Some (zip_with andb m x).

(** [.dt.date] of one cell: the day of the instant. *)
Definition date_of (c : cell) : option Z :=
  (λ t, t / 86400) <$> as_instant c.

(** A column of timestamps and [NaT] only: the columns on which [.dt] is
    defined. *)
Definition datetime_column (col : list cell) : bool :=
  forallb (λ c, match c with NA | Ts _ => true | _ => false end) col.

(** [(df["_RaisedOnDT"].dt.date >= d).fillna(False)], and the same with
    [<=]. A row with no instant fails the comparison. [None] is an
    exception: [KeyError] when the column is missing, [AttributeError] of
    [.dt] when it is not a datetime column, and [TypeError] when the column
    has rows and all of them are [NaT], for then the days of [.dt.date] are
    again a datetime column, which is not compared with a date. *)
Definition date_mask (cmp : Z → Z → bool) (df : DataFrame) (d : Z)
  : option (list bool) :=
  match columns df !! "_RaisedOnDT" with
  | Some col =>
      if negb (datetime_column col) then None
      else if (0 <? length col)%nat && forallb cell_isna col then None
      else
        Some ((λ c, match date_of c with Some x => cmp x d | None => false end)
                <$> col)
  | None => None
  end.

Section View.

Variable str_of_value : cell → string.

(** [match(col, sel)] for a selection that is not empty:
    [df.get(col).astype(str).isin(sel)]; a missing column gives [None], on
    which [.astype] raises. *)
Definition match_ (df : DataFrame) (col : string) (sel : list string)
  : option (list bool) :=
  match columns df !! col with
  | Some s => Some ((λ c, bool_decide (astype_str str_of_value c ∈ sel)) <$> s)
  | None => None
  end.

(** [if sel: m &= match(col, sel)] *)
Definition filter_step (df : DataFrame) (m : option (list bool))
    (cs : string * list string) : option (list bool) :=
  match cs.2 with
  | [] => m
  | _ => and_mask m (match_ df cs.1 cs.2)
  end.

(** The mask of the rows that are kept. *)
Definition view_mask (df : DataFrame) (f : filters) : option (list bool) :=
  let m := Some (replicate (nrows df) true) in
  let m := foldl (filter_step df) m (filter_columns f) in
  let m := match date_min f with
           | Some d => and_mask m (date_mask Z.geb df d)
           | None => m
           end in
  match date_max f with
  | Some d => and_mask m (date_mask Z.leb df d)
  | None => m
  end.

Definition filtered_view (df : DataFrame) (f : filters) : option DataFrame :=
  m ← view_mask df f; Some (select_rows m df).

End View.

(** No selection and no date range. *)
Definition no_filters : filters :=
  mkFilters [] [] [] [] [] [] [] [] [] [] None None.

(** A small register for the view: three rows, the last with no RaisedAt;
    the status Open is selected and the range starts on 2024-01-01, the day
    19723. *)
Definition view_sample : DataFrame := mkDF 3 (list_to_map [
  ("Current Status", [Str "Open"; Str "Closed"; Str "Open"]);
  ("_RaisedOnDT", [Ts 1704099600; Ts 1704186000; NA])
]).

Definition view_filters : filters :=
  mkFilters [] ["Open"] [] [] [] [] [] [] [] [] (Some 19723) None.

(** Two issues with no RaisedAt. *)
Definition view_undated : DataFrame := mkDF 2 (list_to_map [
  ("Current Status", [Str "Open"; Str "Open"]);
  ("_RaisedOnDT", [NA; NA])
]).
(** * Properties *)

(** ** The normalisers *)

Lemma append_cons_nonempty (a b : string) (c : ascii) : a +:+ String c b ≠ "".
Proof. destruct a; discriminate. Qed.

Lemma fmt_time_nonempty hh mm ss : fmt_time hh mm ss ≠ "".
Proof. unfold fmt_time. apply append_cons_nonempty. Qed.

Lemma fmt_date_nonempty y m d : fmt_date y m d ≠ "".
Proof. unfold fmt_date. apply append_cons_nonempty. Qed.

Lemma int_acc_nonneg s : ∀ acc, all_digits s → 0 ≤ acc → 0 ≤ Py.int_acc acc s.
Proof.
  induction s as [|c r IH]; intros acc Hd Hacc; simpl; [done|].
  apply IH.
  - intros x Hx. apply Hd. simpl. by right.
  - assert (Hc : Py.isdecimal c = true) by (apply Hd; simpl; by left).
    unfold Py.isdecimal in Hc. lia.
Qed.

Lemma int_nonneg s : all_digits s → 0 ≤ Py.int s.
Proof. intros. by apply int_acc_nonneg. Qed.

Lemma span_digits_all s : ∀ ds r, Re.span_digits s = (ds, r) → all_digits ds.
Proof.
  induction s as [|c s IH]; intros ds r; simpl.
  - intros [= <- <-]. intros x [].
  - destruct (Py.isdecimal c) eqn:Hc.
    + destruct (Re.span_digits s) as [ds' r'] eqn:Hs. intros [= <- <-].
      intros x [<-|Hx]; [done|]. by eapply IH.
    + intros [= <- <-]. intros x [].
Qed.

Lemma digits_between_all lo hi s ds r :
  Re.digits_between lo hi s = Some (ds, r) → all_digits ds.
Proof.
  unfold Re.digits_between. destruct (Re.span_digits s) as [ds' r'] eqn:Hs.
  case_match; [|done]. intros [= <- <-]. by eapply span_digits_all.
Qed.

Lemma match_hms_digits s g1 g2 g3 r :
  Re.match_hms s = Some (g1, g2, g3, r) →
  all_digits g1 ∧ all_digits g2 ∧ (∀ g, g3 = Some g → all_digits g).
Proof.
  unfold Re.match_hms. intros H.
  destruct (Re.digits_between 1 2 (Py.lstrip s)) as [[a s1]|] eqn:H1; [|done].
  simpl in H. destruct (Re.expect ":" s1) as [s2|]; [|done]. simpl in H.
  destruct (Re.digits_between 2 2 s2) as [[b s3]|] eqn:H2; [|done]. simpl in H.
  assert (Ha := digits_between_all _ _ _ _ _ H1).
  assert (Hb := digits_between_all _ _ _ _ _ H2).
  destruct s3 as [|c s3].
  - injection H as <- <- <- <-. by repeat split.
  - destruct (Ascii.eqb c ":") eqn:Hc.
    + apply Ascii.eqb_eq in Hc as ->.
      destruct (Re.digits_between 2 2 s3) as [[g s4]|] eqn:H3; [|done].
      simpl in H. injection H as <- <- <- <-. repeat split; try done.
      intros g' [= <-]. by eapply digits_between_all.
    + assert (H' : Some (a, b, @None string, String c s3) = Some (g1, g2, g3, r)).
      { rewrite <- H. clear -Hc. destruct c as [[] [] [] [] [] [] [] []]; try done. }
      injection H' as <- <- <- <-. by repeat split.
Qed.

Lemma seconds_group_nonneg g3 :
  (∀ g, g3 = Some g → all_digits g) → 0 ≤ seconds_group g3.
Proof.
  intros H. destruct g3 as [g|]; simpl; [|done].
  case_match; [done|]. apply int_nonneg. by apply H.
Qed.


(** The encodings the parser recognises, on examples: day first with a
    slash or a dash, year first with a dash, two-digit years around 70,
    surrounding blanks, the sentinels; 12-hour and 24-hour times. *)
Example normalize_date_examples :
  _normalize_date_str "15/01/2024" = "2024-01-15"
  ∧ _normalize_date_str " 5-1-2024 " = "2024-01-05"
  ∧ _normalize_date_str "2024-1-5" = "2024-01-05"
  ∧ _normalize_date_str "1/2/01" = "2001-02-01"
  ∧ _normalize_date_str "1/2/69" = "2069-02-01"
  ∧ _normalize_date_str "1/2/70" = "1970-02-01"
  ∧ _normalize_date_str "1/2/75" = "1975-02-01"
  ∧ _normalize_date_str "NaT" = ""
  ∧ _normalize_date_str "none" = ""
  ∧ _normalize_date_str "" = ""
  ∧ _normalize_date_str "15.01.2024" = ""
  ∧ _normalize_date_str "15/01/20245" = ""
  ∧ _normalize_date_str "Jan 15, 2024" = "".
Proof. repeat split; vm_compute; reflexivity. Qed.

Example normalize_time_examples :
  _normalize_time_str "2:30pm" = "14:30:00"
  ∧ _normalize_time_str "2:30 P.M." = "14:30:00"
  ∧ _normalize_time_str "12:05 am" = "00:05:00"
  ∧ _normalize_time_str "12:05:59 pm" = "12:05:59"
  ∧ _normalize_time_str "14:30:00" = "14:30:00"
  ∧ _normalize_time_str " 7:05 " = "07:05:00"
  ∧ _normalize_time_str "24:00" = ""
  ∧ _normalize_time_str "23:60" = ""
  ∧ _normalize_time_str "23:59:60" = ""
  ∧ _normalize_time_str "7:5" = ""
  ∧ _normalize_time_str "nan" = ""
  ∧ _normalize_time_str "noon" = "".
Proof. repeat split; vm_compute; reflexivity. Qed.

Lemma ampm_groups_digits s g1 g2 g3 g4 :
  Re._time_hhmm_ampm s = Some (g1, g2, g3, g4) →
  all_digits g1 ∧ all_digits g2 ∧ (∀ g, g3 = Some g → all_digits g).
Proof.
  unfold Re._time_hhmm_ampm. intros H.
  destruct (Re.match_hms s) as [[[[a b] c] r]|] eqn:Hm; [|done]. simpl in H.
  destruct (Re.match_marker (Py.lstrip r)); [|done]. simpl in H.
  injection H as <- <- <- <-. by eapply match_hms_digits.
Qed.

(** The 12-hour branch leaves an hour above 12 as it is. *)
Lemma ampm_branch_above_12 hh mm ss ampm :
  12 < hh →
  ampm_branch hh mm ss ampm
  = if time_in_range hh mm ss then fmt_time hh mm ss else "".
Proof.
  intros Hh. unfold ampm_branch.
  replace (hh <? 12) with false by lia. rewrite andb_false_r.
  replace (hh =? 12) with false by lia. rewrite andb_false_r.
  by destruct (time_in_range hh mm ss).
Qed.

(** Once a date pattern has matched, the result is the formatted text: no
    branch of [_normalize_date_str] rejects the digits it has read. *)
Lemma normalize_date_match_never_absent s :
  is_sentinel s = false →
  is_Some (match_ddmmyyyy (Py.strip s))
  ∨ is_Some (Re._date_yyyymmdd_dash (Py.strip s)) →
  _normalize_date_str s ≠ "".
Proof.
  intros Hs Hm. unfold _normalize_date_str. rewrite Hs.
  destruct (match_ddmmyyyy (Py.strip s)) as [[[g1 g2] g3]|].
  - apply fmt_date_nonempty.
  - destruct Hm as [[? Hm]|[[[h1 h2] h3] Hm]]; [discriminate|].
    rewrite Hm. apply fmt_date_nonempty.
Qed.

(** C4: a date whose digits match the day/month/year pattern but name no
    day of the calendar (day 32 of month 13) is not normalised to the empty
    result: the formatted text comes back as it was read, because the
    [try] around the formatting can never fail. The strict parse of the
    combiner is what turns it into NaT later. *)
Theorem normalize_date_keeps_invalid_calendar_date :
  _normalize_date_str "32/13/2024" = "2024-13-32"
  ∧ _normalize_date_str "2024-13-32" = "2024-13-32"
  ∧ Calendar.valid_date 2024 13 32 = false
  ∧ to_datetime ("2024-13-32" +:+ " 00:00:00") = None.
Proof. repeat split; vm_compute; reflexivity. Qed.

(** C5, as the code has it: ["2:30pm"] and ["14:30:00"] both normalise to
    ["14:30:00"]; a text that matches the 12-hour pattern with an hour above
    12 keeps that hour, and is absent exactly when the hour is above 23 or the
    minutes or seconds are above 59. *)
Theorem normalize_time_12h_hour_above_12 :
  _normalize_time_str "2:30pm" = "14:30:00"
  ∧ _normalize_time_str "14:30:00" = "14:30:00"
  ∧ ∀ s g1 g2 g3 g4,
      is_sentinel s = false →
      Re._time_hhmm_ampm (time_text s) = Some (g1, g2, g3, g4) →
      12 < Py.int g1 →
      let hh := Py.int g1 in
      let mm := Py.int g2 in
      let ss := seconds_group g3 in
      (_normalize_time_str s = "" ↔ 23 < hh ∨ 59 < mm ∨ 59 < ss)
      ∧ (hh ≤ 23 → mm ≤ 59 → ss ≤ 59 →
         _normalize_time_str s = fmt_time hh mm ss).
Proof.
  split; [by vm_compute|]. split; [by vm_compute|].
  intros s g1 g2 g3 g4 Hs Hm Hh hh mm ss.
  destruct (ampm_groups_digits _ _ _ _ _ Hm) as (D1 & D2 & D3).
  assert (0 ≤ mm) by by apply int_nonneg.
  assert (0 ≤ ss) by by apply seconds_group_nonneg.
  assert (Hn : _normalize_time_str s
               = if time_in_range hh mm ss then fmt_time hh mm ss else "").
  { unfold _normalize_time_str. rewrite Hs, Hm. by apply ampm_branch_above_12. }
  rewrite Hn. destruct (time_in_range hh mm ss) eqn:Hr; unfold time_in_range in Hr.
  - split; [split|done].
    + intros E. by apply fmt_time_nonempty in E.
    + lia.
  - split; [split; [lia|done]|lia].
Qed.

Lemma normalize_time_12h_hour_above_12_witness :
  (_normalize_time_str "13:00am" = "" ↔ 23 < 13 ∨ 59 < 0 ∨ 59 < 0)
  ∧ (13 ≤ 23 → 0 ≤ 59 → 0 ≤ 59 → _normalize_time_str "13:00am" = fmt_time 13 0 0).
Proof.
  destruct normalize_time_12h_hour_above_12 as (_ & _ & H).
  apply (H "13:00am" "13" "00" None "am"); [reflexivity | reflexivity | reflexivity].
Defined.

(** C5, as the claim has it, fails: ["13:00am"] is not rejected. *)
Lemma normalize_time_13am_not_absent :
  _normalize_time_str "13:00am" = "13:00:00" ∧ _normalize_time_str "13:00am" ≠ "".
Proof. split; [by vm_compute | by vm_compute]. Qed.

(** ** Rows of vectorised operations *)

Lemma broadcast_scalar_lookup {A} (n i : nat) (c : A) :
  (i < n)%nat → S.broadcast n (Scalar c) !! i = Some c.
Proof. intros. simpl. by apply lookup_replicate_2. Qed.

Lemma where_lookup {A} (mask : list bool) (x y : operand A) (i : nat)
  (m : bool) (a b : A) :
  mask !! i = Some m →
  S.broadcast (length mask) x !! i = Some a →
  S.broadcast (length mask) y !! i = Some b →
  S.where_ mask x y !! i = Some (if m then a else b).
Proof.
  intros Hm Hx Hy. unfold S.where_.
  rewrite lookup_zip_with, Hm. cbn [mbind option_bind].
  rewrite lookup_zip_with, Hx. cbn [mbind option_bind]. by rewrite Hy.
Qed.

Lemma where_length {A} (mask : list bool) (x y : operand A) :
  length (S.broadcast (length mask) x) = length mask →
  length (S.broadcast (length mask) y) = length mask →
  length (S.where_ mask x y) = length mask.
Proof.
  intros Hx Hy. unfold S.where_. rewrite !length_zip_with. lia.
Qed.

Lemma broadcast_scalar_length {A} n (c : A) : length (S.broadcast n (Scalar c)) = n.
Proof. simpl. apply length_replicate. Qed.

(** ** Formatting and the strict parse *)

Lemma fixed_digits_app n : ∀ s acc v rest,
  fixed_digits n acc s = Some (v, "") →
  fixed_digits n acc (s +:+ rest) = Some (v, rest).
Proof.
  induction n as [|n IH]; intros s acc v rest; simpl.
  - intros [= -> ->]. done.
  - destruct s as [|c s]; [done|]. simpl.
    destruct (Py.isdecimal c); [|done]. apply IH.
Qed.

Lemma roundtrip_table w (bound : Z) :
  forallb (roundtrip_ok w) (Z.of_nat <$> seq 0 (Z.to_nat bound)) = true →
  ∀ y, 0 ≤ y < bound →
  fixed_digits w 0 (Py.fmt_0d w y) = Some (y, "").
Proof.
  intros Hall y Hy. rewrite forallb_forall in Hall.
  assert (Hok : roundtrip_ok w y = true).
  { apply Hall. apply list_elem_of_In, list_elem_of_fmap.
    exists (Z.to_nat y). split; [lia|]. apply elem_of_seq. lia. }
  unfold roundtrip_ok in Hok.
  destruct (fixed_digits w 0 (Py.fmt_0d w y)) as [[v r]|]; [|done].
  destruct r; [|done]. apply Z.eqb_eq in Hok as ->. done.
Qed.

Lemma roundtrip_year y :
  0 ≤ y < 10000 → fixed_digits 4 0 (Py.fmt_0d 4 y) = Some (y, "").
Proof. apply (roundtrip_table 4 10000). by vm_compute. Qed.

Lemma roundtrip_two n :
  0 ≤ n < 100 → fixed_digits 2 0 (Py.fmt_0d 2 n) = Some (n, "").
Proof. apply (roundtrip_table 2 100). by vm_compute. Qed.

Lemma append_assoc (a b c : string) : (a +:+ b) +:+ c = a +:+ (b +:+ c).
Proof.
  induction a as [|x a IH]; [done|].
  change (String x ((a +:+ b) +:+ c) = String x (a +:+ (b +:+ c))).
  by rewrite IH.
Qed.

Lemma expect_literal (c : ascii) (rest : string) :
  Re.expect c (String c "" +:+ rest) = Some rest.
Proof.
  change (String c "" +:+ rest) with (String c rest).
  unfold Re.expect. by rewrite Ascii.eqb_refl.
Qed.

Lemma days_in_month_le y m : Calendar.days_in_month y m ≤ 31.
Proof. unfold Calendar.days_in_month. repeat case_match; lia. Qed.

(** The strict parse reads back a formatted date of the calendar, at
    midnight. *)
Lemma to_datetime_fmt_date y m d :
  Calendar.valid_date y m d = true →
  Calendar.representable (Calendar.epoch_seconds y m d 0 0 0) = true →
  to_datetime (fmt_date y m d +:+ " 00:00:00")
  = Some (Calendar.epoch_seconds y m d 0 0 0).
Proof.
  intros Hv Hr. assert (Hv' := Hv). unfold Calendar.valid_date in Hv'.
  assert (Hd := days_in_month_le y m).
  unfold to_datetime, fmt_date. rewrite !append_assoc.
  rewrite (fixed_digits_app 4 _ 0 y) by (apply roundtrip_year; lia).
  cbn [mbind option_bind]. rewrite expect_literal. cbn [mbind option_bind].
  rewrite (fixed_digits_app 2 _ 0 m) by (apply roundtrip_two; lia).
  cbn [mbind option_bind]. rewrite expect_literal. cbn [mbind option_bind].
  rewrite (fixed_digits_app 2 _ 0 d) by (apply roundtrip_two; lia).
  cbn [mbind option_bind].
  change (Re.expect " " " 00:00:00") with (Some "00:00:00").
  cbn [mbind option_bind].
  change (fixed_digits 2 0 "00:00:00") with (Some (0, ":00:00")).
  cbn [mbind option_bind].
  change (Re.expect ":" ":00:00") with (Some "00:00").
  cbn [mbind option_bind].
  change (fixed_digits 2 0 "00:00") with (Some (0, ":00")).
  cbn [mbind option_bind].
  change (Re.expect ":" ":00") with (Some "00").
  cbn [mbind option_bind].
  change (fixed_digits 2 0 "00") with (Some (0, "")).
  cbn [mbind option_bind].
  change (String.eqb "" "") with true. change (time_in_range 0 0 0) with true.
  rewrite Hv, Hr. done.
Qed.

(** ** The combiner *)

Section Combiner.

Variable str_of_value : cell → string.

Lemma combine_datetime_lookup (ds ts : list cell) (i : nat) dc tc :
  ds !! i = Some dc → ts !! i = Some tc →
  combine_datetime str_of_value ds ts !! i = Some (combine_row str_of_value dc tc).
Proof.
  intros Hd Ht. unfold combine_datetime, combine_row.
  cbv zeta. rewrite list_lookup_fmap.
  set (d := _normalize_date_str (astype_str str_of_value dc)).
  set (t := _normalize_time_str (astype_str str_of_value tc)).
  set (D := _normalize_series_date str_of_value ds).
  set (T := _normalize_series_time str_of_value ts).
  assert (HD : D !! i = Some d).
  { unfold D, _normalize_series_date. by rewrite list_lookup_fmap, Hd. }
  assert (HT : T !! i = Some t).
  { unfold T, _normalize_series_time. by rewrite list_lookup_fmap, Ht. }
  set (has := (λ x : string, negb (String.eqb x "")) <$> D).
  assert (Hh : has !! i = Some (negb (String.eqb d ""))).
  { unfold has. by rewrite list_lookup_fmap, HD. }
  set (mask := S.and_ ((λ x : string, String.eqb x "") <$> T) has).
  assert (Hm : mask !! i = Some (String.eqb t "" && negb (String.eqb d ""))).
  { unfold mask, S.and_. by rewrite lookup_zip_with, list_lookup_fmap, HT, Hh. }
  set (T' := S.where_ mask (Scalar "00:00:00") (Array T)).
  assert (HT' : T' !! i = Some (if String.eqb t "" && negb (String.eqb d "")
                               then "00:00:00" else t)).
  { apply where_lookup; [done| |done].
    apply broadcast_scalar_lookup. by eapply lookup_lt_Some. }
  erewrite where_lookup; [|exact Hh| |].
  - simpl. reflexivity.
  - simpl. rewrite lookup_zip_with, HD. simpl. rewrite HT'. reflexivity.
  - apply broadcast_scalar_lookup. by eapply lookup_lt_Some.
Qed.

Lemma combine_datetime_length (ds ts : list cell) :
  length ts = length ds → length (combine_datetime str_of_value ds ts) = length ds.
Proof.
  intros Hl. unfold combine_datetime. cbv zeta.
  rewrite length_fmap.
  assert (HD : length (_normalize_series_date str_of_value ds) = length ds)
    by (unfold _normalize_series_date; by rewrite length_fmap).
  assert (HT : length (_normalize_series_time str_of_value ts) = length ds)
    by (unfold _normalize_series_time; by rewrite length_fmap).
  rewrite where_length; rewrite ?length_fmap; try done.
  - simpl. rewrite length_zip_with, HD. rewrite where_length.
    + unfold S.and_. rewrite length_zip_with, !length_fmap. lia.
    + apply broadcast_scalar_length.
    + simpl. unfold S.and_. rewrite length_zip_with, !length_fmap. lia.
  - apply broadcast_scalar_length.
Qed.

(** C6, as the code has it: on every row, an absent normalised date gives
    an absent instant whatever the time; a present normalised date with an
    absent normalised time is parsed with the time [00:00:00], which gives
    that date at midnight when the text is a date of the calendar that a
    timestamp can hold. *)
Theorem combine_datetime_absent_date_or_midnight
    (ds ts : list cell) (i : nat) (dc tc : cell) :
  ds !! i = Some dc → ts !! i = Some tc →
  let d := _normalize_date_str (astype_str str_of_value dc) in
  let t := _normalize_time_str (astype_str str_of_value tc) in
  (d = "" → combine_datetime str_of_value ds ts !! i = Some NA)
  ∧ (d ≠ "" → t = "" →
     combine_datetime str_of_value ds ts !! i
     = Some (of_instant (to_datetime (d +:+ " 00:00:00"))))
  ∧ (∀ y m dd, d = fmt_date y m dd → t = "" →
     Calendar.valid_date y m dd = true →
     Calendar.representable (Calendar.epoch_seconds y m dd 0 0 0) = true →
     combine_datetime str_of_value ds ts !! i
     = Some (Ts (Calendar.epoch_seconds y m dd 0 0 0))).
Proof.
  intros Hd Ht d t.
  rewrite (combine_datetime_lookup ds ts i dc tc Hd Ht).
  unfold combine_row. fold d t.
  assert (Hmid : d ≠ "" → t = "" →
    Some (of_instant (to_datetime
      (if negb (String.eqb d "")
       then (d +:+ " ") +:+ (if String.eqb t "" && negb (String.eqb d "")
                             then "00:00:00" else t)
       else "")))
    = Some (of_instant (to_datetime (d +:+ " 00:00:00")))).
  { intros Hne ->. apply String.eqb_neq in Hne. rewrite Hne. simpl.
    by rewrite append_assoc. }
  split; [|split].
  - intros ->. done.
  - done.
  - intros y m dd Hfmt Htime Hv Hr.
    rewrite Hmid; [| rewrite Hfmt; apply fmt_date_nonempty | done].
    rewrite Hfmt. by rewrite to_datetime_fmt_date.
Qed.

End Combiner.

Lemma combine_datetime_absent_date_or_midnight_witness :
  combine_datetime (λ _, "") [Str "15/01/2024"] [NA] !! 0%nat
  = Some (Ts (Calendar.epoch_seconds 2024 1 15 0 0 0)).
Proof.
  refine (proj2 (proj2 (combine_datetime_absent_date_or_midnight (λ _, "")
    [Str "15/01/2024"] [NA] 0%nat (Str "15/01/2024") NA _ _)) 2024 1 15 _ _ _ _);
    reflexivity.
Defined.

(** C6, as the claim has it, fails: the 31st of February is normalised to
    a present date, the time is absent, and the combined instant is absent. *)
Lemma combine_datetime_present_date_absent_instant :
  _normalize_date_str "31/02/2024" = "2024-02-31"
  ∧ _normalize_time_str "nan" = ""
  ∧ combine_datetime (λ _, "") [Str "31/02/2024"] [NA] = [NA].
Proof. repeat split; by vm_compute. Qed.

(** ** Frames and assignments *)

Lemma nrows_assign c f d : nrows (assign c f d) = nrows d.
Proof. done. Qed.

Lemma lookup_assign_eq c f d : columns (assign c f d) !! c = Some (f d).
Proof. unfold assign, set_col. simpl. apply lookup_insert_eq. Qed.

Lemma lookup_assign_ne c c' f d :
  c ≠ c' → columns (assign c f d) !! c' = columns d !! c'.
Proof. intros. unfold assign, set_col. simpl. by apply lookup_insert_ne. Qed.

Lemma get_col_assign_eq c f d : get_col (assign c f d) c = f d.
Proof. unfold get_col. by rewrite lookup_assign_eq. Qed.

Lemma get_col_assign_ne c c' f d :
  c ≠ c' → get_col (assign c f d) c' = get_col d c'.
Proof. intros. unfold get_col. by rewrite lookup_assign_ne. Qed.

Lemma safe_get_assign_ne c c' f d :
  c ≠ c' → _safe_get (assign c f d) c' = _safe_get d c'.
Proof. intros. unfold _safe_get. by rewrite lookup_assign_ne, nrows_assign. Qed.

Lemma has_col_assign_ne c c' f d :
  c ≠ c' → has_col (assign c f d) c' = has_col d c'.
Proof. intros. unfold has_col. by rewrite lookup_assign_ne. Qed.

Lemma has_col_assign_eq c f d : has_col (assign c f d) c = true.
Proof. unfold has_col. rewrite lookup_assign_eq. by apply bool_decide_eq_true. Qed.

Lemma assign_id c f d : columns d !! c = Some (f d) → assign c f d = d.
Proof.
  intros H. unfold assign, set_col. destruct d as [n m]. simpl in *.
  f_equal. by apply insert_id.
Qed.

Lemma has_col_true d c : has_col d c = true → is_Some (columns d !! c).
Proof. unfold has_col. apply bool_decide_eq_true. Qed.

Lemma assign_if_id b c f d :
  columns d !! c = Some (f d) → assign_if b c f d = d.
Proof. intros H. unfold assign_if. destruct (b d); [by apply assign_id|done]. Qed.

Lemma assign_assign c f g d :
  assign c g (assign c f d) = set_col d c (g (assign c f d)).
Proof.
  unfold assign, set_col. simpl. f_equal. apply insert_insert_eq.
Qed.

Lemma nrows_ensure_column d c : nrows (ensure_column d c) = nrows d.
Proof. unfold ensure_column. by destruct (has_col d c). Qed.

Lemma lookup_ensure_column d c c' :
  columns (ensure_column d c) !! c'
  = match columns d !! c' with
    | Some s => Some s
    | None => if decide (c = c') then Some (replicate (nrows d) NA) else None
    end.
Proof.
  unfold ensure_column, has_col.
  destruct (decide (c = c')) as [->|Hne].
  - destruct (columns d !! c') as [s|] eqn:Hc.
    + rewrite bool_decide_eq_true_2 by eauto. by rewrite Hc.
    + rewrite bool_decide_eq_false_2 by (intros [? ?]; congruence).
      unfold set_col. simpl. apply lookup_insert_eq.
  - case_bool_decide.
    + by destruct (columns d !! c').
    + unfold set_col. simpl. rewrite lookup_insert_ne by done.
      by destruct (columns d !! c').
Qed.

Lemma nrows_ensure_all l : ∀ d, nrows (foldl ensure_column d l) = nrows d.
Proof.
  induction l as [|c l IH]; intros d; simpl; [done|].
  by rewrite IH, nrows_ensure_column.
Qed.

Lemma lookup_ensure_all l : ∀ d c',
  columns (foldl ensure_column d l) !! c'
  = match columns d !! c' with
    | Some s => Some s
    | None => if decide (c' ∈ l) then Some (replicate (nrows d) NA) else None
    end.
Proof.
  induction l as [|c l IH]; intros d c'; cbn [foldl].
  - destruct (columns d !! c'); [done|]. rewrite decide_False; [done|].
    apply not_elem_of_nil.
  - rewrite IH, lookup_ensure_column, nrows_ensure_column.
    destruct (columns d !! c') as [s|]; [done|].
    destruct (decide (c = c')) as [->|Hne].
    + rewrite decide_True; [done|]. apply elem_of_cons. by left.
    + destruct (decide (c' ∈ l)) as [Hin|Hout].
      * rewrite decide_True; [done|]. apply elem_of_cons. by right.
      * rewrite decide_False; [done|]. rewrite elem_of_cons. by intros [?|?].
Qed.

Lemma nrows_ensure_future d : nrows (ensure_future_columns d) = nrows d.
Proof. apply nrows_ensure_all. Qed.

Lemma safe_get_ensure_future d c :
  _safe_get (ensure_future_columns d) c = _safe_get d c.
Proof.
  unfold _safe_get, ensure_future_columns.
  rewrite lookup_ensure_all, nrows_ensure_all.
  destruct (columns d !! c); [done|]. by case_decide.
Qed.

Lemma get_col_ensure_future d c :
  c ∈ future_columns → get_col (ensure_future_columns d) c = _safe_get d c.
Proof.
  intros Hin. unfold get_col, _safe_get, ensure_future_columns.
  rewrite lookup_ensure_all. destruct (columns d !! c); [done|].
  by rewrite decide_True.
Qed.

Lemma has_col_ensure_future d c :
  has_col (ensure_future_columns d) c
  = has_col d c || bool_decide (c ∈ future_columns).
Proof.
  unfold has_col, ensure_future_columns. rewrite lookup_ensure_all.
  destruct (columns d !! c) as [s|].
  - by rewrite (bool_decide_eq_true_2 (is_Some (Some s))) by eauto.
  - rewrite (bool_decide_eq_false_2 (is_Some None)) by (intros [? ?]; done).
    cbn [orb]. case_decide.
    + rewrite !bool_decide_eq_true_2; eauto.
    + rewrite !bool_decide_eq_false_2; [done|done|]. intros [? ?]; done.
Qed.

Lemma lookup_ensure_future_other d c :
  c ∉ future_columns → columns (ensure_future_columns d) !! c = columns d !! c.
Proof.
  intros Hout. unfold ensure_future_columns. rewrite lookup_ensure_all.
  destruct (columns d !! c); [done|]. by rewrite decide_False.
Qed.

Lemma ensure_future_id d :
  (∀ c, c ∈ future_columns → is_Some (columns d !! c)) →
  ensure_future_columns d = d.
Proof.
  intros Hall. destruct d as [n m]. unfold ensure_future_columns.
  assert (H : ∀ l d', (∀ c, c ∈ l → is_Some (columns d' !! c)) →
            foldl ensure_column d' l = d').
  { induction l as [|c l IH]; intros d' Hd'; simpl; [done|].
    assert (Hc : ensure_column d' c = d').
    { unfold ensure_column, has_col. rewrite bool_decide_eq_true_2; [done|].
      apply Hd'. apply elem_of_cons. by left. }
    rewrite Hc. apply IH. intros c' Hc'. apply Hd'. apply elem_of_cons. by right. }
  by apply H.
Qed.

Lemma nrows_assign_if b c f d : nrows (assign_if b c f d) = nrows d.
Proof. unfold assign_if. by destruct (b d). Qed.

Lemma lookup_assign_if_ne b c c' f d :
  c ≠ c' → columns (assign_if b c f d) !! c' = columns d !! c'.
Proof. intros. unfold assign_if. destruct (b d); [by apply lookup_assign_ne|done]. Qed.

Lemma lookup_assign_if_eq b c f d :
  b d = true → columns (assign_if b c f d) !! c = Some (f d).
Proof. intros H. unfold assign_if. rewrite H. apply lookup_assign_eq. Qed.

Lemma get_col_assign_if_ne b c c' f d :
  c ≠ c' → get_col (assign_if b c f d) c' = get_col d c'.
Proof. intros. unfold get_col. by rewrite lookup_assign_if_ne. Qed.

Lemma safe_get_assign_if_ne b c c' f d :
  c ≠ c' → _safe_get (assign_if b c f d) c' = _safe_get d c'.
Proof. intros. unfold _safe_get. by rewrite lookup_assign_if_ne, nrows_assign_if. Qed.

Lemma has_col_assign_if_ne b c c' f d :
  c ≠ c' → has_col (assign_if b c f d) c' = has_col d c'.
Proof. intros. unfold has_col. by rewrite lookup_assign_if_ne. Qed.

(** ** Sequences of statements *)

Lemma nrows_exec s d : nrows (exec s d) = nrows d.
Proof. destruct s; [apply nrows_assign | apply nrows_assign_if]. Qed.

Lemma lookup_exec_ne s d c :
  target s ≠ c → columns (exec s d) !! c = columns d !! c.
Proof.
  destruct s; simpl; intros; [by apply lookup_assign_ne | by apply lookup_assign_if_ne].
Qed.

Lemma run_app p q d : run (p ++ q) d = run q (run p d).
Proof. unfold run. apply foldl_app. Qed.

Lemma nrows_run p : ∀ d, nrows (run p d) = nrows d.
Proof.
  induction p as [|s p IH]; intros d; [done|].
  change (run (s :: p) d) with (run p (exec s d)). by rewrite IH, nrows_exec.
Qed.

Lemma lookup_run_other p : ∀ d c,
  c ∉ (target <$> p) → columns (run p d) !! c = columns d !! c.
Proof.
  induction p as [|s p IH]; intros d c Hc; [done|].
  change (run (s :: p) d) with (run p (exec s d)).
  rewrite fmap_cons, not_elem_of_cons in Hc. destruct Hc as [Hs Hp].
  rewrite IH by done. by apply lookup_exec_ne.
Qed.

Lemma untouched_spec R p x :
  untouched R p = true → x ∈ R → x ∉ (target <$> p).
Proof.
  unfold untouched. rewrite forallb_forall. intros H Hx Hin.
  specialize (H x (proj1 (list_elem_of_In _ _) Hx)).
  apply negb_true_iff in H.
  assert (Ht : existsb (String.eqb x) (target <$> p) = true).
  { apply existsb_exists. exists x. split; [by apply list_elem_of_In|].
    apply String.eqb_refl. }
  congruence.
Qed.

Lemma lookup_run_untouched p d c :
  untouched [c] p = true → columns (run p d) !! c = columns d !! c.
Proof.
  intros H. apply lookup_run_other.
  eapply untouched_spec; [exact H | apply list_elem_of_here].
Qed.

Lemma has_col_run_untouched p d c :
  untouched [c] p = true → has_col (run p d) c = has_col d c.
Proof. intros H. unfold has_col. by rewrite lookup_run_untouched. Qed.

Lemma untouched_agree R p d : untouched R p = true → agree R d (run p d).
Proof.
  intros H. split; [by rewrite nrows_run|].
  intros x Hx. symmetry. apply lookup_run_other. by eapply untouched_spec.
Qed.

(** A statement whose reads and whose target no later statement assigns:
    in the final frame its column is what it computes from the final
    frame. *)
Lemma run_fixpoint (k : nat) p c f R d :
  p !! k = Some (Assign c f) →
  local R f →
  untouched R (drop k p) = true →
  untouched [c] (drop (S k) p) = true →
  columns (run p d) !! c = Some (f (run p d)).
Proof.
  intros Hk Hloc HR Hc.
  rewrite <- (take_drop_middle p k (Assign c f) Hk) at 1 2.
  rewrite run_app. set (d1 := run (take k p) d).
  change (run (Assign c f :: drop (S k) p) d1)
    with (run (drop (S k) p) (assign c f d1)).
  rewrite lookup_run_other
    by (eapply untouched_spec; [exact Hc | apply list_elem_of_here]).
  rewrite lookup_assign_eq. f_equal. apply Hloc.
  change (run (drop (S k) p) (assign c f d1))
    with (run (Assign c f :: drop (S k) p) d1).
  rewrite <- (drop_S p (Assign c f) k Hk) in *.
  by apply untouched_agree.
Qed.

(** The value a statement computes, read in the final frame. *)
Lemma run_value (k : nat) p c f d :
  p !! k = Some (Assign c f) →
  untouched [c] (drop (S k) p) = true →
  columns (run p d) !! c = Some (f (run (take k p) d)).
Proof.
  intros Hk Hc.
  rewrite <- (take_drop_middle p k (Assign c f) Hk) at 1.
  rewrite run_app.
  change (run (Assign c f :: drop (S k) p) (run (take k p) d))
    with (run (drop (S k) p) (assign c f (run (take k p) d))).
  rewrite lookup_run_other
    by (eapply untouched_spec; [exact Hc | apply list_elem_of_here]).
  apply lookup_assign_eq.
Qed.

Lemma run_value_if (k : nat) p b c f d :
  p !! k = Some (AssignIf b c f) →
  b (run (take k p) d) = true →
  untouched [c] (drop (S k) p) = true →
  columns (run p d) !! c = Some (f (run (take k p) d)).
Proof.
  intros Hk Hb Hc.
  rewrite <- (take_drop_middle p k (AssignIf b c f) Hk) at 1.
  rewrite run_app.
  change (run (AssignIf b c f :: drop (S k) p) (run (take k p) d))
    with (run (drop (S k) p) (assign_if b c f (run (take k p) d))).
  rewrite lookup_run_other
    by (eapply untouched_spec; [exact Hc | apply list_elem_of_here]).
  by apply lookup_assign_if_eq.
Qed.

Lemma run_noop p d : Forall (λ s, exec s d = d) p → run p d = d.
Proof.
  induction 1 as [|s p Hs Hp IH]; [done|].
  change (run (s :: p) d) with (run p (exec s d)). by rewrite Hs.
Qed.

Lemma agree_nrows R d d' : agree R d d' → nrows d = nrows d'.
Proof. by intros [? _]. Qed.

Lemma agree_get_col R d d' x : agree R d d' → x ∈ R → get_col d x = get_col d' x.
Proof. intros [_ H] Hx. unfold get_col. by rewrite (H x Hx). Qed.

Lemma agree_safe_get R d d' x : agree R d d' → x ∈ R → _safe_get d x = _safe_get d' x.
Proof. intros [Hn H] Hx. unfold _safe_get. by rewrite (H x Hx), Hn. Qed.

Lemma agree_has_col R d d' x : agree R d d' → x ∈ R → has_col d x = has_col d' x.
Proof. intros [_ H] Hx. unfold has_col. by rewrite (H x Hx). Qed.

Lemma present_columns_agree {X} R d d' (l : list string) (g : list cell → X) :
  agree R d d' → (∀ x, x ∈ l → x ∈ R) →
  (λ p, g (get_col d p)) <$> filter (λ p, has_col d p = true) l
  = (λ p, g (get_col d' p)) <$> filter (λ p, has_col d' p = true) l.
Proof.
  intros H. induction l as [|x l IH]; intros Hl; [done|].
  assert (Hx : x ∈ R) by (apply Hl; apply list_elem_of_here).
  assert (Hl' : ∀ y, y ∈ l → y ∈ R)
    by (intros y Hy; apply Hl; by apply list_elem_of_further).
  rewrite !filter_cons. rewrite (agree_has_col _ _ _ _ H Hx).
  destruct (decide (has_col d' x = true)).
  - rewrite !fmap_cons. by rewrite (agree_get_col _ _ _ _ H Hx), IH.
  - by apply IH.
Qed.

(** Rewriting the reads of one frame into the reads of a frame that agrees
    with it. *)
Ltac agree_reads H :=
  repeat first
    [ rewrite (agree_get_col _ _ _ _ H) by set_solver
    | rewrite (agree_safe_get _ _ _ _ H) by set_solver
    | rewrite (agree_has_col _ _ _ _ H) by set_solver
    | rewrite (agree_nrows _ _ _ H) ].

(** ** The columns of the enriched frame *)

Ltac local_tac :=
  let d := fresh "d" in let d' := fresh "d'" in let H := fresh "H" in
  intros d d' H;
  unfold location_fixed, total_cost, part_sum, r2c_hours, both_dt,
    last_status_change, last_status_event, last_status_event_object,
    has_reject_evidence, has_close_evidence, _nz;
  agree_reads H; reflexivity.

Lemma run_fixpoint_eq (k : nat) p c f R d v :
  p !! k = Some (Assign c f) →
  v = f (run p d) →
  local R f →
  untouched R (drop k p) = true →
  untouched [c] (drop (S k) p) = true →
  columns (run p d) !! c = Some v.
Proof. intros ? -> ? ? ?. by eapply run_fixpoint. Qed.

Ltac fixpoint_at k R :=
  unfold add_derived_columns;
  eapply (run_fixpoint_eq k _ _ _ R);
  [ reflexivity | reflexivity | local_tac | by vm_compute | by vm_compute ].

Section Pass.

Variable str_of_value : cell → string.
Variable to_numeric_object : cell → option Q.

Lemma has_total_cost d : has_col (ensure_future_columns d) "Total Cost" = true.
Proof.
  rewrite has_col_ensure_future.
  rewrite (bool_decide_eq_true_2 ("Total Cost" ∈ future_columns)).
  - apply orb_true_r.
  - unfold future_columns. set_solver.
Qed.

Lemma nrows_pass df :
  nrows (add_derived_columns str_of_value to_numeric_object df) = nrows df.
Proof.
  unfold add_derived_columns. by rewrite nrows_run, nrows_ensure_future.
Qed.

Lemma out_location df :
  let out := add_derived_columns str_of_value to_numeric_object df in
  columns out !! "Location Variable (Fixed)"
  = Some (location_fixed str_of_value out).
Proof. fixpoint_at 0%nat ["Location Variable"]. Qed.

Lemma out_raised df :
  let out := add_derived_columns str_of_value to_numeric_object df in
  columns out !! "_RaisedOnDT"
  = Some (combine_datetime str_of_value
            (_safe_get out "Raised On Date") (_safe_get out "Raised On Time")).
Proof. fixpoint_at 1%nat ["Raised On Date"; "Raised On Time"]. Qed.

Lemma out_deadline df :
  let out := add_derived_columns str_of_value to_numeric_object df in
  columns out !! "_DeadlineDT"
  = Some (combine_datetime str_of_value
            (_safe_get out "Deadline Date") (_safe_get out "Deadline Time")).
Proof. fixpoint_at 2%nat ["Deadline Date"; "Deadline Time"]. Qed.

Lemma out_responded df :
  let out := add_derived_columns str_of_value to_numeric_object df in
  columns out !! "_RespondedOnDT"
  = Some (combine_datetime str_of_value
            (_safe_get out "Responded On Date") (_safe_get out "Responded On Time")).
Proof. fixpoint_at 3%nat ["Responded On Date"; "Responded On Time"]. Qed.

Lemma out_rejected df :
  let out := add_derived_columns str_of_value to_numeric_object df in
  columns out !! "_RejectedOnDT"
  = Some (combine_datetime str_of_value
            (_safe_get out "Rejected On Date") (_safe_get out "Rejected On Time")).
Proof. fixpoint_at 4%nat ["Rejected On Date"; "Rejected On Time"]. Qed.

Lemma out_closed df :
  let out := add_derived_columns str_of_value to_numeric_object df in
  columns out !! "_ClosedOnDT"
  = Some (combine_datetime str_of_value
            (_safe_get out "Closed On Date") (_safe_get out "Closed On Time")).
Proof. fixpoint_at 5%nat ["Closed On Date"; "Closed On Time"]. Qed.

Lemma out_effective df :
  let out := add_derived_columns str_of_value to_numeric_object df in
  columns out !! "_EffectiveResolutionDT"
  = Some (effective_resolution (get_col out "_ClosedOnDT")
            (get_col out "_RespondedOnDT") (get_col out "_RaisedOnDT")).
Proof.
  fixpoint_at 6%nat ["_ClosedOnDT"; "_RespondedOnDT"; "_RaisedOnDT"].
Qed.

Lemma out_closure_time df :
  let out := add_derived_columns str_of_value to_numeric_object df in
  columns out !! "Computed Closure Time (Hrs)"
  = Some (S.sub_hours (get_col out "_EffectiveResolutionDT")
            (get_col out "_RaisedOnDT")).
Proof. fixpoint_at 7%nat ["_EffectiveResolutionDT"; "_RaisedOnDT"]. Qed.

Lemma out_responding_time df :
  let out := add_derived_columns str_of_value to_numeric_object df in
  columns out !! "Responding Time (Hrs)"
  = Some (S.sub_hours (get_col out "_RespondedOnDT") (get_col out "_RaisedOnDT")).
Proof. fixpoint_at 8%nat ["_RespondedOnDT"; "_RaisedOnDT"]. Qed.

Lemma out_responded_not_closed df :
  let out := add_derived_columns str_of_value to_numeric_object df in
  columns out !! "_RespondedNotClosed_Flag"
  = Some (responded_not_closed (get_col out "_ClosedOnDT")
            (get_col out "_RespondedOnDT") (get_col out "_RaisedOnDT")).
Proof.
  fixpoint_at 9%nat ["_ClosedOnDT"; "_RespondedOnDT"; "_RaisedOnDT"].
Qed.

Lemma out_close_after_response df :
  let out := add_derived_columns str_of_value to_numeric_object df in
  columns out !! "Close After Response (Hrs)"
  = Some (close_after_response (get_col out "_EffectiveResolutionDT")
            (get_col out "_RespondedOnDT")).
Proof. fixpoint_at 10%nat ["_EffectiveResolutionDT"; "_RespondedOnDT"]. Qed.

Lemma out_sla_met df :
  let out := add_derived_columns str_of_value to_numeric_object df in
  columns out !! "SLA Met"
  = Some (sla_met (get_col out "_DeadlineDT") (get_col out "_EffectiveResolutionDT")).
Proof. fixpoint_at 11%nat ["_DeadlineDT"; "_EffectiveResolutionDT"]. Qed.

Lemma out_r2c_flag df :
  let out := add_derived_columns str_of_value to_numeric_object df in
  columns out !! "_R2C_Flag"
  = Some (S.astype_int (S.and_ (has_reject_evidence str_of_value out)
                               (has_close_evidence str_of_value out))).
Proof.
  fixpoint_at 13%nat
    ["_RejectedOnDT"; "Rejected By"; "Rejected Comment"; "Rejected On Date";
     "Rejected On Time"; "Current Status"; "_ClosedOnDT"; "Closed By";
     "Closed Comment"; "Closed On Date"; "Closed On Time"].
Qed.

Lemma out_r2c_strict df :
  let out := add_derived_columns str_of_value to_numeric_object df in
  columns out !! "_R2C_Strict_Flag" = Some (S.astype_int (both_dt out)).
Proof. fixpoint_at 14%nat ["_RejectedOnDT"; "_ClosedOnDT"]. Qed.

Lemma out_r2c_hours df :
  let out := add_derived_columns str_of_value to_numeric_object df in
  columns out !! "R2C Hours (>=0)" = Some (r2c_hours out).
Proof. fixpoint_at 15%nat ["_RejectedOnDT"; "_ClosedOnDT"]. Qed.

Lemma out_last_status_change df :
  let out := add_derived_columns str_of_value to_numeric_object df in
  columns out !! "_LastStatusChangeDT" = Some (last_status_change out).
Proof.
  fixpoint_at 16%nat
    ["_ClosedOnDT"; "_RejectedOnDT"; "_RespondedOnDT"; "_EffectiveResolutionDT"].
Qed.

(** The second labelling is the one the enriched frame keeps. *)
Lemma out_last_status_event df :
  let out := add_derived_columns str_of_value to_numeric_object df in
  columns out !! "_LastStatusEvent" = Some (last_status_event out).
Proof.
  fixpoint_at 18%nat
    ["_LastStatusChangeDT"; "_ClosedOnDT"; "_RejectedOnDT"; "_RespondedOnDT";
     "_EffectiveResolutionDT"].
Qed.

End Pass.

(** ** Rows of the derived columns *)

Lemma where_lookup_as {A} (mask : list bool) (x : list A) (b : A) (i : nat)
    (m : bool) (a : A) :
  mask !! i = Some m → x !! i = Some a →
  S.where_ mask (Array x) (Scalar b) !! i = Some (if m then a else b).
Proof.
  intros Hm Hx. apply where_lookup; [done|done|].
  apply broadcast_scalar_lookup. by eapply lookup_lt_Some.
Qed.

Lemma where_lookup_sa {A} (mask : list bool) (a : A) (y : list A) (i : nat)
    (m : bool) (b : A) :
  mask !! i = Some m → y !! i = Some b →
  S.where_ mask (Scalar a) (Array y) !! i = Some (if m then a else b).
Proof.
  intros Hm Hy. apply where_lookup; [done| |done].
  apply broadcast_scalar_lookup. by eapply lookup_lt_Some.
Qed.

Lemma where_lookup_ss {A} (mask : list bool) (a b : A) (i : nat) (m : bool) :
  mask !! i = Some m →
  S.where_ mask (Scalar a) (Scalar b) !! i = Some (if m then a else b).
Proof.
  intros Hm. apply where_lookup; [done| |];
    apply broadcast_scalar_lookup; by eapply lookup_lt_Some.
Qed.

Lemma where_lookup_aa {A} (mask : list bool) (x y : list A) (i : nat)
    (m : bool) (a b : A) :
  mask !! i = Some m → x !! i = Some a → y !! i = Some b →
  S.where_ mask (Array x) (Array y) !! i = Some (if m then a else b).
Proof. intros. by apply where_lookup. Qed.

(** Looking a row up through maps and zips of columns whose rows are
    known. *)
Ltac rows :=
  repeat first
    [ match goal with
      | H : ?l !! ?i = Some _ |- context [?l !! ?i] => rewrite H
      end
    | rewrite lookup_zip_with
    | rewrite list_lookup_fmap
    | progress cbn [mbind option_bind fmap option_fmap option_map] ].

Lemma effective_resolution_lookup (C R A : list cell) (i : nat) c r a :
  C !! i = Some c → R !! i = Some r → A !! i = Some a →
  effective_resolution C R A !! i
  = Some (if cell_isna c && negb (cell_isna r) && negb (cell_isna a)
             && cmp_dt Z.gtb r a
          then r else c).
Proof.
  intros Hc Hr Ha. unfold effective_resolution, S.loc_assign. cbv zeta.
  apply where_lookup_aa; [|done|done].
  unfold S.and_, S.isna, S.notna, S.gt. rows. reflexivity.
Qed.

Lemma responded_not_closed_lookup (C R A : list cell) (i : nat) c r a :
  C !! i = Some c → R !! i = Some r → A !! i = Some a →
  responded_not_closed C R A !! i
  = Some (of_bool (cell_isna c && negb (cell_isna r) && negb (cell_isna a)
                   && cmp_dt Z.gtb r a)).
Proof.
  intros Hc Hr Ha.
  unfold responded_not_closed, S.astype_int, S.and_, S.isna, S.notna, S.gt.
  rows. reflexivity.
Qed.

Lemma close_after_response_lookup (E R : list cell) (i : nat) e r :
  E !! i = Some e → R !! i = Some r →
  close_after_response E R !! i
  = Some (if negb (cell_isna e) && negb (cell_isna r) && cmp_dt Z.geb e r
          then sub_hours e r else NA).
Proof.
  intros He Hr. unfold close_after_response. cbv zeta.
  apply where_lookup_as.
  - unfold S.and_, S.notna, S.ge. rows. reflexivity.
  - unfold S.sub_hours. rows. reflexivity.
Qed.

Lemma sla_met_lookup (D E : list cell) (i : nat) d e :
  D !! i = Some d → E !! i = Some e →
  sla_met D E !! i
  = Some (if negb (cell_isna d) && negb (cell_isna e)
          then of_bool (cmp_dt Z.leb e d) else NA).
Proof.
  intros Hd He. unfold sla_met.
  apply where_lookup_as.
  - unfold S.and_, S.notna. rows. reflexivity.
  - unfold S.le. rows. reflexivity.
Qed.

Lemma last_status_change_row (C J R E : list cell) (i : nat) c j r e :
  C !! i = Some c → J !! i = Some j → R !! i = Some r → E !! i = Some e →
  S.row_max C [J; R; E] !! i
  = Some (max_skipna (max_skipna (max_skipna c j) r) e).
Proof.
  intros Hc Hj Hr He. unfold S.row_max. cbn [foldl]. rows. reflexivity.
Qed.

Lemma last_status_event_row (L C J R E : list cell) (i : nat) l c j r e :
  L !! i = Some l → C !! i = Some c → J !! i = Some j → R !! i = Some r →
  E !! i = Some e →
  S.where_ (S.eq C L) (Scalar (Str "Closed"))
    (Array (S.where_ (S.eq J L) (Scalar (Str "Rejected"))
    (Array (S.where_ (S.eq R L) (Scalar (Str "Responded"))
    (Array (S.where_ (S.eq E L) (Scalar (Str "Effective"))
                     (Scalar (Str "nan")))))))) !! i
  = Some (if cmp_dt Z.eqb c l then Str "Closed"
          else if cmp_dt Z.eqb j l then Str "Rejected"
          else if cmp_dt Z.eqb r l then Str "Responded"
          else if cmp_dt Z.eqb e l then Str "Effective"
          else Str "nan").
Proof.
  intros Hl Hc Hj Hr He.
  apply where_lookup_sa; [unfold S.eq; rows; reflexivity|].
  apply where_lookup_sa; [unfold S.eq; rows; reflexivity|].
  apply where_lookup_sa; [unfold S.eq; rows; reflexivity|].
  apply where_lookup_ss. unfold S.eq; rows; reflexivity.
Qed.

Lemma r2c_hours_row (J C : list cell) (i : nat) j c :
  J !! i = Some j → C !! i = Some c →
  let both := S.and_ (S.notna J) (S.notna C) in
  let dur := S.where_ both (Array (S.sub_hours C J)) (Scalar NA) in
  S.where_ (S.isfinite dur) (Array (S.maximum dur 0)) (Scalar NA) !! i
  = Some (match (if negb (cell_isna j) && negb (cell_isna c)
                 then sub_hours c j else NA) with
          | Num x => Num (Qmax x 0)
          | _ => NA
          end).
Proof.
  intros Hj Hc both dur.
  assert (Hd : dur !! i = Some (if negb (cell_isna j) && negb (cell_isna c)
                                then sub_hours c j else NA)).
  { unfold dur. apply where_lookup_as.
    - unfold both, S.and_, S.notna. rows. reflexivity.
    - unfold S.sub_hours. rows. reflexivity. }
  set (v := if negb (cell_isna j) && negb (cell_isna c)
            then sub_hours c j else NA) in *.
  rewrite (where_lookup_as _ _ NA i
             (match v with Num _ => true | _ => false end)
             (match v with Num x => Num (Qmax x 0) | _ => NA end)).
  - by destruct v.
  - unfold S.isfinite. rows. reflexivity.
  - unfold S.maximum. rows. reflexivity.
Qed.

Lemma wf_lookup df col s : wf df → columns df !! col = Some s → length s = nrows df.
Proof.
  unfold wf, wfb. rewrite forallb_forall. intros H Hs.
  specialize (H (col, s)). simpl in H. apply Nat.eqb_eq, H.
  apply list_elem_of_In, elem_of_map_to_list. done.
Qed.

Lemma safe_get_length df x : wf df → length (_safe_get df x) = nrows df.
Proof.
  intros Hwf. unfold _safe_get. destruct (columns df !! x) as [s|] eqn:Hx.
  - by eapply wf_lookup.
  - apply length_replicate.
Qed.

Lemma get_col_lookup df c (i : nat) : get_col df c !! i = cell_at df c i.
Proof. unfold get_col, cell_at. by destruct (columns df !! c). Qed.

Lemma get_col_some df c s : columns df !! c = Some s → get_col df c = s.
Proof. unfold get_col. by intros ->. Qed.

Lemma datetime_cell_of_instant o : datetime_cell (of_instant o).
Proof. by destruct o. Qed.

Section Rows.

Variable str_of_value : cell → string.
Variable to_numeric_object : cell → option Q.

Lemma combine_datetime_cell (ds ts : list cell) (i : nat) c :
  length ts = length ds →
  combine_datetime str_of_value ds ts !! i = Some c → datetime_cell c.
Proof.
  intros Hl Hc.
  assert (Hi : (i < length ds)%nat).
  { rewrite <- (combine_datetime_length str_of_value ds ts Hl).
    by eapply lookup_lt_Some. }
  destruct (lookup_lt_is_Some_2 ds i Hi) as [dc Hdc].
  destruct (lookup_lt_is_Some_2 ts i) as [tc Htc]; [lia|].
  rewrite (combine_datetime_lookup str_of_value ds ts i dc tc Hdc Htc) in Hc.
  injection Hc as <-. apply datetime_cell_of_instant.
Qed.

Lemma safe_get_pass df x :
  untouched [x] (derivation str_of_value to_numeric_object) = true →
  _safe_get (add_derived_columns str_of_value to_numeric_object df) x
  = _safe_get df x.
Proof.
  intros Hx. rewrite <- (safe_get_ensure_future df x).
  unfold add_derived_columns, _safe_get.
  rewrite nrows_run, lookup_run_other; [done|].
  eapply untouched_spec; [exact Hx | apply list_elem_of_here].
Qed.

(** A datetime column of the enriched frame, combined from the raw date and
    time columns of the input, holds one timestamp or NaT per row. *)
Lemma out_datetime_row df (i : nat) c dcol tcol :
  wf df → (i < nrows df)%nat →
  let out := add_derived_columns str_of_value to_numeric_object df in
  columns out !! c
  = Some (combine_datetime str_of_value (_safe_get out dcol) (_safe_get out tcol)) →
  untouched [dcol] (derivation str_of_value to_numeric_object) = true →
  untouched [tcol] (derivation str_of_value to_numeric_object) = true →
  cell_at out c i = Some (of_instant (instant_at out c i))
  ∧ cell_at out c i
    = combine_datetime str_of_value (_safe_get df dcol) (_safe_get df tcol) !! i.
Proof.
  intros Hwf Hi out Hc Hud Hut.
  assert (Hd : _safe_get out dcol = _safe_get df dcol) by by apply safe_get_pass.
  assert (Ht : _safe_get out tcol = _safe_get df tcol) by by apply safe_get_pass.
  rewrite Hd, Ht in Hc.
  assert (Hlen : length (_safe_get df tcol) = length (_safe_get df dcol))
    by by rewrite !safe_get_length.
  unfold instant_at, cell_at. rewrite Hc. cbn [mbind option_bind].
  destruct (lookup_lt_is_Some_2
              (combine_datetime str_of_value (_safe_get df dcol) (_safe_get df tcol))
              i) as [v Hv].
  { rewrite combine_datetime_length by done. by rewrite safe_get_length. }
  rewrite Hv. cbn [mbind option_bind]. split; [|done].
  f_equal. by eapply combine_datetime_cell.
Qed.

End Rows.

Lemma hours_max s : Qmax (hours s) 0 = hours (Z.max s 0).
Proof.
  unfold Qmax, GenericMinMax.gmax.
  assert (Hc : (hours s ?= 0)%Q = (s ?= 0)).
  { unfold hours.
    rewrite (Qcompare_comp _ (s # 3600) (Qred_correct _) 0%Q 0%Q (Qeq_refl 0)).
    unfold Qcompare. simpl. f_equal; lia. }
  rewrite Hc. destruct (Z.compare_spec s 0).
  - subst. reflexivity.
  - rewrite Z.max_r by lia. reflexivity.
  - rewrite Z.max_l by lia. reflexivity.
Qed.

Lemma hours_nonneg s : 0 ≤ s → (0 <= hours s)%Q.
Proof.
  intros Hs. unfold hours. rewrite Qred_correct. unfold Qle. simpl. lia.
Qed.

(** The latest of the four candidates of a row and its label. *)
Lemma hours_pos s : 0 < s → (0 < hours s)%Q.
Proof.
  intros Hs. unfold hours. rewrite Qred_correct. unfold Qlt. cbn. lia.
Qed.

Lemma hours_neg s : s < 0 → (hours s < 0)%Q.
Proof.
  intros Hs. unfold hours. rewrite Qred_correct. unfold Qlt. cbn. lia.
Qed.

(** The hours of a duration are its seconds over 3600. *)
Lemma hours_seconds s : (hours s * 3600 == inject_Z s)%Q.
Proof.
  unfold hours. rewrite Qred_correct. unfold Qeq. cbn [Qnum Qden Qmult inject_Z].
  lia.
Qed.

Lemma latest_and_label (c j r e : option Z) :
  let latest := max_skipna (max_skipna (max_skipna (of_instant c) (of_instant j))
                                       (of_instant r)) (of_instant e) in
  let hit t (o : option Z) := match o with Some x => x = t | None => False end in
  let below t (o : option Z) := match o with Some x => x ≤ t | None => True end in
  is_Some c ∨ is_Some j ∨ is_Some r ∨ is_Some e →
  ∃ t,
    latest = Ts t
    ∧ (hit t c ∨ hit t j ∨ hit t r ∨ hit t e)
    ∧ (below t c ∧ below t j ∧ below t r ∧ below t e)
    ∧ ∃ label, spec_LastStatusEvent c j r e t = Some label
    ∧ (if cmp_dt Z.eqb (of_instant c) latest then Str "Closed"
       else if cmp_dt Z.eqb (of_instant j) latest then Str "Rejected"
       else if cmp_dt Z.eqb (of_instant r) latest then Str "Responded"
       else if cmp_dt Z.eqb (of_instant e) latest then Str "Effective"
       else Str "nan") = Str label.
Proof.
  intros latest hit below Hsome. subst latest hit below.
  assert (Hnone : ¬ is_Some (@None Z)) by apply is_Some_None.
  destruct c as [c|], j as [j|], r as [r|], e as [e|]; cbn;
    try (exfalso; clear -Hsome Hnone; tauto);
    (eexists; split; [reflexivity|]);
    unfold spec_LastStatusEvent, cmp_dt; cbn;
    (split; [lia|]); (split; [lia|]);
    repeat match goal with
    | |- context [bool_decide (@None Z = Some ?b)] =>
        rewrite (bool_decide_eq_false_2 (@None Z = Some b)) by discriminate
    | |- context [bool_decide (Some ?a = Some ?b)] =>
        destruct (decide (a = b));
        [ rewrite (bool_decide_eq_true_2 (Some a = Some b)) by congruence;
          rewrite (proj2 (Z.eqb_eq a b)) by assumption
        | rewrite (bool_decide_eq_false_2 (Some a = Some b)) by congruence;
          rewrite (proj2 (Z.eqb_neq a b)) by assumption ]
    end;
    first [ eexists; split; reflexivity | exfalso; lia ].
Qed.

(** *** Lengths and cells of the SLA column *)

Lemma effective_resolution_length (C R A : list cell) n :
  length C = n → length R = n → length A = n →
  length (effective_resolution C R A) = n.
Proof.
  intros HC HR HA. unfold effective_resolution, S.loc_assign. cbv zeta.
  assert (Hm : length (S.and_ (S.and_ (S.and_ (S.isna C) (S.notna R)) (S.notna A))
                              (S.gt R A)) = n).
  { unfold S.and_, S.isna, S.notna, S.gt.
    rewrite !length_zip_with, !length_fmap. lia. }
  rewrite where_length; simpl; lia.
Qed.

Lemma sla_met_length (D E : list cell) n :
  length D = n → length E = n → length (sla_met D E) = n.
Proof.
  intros HD HE. unfold sla_met.
  assert (Hm : length (S.and_ (S.notna D) (S.notna E)) = n).
  { unfold S.and_, S.notna. rewrite !length_zip_with, !length_fmap. lia. }
  rewrite where_length; rewrite ?Hm; try done.
  - simpl. unfold S.le. rewrite length_fmap, length_zip_with. lia.
  - apply broadcast_scalar_length.
Qed.

Lemma sla_met_ternary (D E : list cell) : Forall ternary_cell (sla_met D E).
Proof.
  apply Forall_lookup. intros i x Hx. unfold sla_met, S.where_ in Hx.
  rewrite lookup_zip_with in Hx.
  destruct (S.and_ (S.notna D) (S.notna E) !! i) as [m|]; [|done].
  cbn [mbind option_bind] in Hx. rewrite lookup_zip_with in Hx.
  cbn [S.broadcast] in Hx. rewrite list_lookup_fmap in Hx.
  destruct (S.le E D !! i) as [b|]; [|done].
  cbn [fmap option_fmap option_map mbind option_bind] in Hx.
  destruct (replicate _ NA !! i) as [y|] eqn:Hy; [|done].
  apply lookup_replicate in Hy as [-> _].
  cbn [mbind option_bind] in Hx. injection Hx as <-.
  unfold ternary_cell. destruct m; [|by left]. destruct b; cbn; auto.
Qed.

Lemma count_split (l : list cell) :
  (count cell_isna l + count is_known l = length l)%nat.
Proof.
  unfold count, is_known. induction l as [|c l IH]; [done|].
  rewrite !filter_cons. destruct c; cbn;
    repeat (case_decide; try done); cbn; lia.
Qed.

Lemma sum_known (l : list cell) :
  Forall ternary_cell l →
  ∀ acc, (foldl (λ a c, a + number_of c) acc (filter (λ c, cell_isna c = false) l)
          == acc + inject_Z (Z.of_nat (count is_met l)))%Q.
Proof.
  unfold count. induction 1 as [|c l Hc Hl IH]; intros acc.
  - cbn [filter list_filter foldl length]. change (Z.of_nat 0) with 0.
    change (inject_Z 0) with 0%Q. ring.
  - destruct Hc as [-> | [-> | ->]].
    + rewrite (filter_cons_False (λ c, cell_isna c = false)) by done.
      rewrite (filter_cons_False (λ c, is_met c = true)) by done.
      apply IH.
    + rewrite (filter_cons_True (λ c, cell_isna c = false)) by done.
      rewrite (filter_cons_True (λ c, is_met c = true)) by done.
      cbn [foldl length number_of]. rewrite IH.
      rewrite Nat2Z.inj_succ. unfold Z.succ. rewrite inject_Z_plus.
      change (inject_Z 1) with 1%Q. ring.
    + rewrite (filter_cons_True (λ c, cell_isna c = false)) by done.
      rewrite (filter_cons_False (λ c, is_met c = true)) by done.
      cbn [foldl length number_of]. rewrite IH. ring.
Qed.

Lemma known_length (l : list cell) :
  length (filter (λ c, cell_isna c = false) l) = count is_known l.
Proof.
  unfold count, is_known. induction l as [|c l IH]; [done|].
  rewrite !filter_cons. destruct c; cbn; repeat (case_decide; try done);
    cbn; by rewrite ?IH.
Qed.

(** *** The cost columns *)

Lemma fillna_lookup (a b : list (option Q)) (i : nat) x y :
  a !! i = Some x → b !! i = Some y →
  S.fillna a b !! i = Some (match x with Some _ => x | None => y end).
Proof. intros Ha Hb. unfold S.fillna. rows. reflexivity. Qed.

Lemma row_sum_lookup (n i : nat) (L M C O : list (option Q)) l m c o :
  (i < n)%nat →
  L !! i = Some l → M !! i = Some m → C !! i = Some c → O !! i = Some o →
  S.row_sum n [L; M; C; O] !! i = Some (spec_part_sum [l; m; c; o]).
Proof.
  intros Hi HL HM HC HO. unfold S.row_sum. cbn [foldl].
  assert (Hn : replicate n (@None Q) !! i = Some None)
    by by apply lookup_replicate_2.
  rows. f_equal. by destruct l, m, c, o.
Qed.

Lemma has_future d c :
  c ∈ future_columns → has_col (ensure_future_columns d) c = true.
Proof.
  intros Hc. rewrite has_col_ensure_future.
  rewrite (bool_decide_eq_true_2 (c ∈ future_columns)) by done.
  apply orb_true_r.
Qed.

Section Claims.

Variable str_of_value : cell → string.
Variable to_numeric_object : cell → option Q.

Lemma raised_row df (i : nat) :
  wf df → (i < nrows df)%nat →
  let out := add_derived_columns str_of_value to_numeric_object df in
  cell_at out "_RaisedOnDT" i = Some (of_instant (instant_at out "_RaisedOnDT" i)).
Proof.
  intros Hwf Hi.
  eapply (out_datetime_row _ _ df i _ _ _ Hwf Hi);
    [apply out_raised | by vm_compute | by vm_compute].
Qed.

Lemma deadline_row df (i : nat) :
  wf df → (i < nrows df)%nat →
  let out := add_derived_columns str_of_value to_numeric_object df in
  cell_at out "_DeadlineDT" i = Some (of_instant (instant_at out "_DeadlineDT" i)).
Proof.
  intros Hwf Hi.
  eapply (out_datetime_row _ _ df i _ _ _ Hwf Hi);
    [apply out_deadline | by vm_compute | by vm_compute].
Qed.

Lemma responded_row df (i : nat) :
  wf df → (i < nrows df)%nat →
  let out := add_derived_columns str_of_value to_numeric_object df in
  cell_at out "_RespondedOnDT" i
  = Some (of_instant (instant_at out "_RespondedOnDT" i)).
Proof.
  intros Hwf Hi.
  eapply (out_datetime_row _ _ df i _ _ _ Hwf Hi);
    [apply out_responded | by vm_compute | by vm_compute].
Qed.

Lemma rejected_row df (i : nat) :
  wf df → (i < nrows df)%nat →
  let out := add_derived_columns str_of_value to_numeric_object df in
  cell_at out "_RejectedOnDT" i
  = Some (of_instant (instant_at out "_RejectedOnDT" i)).
Proof.
  intros Hwf Hi.
  eapply (out_datetime_row _ _ df i _ _ _ Hwf Hi);
    [apply out_rejected | by vm_compute | by vm_compute].
Qed.

Lemma closed_row df (i : nat) :
  wf df → (i < nrows df)%nat →
  let out := add_derived_columns str_of_value to_numeric_object df in
  cell_at out "_ClosedOnDT" i = Some (of_instant (instant_at out "_ClosedOnDT" i)).
Proof.
  intros Hwf Hi.
  eapply (out_datetime_row _ _ df i _ _ _ Hwf Hi);
    [apply out_closed | by vm_compute | by vm_compute].
Qed.

(** The row of the effective resolution, as the mask computes it. *)
Lemma effective_row df (i : nat) :
  wf df → (i < nrows df)%nat →
  let out := add_derived_columns str_of_value to_numeric_object df in
  cell_at out "_EffectiveResolutionDT" i
  = Some (of_instant (spec_EffectiveResolutionAt
            (instant_at out "_ClosedOnDT" i)
            (instant_at out "_RespondedOnDT" i)
            (instant_at out "_RaisedOnDT" i))).
Proof.
  intros Hwf Hi out.
  assert (Hc := closed_row df i Hwf Hi).
  assert (Hr := responded_row df i Hwf Hi).
  assert (Ha := raised_row df i Hwf Hi).
  cbv zeta in Hc, Hr, Ha. fold out in Hc, Hr, Ha.
  unfold cell_at at 1. unfold out at 1. rewrite out_effective. fold out.
  cbn [mbind option_bind].
  rewrite <- !get_col_lookup in Hc, Hr, Ha.
  rewrite (effective_resolution_lookup _ _ _ i _ _ _ Hc Hr Ha).
  f_equal.
  destruct (instant_at out "_ClosedOnDT" i) as [c|]; [done|].
  destruct (instant_at out "_RespondedOnDT" i) as [r|]; [|done].
  destruct (instant_at out "_RaisedOnDT" i) as [a|]; [|done].
  simpl. unfold cmp_dt. simpl. rewrite Z.gtb_ltb. by destruct (a <? r).
Qed.

Lemma effective_instant df (i : nat) :
  wf df → (i < nrows df)%nat →
  let out := add_derived_columns str_of_value to_numeric_object df in
  instant_at out "_EffectiveResolutionDT" i
  = spec_EffectiveResolutionAt (instant_at out "_ClosedOnDT" i)
      (instant_at out "_RespondedOnDT" i) (instant_at out "_RaisedOnDT" i).
Proof.
  intros Hwf Hi out. assert (H := effective_row df i Hwf Hi). cbv zeta in H.
  fold out in H. unfold instant_at at 1. rewrite H. cbn [mbind option_bind].
  by destruct (spec_EffectiveResolutionAt _ _ _).
Qed.

(** C1: on every row EffectiveResolutionAt is ClosedAt when ClosedAt is
    present; otherwise RespondedAt when RespondedAt and RaisedAt are present
    and RespondedAt is strictly after RaisedAt; otherwise absent. *)
Theorem effective_resolution_rule df (i : nat) :
  wf df → (i < nrows df)%nat →
  let out := add_derived_columns str_of_value to_numeric_object df in
  let closed := instant_at out "_ClosedOnDT" i in
  let responded := instant_at out "_RespondedOnDT" i in
  let raised := instant_at out "_RaisedOnDT" i in
  cell_at out "_EffectiveResolutionDT" i
  = Some (of_instant (spec_EffectiveResolutionAt closed responded raised))
  ∧ instant_at out "_EffectiveResolutionDT" i
    = match closed with
      | Some c => Some c
      | None =>
          match responded, raised with
          | Some rs, Some ra => if ra <? rs then Some rs else None
          | _, _ => None
          end
      end.
Proof.
  intros Hwf Hi out closed responded raised.
  assert (H := effective_row df i Hwf Hi). cbv zeta in H.
  fold out in H. fold closed responded raised in H.
  split; [exact H|].
  unfold instant_at. rewrite H. cbn [mbind option_bind]. clear H.
  clearbody closed responded raised. unfold spec_EffectiveResolutionAt.
  destruct closed as [c|]; [done|].
  destruct responded as [r|], raised as [a|]; try done.
  by destruct (a <? r).
Qed.

Lemma effective_cell df (i : nat) :
  wf df → (i < nrows df)%nat →
  let out := add_derived_columns str_of_value to_numeric_object df in
  cell_at out "_EffectiveResolutionDT" i
  = Some (of_instant (instant_at out "_EffectiveResolutionDT" i)).
Proof.
  intros Hwf Hi out. assert (H := effective_row df i Hwf Hi). cbv zeta in H.
  fold out in H. unfold instant_at. rewrite H. cbn [mbind option_bind].
  by destruct (spec_EffectiveResolutionAt _ _ _).
Qed.

(** Forgetting where the instants of a row come from. *)
Ltac forget_instants :=
  repeat match goal with
  | |- context [instant_at ?o ?c ?i] =>
      let x := fresh "x" in generalize (instant_at o c i); intro x
  end.

Lemma responded_not_closed_row df (i : nat) :
  wf df → (i < nrows df)%nat →
  let out := add_derived_columns str_of_value to_numeric_object df in
  cell_at out "_RespondedNotClosed_Flag" i
  = Some (of_bool
      match instant_at out "_ClosedOnDT" i, instant_at out "_RespondedOnDT" i,
            instant_at out "_RaisedOnDT" i with
      | None, Some r, Some a => a <? r
      | _, _, _ => false
      end).
Proof.
  intros Hwf Hi out.
  assert (Hc := closed_row df i Hwf Hi).
  assert (Hr := responded_row df i Hwf Hi).
  assert (Ha := raised_row df i Hwf Hi).
  cbv zeta in Hc, Hr, Ha. fold out in Hc, Hr, Ha.
  unfold cell_at at 1. unfold out at 1. rewrite out_responded_not_closed.
  fold out. cbn [mbind option_bind].
  rewrite <- !get_col_lookup in Hc, Hr, Ha.
  rewrite (responded_not_closed_lookup _ _ _ i _ _ _ Hc Hr Ha).
  clear. forget_instants. intros. f_equal.
  destruct x as [c|], x0 as [r|], x1 as [a|]; try reflexivity.
  unfold cmp_dt. cbn. by rewrite Z.gtb_ltb.
Qed.

Lemma close_after_response_row df (i : nat) :
  wf df → (i < nrows df)%nat →
  let out := add_derived_columns str_of_value to_numeric_object df in
  cell_at out "Close After Response (Hrs)" i
  = Some match instant_at out "_EffectiveResolutionDT" i,
               instant_at out "_RespondedOnDT" i with
         | Some e, Some r => if r <=? e then Num (hours (e - r)) else NA
         | _, _ => NA
         end.
Proof.
  intros Hwf Hi out.
  assert (He := effective_cell df i Hwf Hi).
  assert (Hr := responded_row df i Hwf Hi).
  cbv zeta in He, Hr. fold out in He, Hr.
  unfold cell_at at 1. unfold out at 1. rewrite out_close_after_response.
  fold out. cbn [mbind option_bind].
  rewrite <- !get_col_lookup in He, Hr.
  rewrite (close_after_response_lookup _ _ i _ _ He Hr).
  clear. forget_instants. intros. f_equal.
  destruct x as [e|], x0 as [r|]; try reflexivity.
  unfold cmp_dt, sub_hours. cbn. by rewrite Z.geb_leb.
Qed.

(** C10: on a row whose RespondedNotClosed flag is set, ClosedAt is absent,
    EffectiveResolutionAt is present and equal to RespondedAt (so the row
    counts as resolved), and CloseAfterResponseTime is 0. *)
Theorem responded_not_closed_is_resolved df (i : nat) :
  wf df → (i < nrows df)%nat →
  let out := add_derived_columns str_of_value to_numeric_object df in
  cell_at out "_RespondedNotClosed_Flag" i = Some (Num 1) →
  ∃ rs, instant_at out "_RespondedOnDT" i = Some rs
      ∧ instant_at out "_ClosedOnDT" i = None
      ∧ instant_at out "_EffectiveResolutionDT" i = Some rs
      ∧ cell_at out "_EffectiveResolutionDT" i = Some (Ts rs)
      ∧ cell_at out "Close After Response (Hrs)" i = Some (Num 0).
Proof.
  intros Hwf Hi out Hflag.
  assert (Hf := responded_not_closed_row df i Hwf Hi).
  assert (He := effective_instant df i Hwf Hi).
  assert (Hec := effective_cell df i Hwf Hi).
  assert (Hcar := close_after_response_row df i Hwf Hi).
  cbv zeta in Hf, He, Hec, Hcar. fold out in Hf, He, Hec, Hcar.
  clearbody out.
  rewrite Hf in Hflag. rewrite Hcar, Hec. clear Hf Hcar Hec.
  destruct (instant_at out "_ClosedOnDT" i) as [c|];
    [discriminate Hflag|].
  destruct (instant_at out "_RespondedOnDT" i) as [r|];
    [|discriminate Hflag].
  destruct (instant_at out "_RaisedOnDT" i) as [a|];
    [|discriminate Hflag].
  destruct (a <? r) eqn:Hlt; [|discriminate Hflag].
  rewrite He. cbn [spec_EffectiveResolutionAt]. rewrite Hlt.
  exists r. repeat split.
  rewrite Z.leb_refl, Z.sub_diag. reflexivity.
Qed.

Lemma sla_met_row df (i : nat) :
  wf df → (i < nrows df)%nat →
  let out := add_derived_columns str_of_value to_numeric_object df in
  cell_at out "SLA Met" i
  = Some (of_ternary (spec_SLAMet (instant_at out "_EffectiveResolutionDT" i)
                                  (instant_at out "_DeadlineDT" i))).
Proof.
  intros Hwf Hi out.
  assert (He := effective_cell df i Hwf Hi).
  assert (Hd := deadline_row df i Hwf Hi).
  cbv zeta in He, Hd. fold out in He, Hd.
  unfold cell_at at 1. unfold out at 1. rewrite out_sla_met.
  fold out. cbn [mbind option_bind].
  rewrite <- !get_col_lookup in He, Hd.
  rewrite (sla_met_lookup _ _ i _ _ Hd He).
  clear. forget_instants. intros. f_equal.
  destruct x as [e|], x0 as [d|]; reflexivity.
Qed.

Lemma r2c_strict_row df (i : nat) :
  wf df → (i < nrows df)%nat →
  let out := add_derived_columns str_of_value to_numeric_object df in
  cell_at out "_R2C_Strict_Flag" i
  = Some (of_bool
      match instant_at out "_RejectedOnDT" i, instant_at out "_ClosedOnDT" i with
      | Some _, Some _ => true
      | _, _ => false
      end).
Proof.
  intros Hwf Hi out.
  assert (Hj := rejected_row df i Hwf Hi).
  assert (Hc := closed_row df i Hwf Hi).
  cbv zeta in Hj, Hc. fold out in Hj, Hc.
  unfold cell_at at 1. unfold out at 1. rewrite out_r2c_strict.
  fold out. cbn [mbind option_bind].
  rewrite <- !get_col_lookup in Hj, Hc.
  unfold both_dt, S.astype_int, S.and_, S.notna. rows.
  clear. forget_instants. intros. f_equal.
  destruct x as [j|], x0 as [c|]; reflexivity.
Qed.

Lemma r2c_hours_cell df (i : nat) :
  wf df → (i < nrows df)%nat →
  let out := add_derived_columns str_of_value to_numeric_object df in
  cell_at out "R2C Hours (>=0)" i
  = Some (of_number (spec_R2C_hours (instant_at out "_RejectedOnDT" i)
                                    (instant_at out "_ClosedOnDT" i))).
Proof.
  intros Hwf Hi out.
  assert (Hj := rejected_row df i Hwf Hi).
  assert (Hc := closed_row df i Hwf Hi).
  cbv zeta in Hj, Hc. fold out in Hj, Hc.
  unfold cell_at at 1. unfold out at 1. rewrite out_r2c_hours.
  fold out. cbn [mbind option_bind].
  rewrite <- !get_col_lookup in Hj, Hc.
  unfold r2c_hours, both_dt.
  rewrite (r2c_hours_row _ _ i _ _ Hj Hc).
  clear. forget_instants. intros. f_equal.
  destruct x as [j|], x0 as [c|]; try reflexivity.
  cbn. by rewrite hours_max.
Qed.

(** C7: on every row the R2C duration is present exactly when R2CStrict
    holds, that is when RejectedAt and ClosedAt are both present, and is
    then max(ClosedAt − RejectedAt, 0) in hours: the number whose 3600-fold
    is that many seconds, positive when ClosedAt is after RejectedAt, 0 when
    RejectedAt is after ClosedAt, never negative. *)
Theorem r2c_hours_clamped df (i : nat) :
  wf df → (i < nrows df)%nat →
  let out := add_derived_columns str_of_value to_numeric_object df in
  let rejected := instant_at out "_RejectedOnDT" i in
  let closed := instant_at out "_ClosedOnDT" i in
  let strict := cell_at out "_R2C_Strict_Flag" i in
  let duration := cell_at out "R2C Hours (>=0)" i in
  (strict = Some (Num 1) ∨ strict = Some (Num 0))
  ∧ (strict = Some (Num 1) ↔ (is_Some rejected ∧ is_Some closed))
  ∧ (∀ j c, rejected = Some j → closed = Some c →
       duration = Some (Num (hours (Z.max (c - j) 0)))
       ∧ (0 <= hours (Z.max (c - j) 0))%Q
       ∧ (c ≤ j → duration = Some (Num 0))
       ∧ (∃ q, duration = Some (Num q)
               ∧ (q * 3600 == inject_Z (Z.max (c - j) 0))%Q)
       ∧ (j < c → ∃ q, duration = Some (Num q) ∧ (0 < q)%Q
                       ∧ (q * 3600 == inject_Z (c - j))%Q))
  ∧ (strict = Some (Num 0) → duration = Some NA).
Proof.
  intros Hwf Hi out rejected closed strict duration.
  assert (Hs := r2c_strict_row df i Hwf Hi).
  assert (Hd := r2c_hours_cell df i Hwf Hi).
  cbv zeta in Hs, Hd. fold out in Hs, Hd.
  fold rejected closed in Hs, Hd. fold strict in Hs. fold duration in Hd.
  clearbody strict duration rejected closed out. subst strict duration.
  destruct rejected as [j|], closed as [c|]; cbn.
  - split; [by left|]. split; [split; [eauto|done]|]. split; [|discriminate].
    intros j' c' [= <-] [= <-]. split; [done|]. split; [|split; [|split]].
    + apply hours_nonneg. lia.
    + intros Hle. rewrite Z.max_r by lia. reflexivity.
    + eexists. split; [reflexivity | apply hours_seconds].
    + intros Hlt. eexists. split; [reflexivity|]. rewrite Z.max_l by lia.
      split; [apply hours_pos; lia | apply hours_seconds].
  - split; [by right|]. split; [split; [discriminate|]|].
    + intros [_ H]. by apply is_Some_None in H.
    + split; [discriminate|done].
  - split; [by right|]. split; [split; [discriminate|]|].
    + intros [H _]. by apply is_Some_None in H.
    + split; [discriminate|done].
  - split; [by right|]. split; [split; [discriminate|]|].
    + intros [H _]. by apply is_Some_None in H.
    + split; [discriminate|done].
Qed.

Lemma last_status_change_cell df (i : nat) :
  wf df → (i < nrows df)%nat →
  let out := add_derived_columns str_of_value to_numeric_object df in
  cell_at out "_LastStatusChangeDT" i
  = Some (max_skipna (max_skipna (max_skipna
            (of_instant (instant_at out "_ClosedOnDT" i))
            (of_instant (instant_at out "_RejectedOnDT" i)))
            (of_instant (instant_at out "_RespondedOnDT" i)))
            (of_instant (instant_at out "_EffectiveResolutionDT" i))).
Proof.
  intros Hwf Hi out.
  assert (Hc := closed_row df i Hwf Hi).
  assert (Hj := rejected_row df i Hwf Hi).
  assert (Hr := responded_row df i Hwf Hi).
  assert (He := effective_cell df i Hwf Hi).
  cbv zeta in Hc, Hj, Hr, He. fold out in Hc, Hj, Hr, He.
  unfold cell_at at 1. unfold out at 1. rewrite out_last_status_change.
  fold out. cbn [mbind option_bind].
  rewrite <- !get_col_lookup in Hc, Hj, Hr, He.
  unfold last_status_change.
  by rewrite (last_status_change_row _ _ _ _ i _ _ _ _ Hc Hj Hr He).
Qed.

Lemma last_status_event_cell df (i : nat) (latest : cell) :
  wf df → (i < nrows df)%nat →
  let out := add_derived_columns str_of_value to_numeric_object df in
  cell_at out "_LastStatusChangeDT" i = Some latest →
  cell_at out "_LastStatusEvent" i
  = Some (if cmp_dt Z.eqb (of_instant (instant_at out "_ClosedOnDT" i)) latest
          then Str "Closed"
          else if cmp_dt Z.eqb (of_instant (instant_at out "_RejectedOnDT" i)) latest
          then Str "Rejected"
          else if cmp_dt Z.eqb (of_instant (instant_at out "_RespondedOnDT" i)) latest
          then Str "Responded"
          else if cmp_dt Z.eqb
                    (of_instant (instant_at out "_EffectiveResolutionDT" i)) latest
          then Str "Effective"
          else Str "nan").
Proof.
  intros Hwf Hi out Hl.
  assert (Hc := closed_row df i Hwf Hi).
  assert (Hj := rejected_row df i Hwf Hi).
  assert (Hr := responded_row df i Hwf Hi).
  assert (He := effective_cell df i Hwf Hi).
  cbv zeta in Hc, Hj, Hr, He. fold out in Hc, Hj, Hr, He.
  unfold cell_at at 1. unfold out at 1. rewrite out_last_status_event.
  fold out. cbn [mbind option_bind].
  rewrite <- !get_col_lookup in Hc, Hj, Hr, He, Hl.
  unfold last_status_event. cbv zeta.
  by rewrite (last_status_event_row _ _ _ _ _ i _ _ _ _ _ Hl Hc Hj Hr He).
Qed.

(** C2: on every row with at least one of ClosedAt, RejectedAt, RespondedAt,
    EffectiveResolutionAt present, LastStatusChangeAt is the latest of the
    present candidates and LastStatusEvent is the label of the candidate
    equal to it, the first one in the order Closed, Rejected, Responded,
    Effective when several are equal to it; so when ClosedAt and RespondedAt
    are the same instant and that instant is the latest, the label is
    ["Closed"]. The label is the one of the second, overwriting pass. *)
Theorem last_status_event_priority df (i : nat) :
  wf df → (i < nrows df)%nat →
  let out := add_derived_columns str_of_value to_numeric_object df in
  let closed := instant_at out "_ClosedOnDT" i in
  let rejected := instant_at out "_RejectedOnDT" i in
  let responded := instant_at out "_RespondedOnDT" i in
  let effective := instant_at out "_EffectiveResolutionDT" i in
  is_Some closed ∨ is_Some rejected ∨ is_Some responded ∨ is_Some effective →
  ∃ t label,
    instant_at out "_LastStatusChangeDT" i = Some t
    ∧ (closed = Some t ∨ rejected = Some t ∨ responded = Some t
       ∨ effective = Some t)
    ∧ (∀ x, closed = Some x ∨ rejected = Some x ∨ responded = Some x
            ∨ effective = Some x → x ≤ t)
    ∧ spec_LastStatusEvent closed rejected responded effective t = Some label
    ∧ cell_at out "_LastStatusEvent" i = Some (Str label)
    ∧ (closed = Some t → responded = Some t → label = "Closed").
Proof.
  intros Hwf Hi. cbv zeta.
  pose proof (last_status_change_cell df i Hwf Hi) as Hl.
  pose proof (λ l, last_status_event_cell df i l Hwf Hi) as He.
  cbv zeta in Hl, He.
  generalize dependent (add_derived_columns str_of_value to_numeric_object df).
  intros out.
  generalize (instant_at out "_ClosedOnDT" i) as closed.
  generalize (instant_at out "_RejectedOnDT" i) as rejected.
  generalize (instant_at out "_RespondedOnDT" i) as responded.
  generalize (instant_at out "_EffectiveResolutionDT" i) as effective.
  intros effective responded rejected closed Hl He Hsome.
  specialize (He _ Hl).
  destruct (latest_and_label closed rejected responded effective Hsome)
    as (t & Ht & Hmem & Hbelow & label & Hspec & Hlabel).
  rewrite Hlabel in He. rewrite Ht in Hl. unfold instant_at.
  rewrite Hl, He. clear Hl He Ht Hlabel. cbn [mbind option_bind as_instant].
  exists t, label.
  split; [reflexivity|]. split; [|split; [|split; [exact Hspec|split; [reflexivity|]]]].
  - clear -Hmem.
    destruct closed, rejected, responded, effective; cbn in Hmem;
      intuition (subst; auto).
  - clear -Hbelow. intros x Hx.
    destruct closed, rejected, responded, effective; cbn in Hbelow;
      intuition (try discriminate; simplify_eq; lia).
  - intros Hc _. clear -Hspec Hc. unfold spec_LastStatusEvent in Hspec.
    rewrite bool_decide_eq_true_2 in Hspec by done. by injection Hspec.
Qed.

Lemma out_datetime_length df c dcol tcol :
  wf df →
  let out := add_derived_columns str_of_value to_numeric_object df in
  columns out !! c
  = Some (combine_datetime str_of_value (_safe_get out dcol) (_safe_get out tcol)) →
  untouched [dcol] (derivation str_of_value to_numeric_object) = true →
  untouched [tcol] (derivation str_of_value to_numeric_object) = true →
  length (get_col out c) = nrows df.
Proof.
  intros Hwf. cbv zeta. intros Hc Hud Hut. rewrite (get_col_some _ _ _ Hc).
  rewrite !safe_get_pass by done.
  rewrite combine_datetime_length; by rewrite !safe_get_length.
Qed.

Lemma sla_column df :
  wf df →
  let out := add_derived_columns str_of_value to_numeric_object df in
  ∃ col, columns out !! "SLA Met" = Some col
       ∧ length col = nrows df ∧ Forall ternary_cell col.
Proof.
  intros Hwf. cbv zeta. eexists. split; [apply out_sla_met|]. split.
  - apply sla_met_length.
    + eapply (out_datetime_length df _ _ _ Hwf);
        [apply out_deadline | by vm_compute | by vm_compute].
    + rewrite (get_col_some _ _ _ (out_effective _ _ df)).
      apply effective_resolution_length.
      * eapply (out_datetime_length df _ _ _ Hwf);
          [apply out_closed | by vm_compute | by vm_compute].
      * eapply (out_datetime_length df _ _ _ Hwf);
          [apply out_responded | by vm_compute | by vm_compute].
      * eapply (out_datetime_length df _ _ _ Hwf);
          [apply out_raised | by vm_compute | by vm_compute].
  - apply sla_met_ternary.
Qed.

Lemma sla_rate_of_column (d : DataFrame) col :
  columns d !! "SLA Met" = Some col → Forall ternary_cell col →
  match sla_rate d with
  | Some r =>
      (0 < count is_known col)%nat
      ∧ (r == inject_Z (Z.of_nat (count is_met col))
              / inject_Z (Z.of_nat (count is_known col)) * 100)%Q
  | None => count is_known col = 0%nat
  end.
Proof.
  intros Hcol Htern. unfold sla_rate, sla_known, has_col.
  rewrite (get_col_some _ _ _ Hcol), Hcol.
  rewrite bool_decide_eq_true_2 by eauto. cbv zeta.
  rewrite known_length.
  destruct (0 <? count is_known col)%nat eqn:Hk.
  - apply Nat.ltb_lt in Hk. split; [done|].
    unfold mean. rewrite known_length, (sum_known col Htern).
    rewrite Qplus_0_l. reflexivity.
  - apply Nat.ltb_ge in Hk. lia.
Qed.

(** C3: on every row SLAMet is the truth value of
    EffectiveResolutionAt ≤ DeadlineAt when both are present, stored as 1.0
    when it holds and 0.0 when it does not, and unknown (NaN, distinct from
    false) when either is absent; the SLA rate is 100 times the number of
    rows that met the SLA, the cells that are 1.0, over the number of rows
    whose SLAMet is known, the unknown rows being left out of the
    denominator, and it is NaN when no row is known. *)
Theorem sla_met_unknown_excluded df :
  wf df →
  let out := add_derived_columns str_of_value to_numeric_object df in
  (∀ i : nat, (i < nrows df)%nat →
     cell_at out "SLA Met" i
     = Some (of_ternary (spec_SLAMet (instant_at out "_EffectiveResolutionDT" i)
                                     (instant_at out "_DeadlineDT" i))))
  ∧ of_ternary None ≠ of_ternary (Some false)
  ∧ (∀ (i : nat) e d, (i < nrows df)%nat →
       instant_at out "_EffectiveResolutionDT" i = Some e →
       instant_at out "_DeadlineDT" i = Some d →
       cell_at out "SLA Met" i = Some (Num (if e <=? d then 1 else 0)))
  ∧ (∀ i : nat, (i < nrows df)%nat →
       instant_at out "_EffectiveResolutionDT" i = None
       ∨ instant_at out "_DeadlineDT" i = None →
       cell_at out "SLA Met" i = Some NA)
  ∧ (is_met (Num 1) = true ∧ is_met (Num 0) = false ∧ is_met NA = false
     ∧ is_known (Num 1) = true ∧ is_known (Num 0) = true
     ∧ is_known NA = false)
  ∧ let col := get_col out "SLA Met" in
    let unknown := count cell_isna col in
    let known := count is_known col in
    let met := count is_met col in
    (unknown + known = nrows df)%nat
    ∧ match sla_rate out with
      | Some r =>
          (0 < known)%nat
          ∧ (r == inject_Z (Z.of_nat met) / inject_Z (Z.of_nat known) * 100)%Q
      | None => known = 0%nat
      end.
Proof.
  intros Hwf. cbv zeta.
  split; [|split; [discriminate|split; [|split; [|split; [by repeat split|]]]]].
  - intros i Hi. apply (sla_met_row df i Hwf Hi).
  - intros i e d Hi He Hd. assert (H := sla_met_row df i Hwf Hi).
    cbv zeta in H. rewrite H, He, Hd.
    cbn [spec_SLAMet of_ternary]. unfold of_bool. by destruct (e <=? d).
  - intros i Hi Hnone. assert (H := sla_met_row df i Hwf Hi).
    cbv zeta in H. rewrite H. clear H.
    destruct Hnone as [-> | ->]; [done|].
    by destruct (instant_at _ "_EffectiveResolutionDT" i).
  - destruct (sla_column df Hwf) as (col & Hcol & Hlen & Htern).
    rewrite (get_col_some _ _ _ Hcol). split.
    + rewrite count_split. exact Hlen.
    + by apply sla_rate_of_column.
Qed.

Lemma to_numeric_of_number o :
  to_numeric to_numeric_object (of_number o) = o.
Proof. by destruct o. Qed.

Lemma fillna_idempotent (A P : list (option Q)) :
  S.fillna (to_numeric to_numeric_object <$> (of_number <$> S.fillna A P)) P
  = S.fillna A P.
Proof.
  unfold S.fillna. revert P. induction A as [|a A IH]; intros P.
  - reflexivity.
  - destruct P as [|p P]; [reflexivity|].
    cbn [zip_with fmap list_fmap]. rewrite IH. f_equal.
    rewrite to_numeric_of_number. by destruct a, p.
Qed.

(** The frame on which the total cost is reconciled. *)
Lemma total_cost_frame df :
  let d12 := run (take 12 (derivation str_of_value to_numeric_object))
                 (ensure_future_columns df) in
  let out := add_derived_columns str_of_value to_numeric_object df in
  columns out !! "Total Cost" = Some (total_cost to_numeric_object d12)
  ∧ agree ("Total Cost" :: cost_parts) (ensure_future_columns df) d12
  ∧ agree cost_parts d12 out.
Proof.
  cbv zeta. split; [|split].
  - unfold add_derived_columns. eapply (run_value_if 12%nat).
    + reflexivity.
    + cbv beta. rewrite has_col_run_untouched by (by vm_compute).
      apply has_total_cost.
    + by vm_compute.
  - apply untouched_agree. by vm_compute.
  - unfold add_derived_columns.
    rewrite <- (take_drop 12 (derivation str_of_value to_numeric_object)) at 2.
    rewrite run_app. apply untouched_agree. by vm_compute.
Qed.

Lemma part_sum_local : local cost_parts (part_sum to_numeric_object).
Proof.
  intros d d' H. unfold part_sum.
  rewrite (agree_nrows _ _ _ H).
  by rewrite (present_columns_agree cost_parts d d' cost_parts _ H).
Qed.

Lemma total_cost_local :
  local ("Total Cost" :: cost_parts) (total_cost to_numeric_object).
Proof.
  intros d d' H. unfold total_cost.
  rewrite (agree_get_col _ _ _ _ H) by apply list_elem_of_here.
  rewrite (part_sum_local d d'); [done|].
  destruct H as [Hn Hc]. split; [done|]. intros x Hx. apply Hc.
  by apply list_elem_of_further.
Qed.

Lemma out_total_cost df :
  let out := add_derived_columns str_of_value to_numeric_object df in
  columns out !! "Total Cost" = Some (total_cost to_numeric_object out).
Proof.
  cbv zeta. destruct (total_cost_frame df) as (Hv & _ & Hag). cbv zeta in Hv, Hag.
  rewrite Hv. f_equal. unfold total_cost at 2.
  rewrite (get_col_some _ _ _ Hv).
  rewrite <- (part_sum_local _ _ Hag).
  unfold total_cost. by rewrite fillna_idempotent.
Qed.

Ltac elem := repeat first [apply list_elem_of_here | apply list_elem_of_further].

Lemma total_cost_ensure df :
  total_cost to_numeric_object (ensure_future_columns df)
  = of_number <$>
      S.fillna (to_numeric to_numeric_object <$> _safe_get df "Total Cost")
        (S.row_sum (nrows df)
           [to_numeric to_numeric_object <$> _safe_get df "Labour Cost";
            to_numeric to_numeric_object <$> _safe_get df "Material Cost";
            to_numeric to_numeric_object <$> _safe_get df "Machinery Cost";
            to_numeric to_numeric_object <$> _safe_get df "Other Cost"]).
Proof.
  unfold total_cost, part_sum, cost_parts.
  rewrite !filter_cons_True by (apply has_future; unfold future_columns; elem).
  rewrite filter_nil. cbn [fmap list_fmap].
  rewrite !get_col_ensure_future by (unfold future_columns; elem).
  by rewrite nrows_ensure_future.
Qed.

Lemma out_total_cost_value df :
  let out := add_derived_columns str_of_value to_numeric_object df in
  columns out !! "Total Cost"
  = Some (total_cost to_numeric_object (ensure_future_columns df)).
Proof.
  cbv zeta. destruct (total_cost_frame df) as (Hv & Hag & _).
  cbv zeta in Hv, Hag. rewrite Hv. f_equal. symmetry.
  by apply total_cost_local.
Qed.

(** C8: on every row a missing or non-numeric aggregate cost is replaced by
    the sum of the component costs that are numeric, the non-numeric ones
    counting as missing; a numeric aggregate is left as it is; when the
    aggregate and all four components are missing the aggregate stays
    missing. A cost column that the input lacks is a column of missing
    values. On cells that are numbers or missing: an aggregate [x] stays
    [x]; with no aggregate, components [a] and [b] and two missing give
    [a + b], four components give their sum, and none gives a missing
    value. *)
Theorem total_cost_reconciled df (i : nat) (total lab mat mach oth : cell) :
  wf df →
  _safe_get df "Total Cost" !! i = Some total →
  _safe_get df "Labour Cost" !! i = Some lab →
  _safe_get df "Material Cost" !! i = Some mat →
  _safe_get df "Machinery Cost" !! i = Some mach →
  _safe_get df "Other Cost" !! i = Some oth →
  let out := add_derived_columns str_of_value to_numeric_object df in
  let num := to_numeric to_numeric_object in
  let parts := [num lab; num mat; num mach; num oth] in
  cell_at out "Total Cost" i
  = Some (of_number (spec_reconciled (num total) parts))
  ∧ (∀ x, num total = Some x → cell_at out "Total Cost" i = Some (Num x))
  ∧ (num total = None → ∀ s, spec_part_sum parts = Some s →
     cell_at out "Total Cost" i = Some (Num s))
  ∧ (num total = None → Forall (λ p, p = None) parts →
     cell_at out "Total Cost" i = Some NA)
  ∧ (∀ x, total = Num x → cell_at out "Total Cost" i = Some (Num x))
  ∧ (total = NA → ∀ a b, lab = Num a → mat = NA → mach = Num b → oth = NA →
     cell_at out "Total Cost" i = Some (Num (a + b)))
  ∧ (total = NA → ∀ a b c d,
     lab = Num a → mat = Num b → mach = Num c → oth = Num d →
     cell_at out "Total Cost" i = Some (Num (a + b + c + d)))
  ∧ (total = NA → lab = NA → mat = NA → mach = NA → oth = NA →
     cell_at out "Total Cost" i = Some NA).
Proof.
  intros Hwf Ht Hl Hm Hc Ho. cbv zeta.
  assert (Hi : (i < nrows df)%nat).
  { rewrite <- (safe_get_length df "Total Cost" Hwf). by eapply lookup_lt_Some. }
  assert (Hcell : cell_at (add_derived_columns str_of_value to_numeric_object df)
                    "Total Cost" i
                  = Some (of_number (spec_reconciled
                      (to_numeric to_numeric_object total)
                      [to_numeric to_numeric_object lab;
                       to_numeric to_numeric_object mat;
                       to_numeric to_numeric_object mach;
                       to_numeric to_numeric_object oth]))).
  { unfold cell_at. rewrite out_total_cost_value, total_cost_ensure.
    cbn [mbind option_bind]. rewrite list_lookup_fmap.
    rewrite (fillna_lookup _ _ i (to_numeric to_numeric_object total)
               (spec_part_sum [to_numeric to_numeric_object lab;
                               to_numeric to_numeric_object mat;
                               to_numeric to_numeric_object mach;
                               to_numeric to_numeric_object oth])).
    - unfold spec_reconciled.
      by destruct (to_numeric to_numeric_object total).
    - rows. reflexivity.
    - apply row_sum_lookup; [exact Hi| | | |]; rows; reflexivity. }
  rewrite Hcell. clear Hcell. split; [reflexivity|].
  split; [|split; [|split; [|split; [|split; [|split]]]]].
  - by intros x ->.
  - intros -> s Hs. cbn [spec_reconciled]. by rewrite Hs.
  - intros -> Hall. cbn [spec_reconciled].
    apply Forall_cons in Hall as [-> Hall]. apply Forall_cons in Hall as [-> Hall].
    apply Forall_cons in Hall as [-> Hall]. apply Forall_cons in Hall as [-> _].
    reflexivity.
  - intros x ->. reflexivity.
  - intros -> a b -> -> -> ->. reflexivity.
  - intros -> a b c d -> -> -> ->. reflexivity.
  - intros -> -> -> -> ->. reflexivity.
Qed.

(** *** Running the pass on an enriched frame *)

Lemma statements_noop df :
  let out := add_derived_columns str_of_value to_numeric_object df in
  Forall (λ s, exec s out = out)
         (take 17 (derivation str_of_value to_numeric_object)).
Proof.
  cbv zeta. unfold derivation at 1. cbn [take].
  repeat apply Forall_cons_2; [..|apply Forall_nil_2];
    cbn [exec]; first [apply assign_id | apply assign_if_id]; cbv beta.
  - apply out_location.
  - apply out_raised.
  - apply out_deadline.
  - apply out_responded.
  - apply out_rejected.
  - apply out_closed.
  - apply out_effective.
  - apply out_closure_time.
  - apply out_responding_time.
  - apply out_responded_not_closed.
  - apply out_close_after_response.
  - apply out_sla_met.
  - apply out_total_cost.
  - apply out_r2c_flag.
  - apply out_r2c_strict.
  - apply out_r2c_hours.
  - apply out_last_status_change.
Qed.

Lemma future_columns_present df c :
  c ∈ future_columns →
  is_Some (columns (add_derived_columns str_of_value to_numeric_object df) !! c).
Proof.
  intros Hc. destruct (decide (c = "Total Cost")) as [->|Hne].
  - rewrite out_total_cost. eauto.
  - unfold add_derived_columns. rewrite lookup_run_untouched.
    + by apply has_col_true, has_future.
    + unfold future_columns in Hc.
      repeat (apply elem_of_cons in Hc as [->|Hc]; [by vm_compute|]).
      by apply elem_of_nil in Hc.
Qed.

Lemma last_status_event_local :
  local ["_LastStatusChangeDT"; "_ClosedOnDT"; "_RejectedOnDT"; "_RespondedOnDT";
         "_EffectiveResolutionDT"] last_status_event.
Proof. local_tac. Qed.

(** C9: the pass is idempotent. Run on the enriched frame, whose raw
    columns are those of the input, it gives the enriched frame again: every
    derived column, and the reconciled total cost, is identical. *)
Theorem add_derived_columns_idempotent df :
  add_derived_columns str_of_value to_numeric_object
    (add_derived_columns str_of_value to_numeric_object df)
  = add_derived_columns str_of_value to_numeric_object df.
Proof.
  pose proof (statements_noop df) as Hnoop.
  pose proof (future_columns_present df) as Hfut.
  pose proof (out_last_status_event str_of_value to_numeric_object df) as Hlse.
  cbv zeta in Hnoop, Hlse.
  generalize dependent (add_derived_columns str_of_value to_numeric_object df).
  intros out Hnoop Hfut Hlse.
  unfold add_derived_columns. rewrite (ensure_future_id out Hfut).
  rewrite <- (take_drop 17 (derivation str_of_value to_numeric_object)).
  rewrite run_app, (run_noop _ _ Hnoop).
  change (drop 17 (derivation str_of_value to_numeric_object))
    with [Assign "_LastStatusEvent" last_status_event_object;
          Assign "_LastStatusEvent" last_status_event].
  change (run [Assign "_LastStatusEvent" last_status_event_object;
               Assign "_LastStatusEvent" last_status_event] out)
    with (assign "_LastStatusEvent" last_status_event
            (assign "_LastStatusEvent" last_status_event_object out)).
  rewrite assign_assign.
  rewrite <- (last_status_event_local out
                (assign "_LastStatusEvent" last_status_event_object out)).
  - by apply (assign_id "_LastStatusEvent" last_status_event out).
  - split; [done|]. intros x Hx. symmetry. apply lookup_assign_ne.
    repeat (apply elem_of_cons in Hx as [->|Hx]; [discriminate|]).
    by apply elem_of_nil in Hx.
Qed.

End Claims.

(** ** The sample register *)

Lemma effective_resolution_rule_witness :
  let out := add_derived_columns sample_str_of_value sample_to_numeric_object
               sample in
  cell_at out "_EffectiveResolutionDT" 1
  = Some (of_instant (spec_EffectiveResolutionAt
            (instant_at out "_ClosedOnDT" 1)
            (instant_at out "_RespondedOnDT" 1)
            (instant_at out "_RaisedOnDT" 1))).
Proof.
  apply (effective_resolution_rule sample_str_of_value sample_to_numeric_object
           sample 1%nat); [vm_compute; reflexivity | vm_compute; lia].
Defined.

Lemma last_status_event_priority_witness :
  let out := add_derived_columns sample_str_of_value sample_to_numeric_object
               sample in
  let closed := instant_at out "_ClosedOnDT" 5 in
  let rejected := instant_at out "_RejectedOnDT" 5 in
  let responded := instant_at out "_RespondedOnDT" 5 in
  let effective := instant_at out "_EffectiveResolutionDT" 5 in
  ∃ t label,
    instant_at out "_LastStatusChangeDT" 5 = Some t
    ∧ (closed = Some t ∨ rejected = Some t ∨ responded = Some t
       ∨ effective = Some t)
    ∧ (∀ x, closed = Some x ∨ rejected = Some x ∨ responded = Some x
            ∨ effective = Some x → x ≤ t)
    ∧ spec_LastStatusEvent closed rejected responded effective t = Some label
    ∧ cell_at out "_LastStatusEvent" 5 = Some (Str label)
    ∧ (closed = Some t → responded = Some t → label = "Closed").
Proof.
  apply (last_status_event_priority sample_str_of_value sample_to_numeric_object
           sample 5%nat); [vm_compute; reflexivity | vm_compute; lia |].
  left. exists 1704535200. vm_compute. reflexivity.
Defined.

Lemma sla_met_unknown_excluded_witness :
  let out := add_derived_columns sample_str_of_value sample_to_numeric_object
               sample in
  let col := get_col out "SLA Met" in
  cell_at out "SLA Met" 0 = Some (Num 1)
  ∧ cell_at out "SLA Met" 1 = Some (Num 0)
  ∧ cell_at out "SLA Met" 2 = Some NA
  ∧ (3 + 7 = nrows sample)%nat
  ∧ count cell_isna col = 3%nat ∧ count is_known col = 7%nat
  ∧ count is_met col = 4%nat
  ∧ ∃ r, sla_rate out = Some r ∧ (r == 400 # 7)%Q.
Proof.
  cbv zeta.
  destruct (sla_met_unknown_excluded sample_str_of_value
              sample_to_numeric_object sample ltac:(vm_compute; reflexivity))
    as (_ & _ & Hrow & Hna & _ & Hsum & Hrate).
  assert (Hu : count cell_isna
                 (get_col (add_derived_columns sample_str_of_value
                             sample_to_numeric_object sample) "SLA Met")
               = 3%nat) by (vm_compute; reflexivity).
  assert (Hk : count is_known
                 (get_col (add_derived_columns sample_str_of_value
                             sample_to_numeric_object sample) "SLA Met")
               = 7%nat) by (vm_compute; reflexivity).
  assert (Hm : count is_met
                 (get_col (add_derived_columns sample_str_of_value
                             sample_to_numeric_object sample) "SLA Met")
               = 4%nat) by (vm_compute; reflexivity).
  rewrite Hu, Hk in Hsum. rewrite Hk, Hm in Hrate.
  split; [exact (Hrow 0%nat 1704292200 1704412800 ltac:(vm_compute; lia)
                   ltac:(vm_compute; reflexivity) ltac:(vm_compute; reflexivity))|].
  split; [exact (Hrow 1%nat 1704240000 1704153600 ltac:(vm_compute; lia)
                   ltac:(vm_compute; reflexivity) ltac:(vm_compute; reflexivity))|].
  split; [apply Hna; [vm_compute; lia | right; vm_compute; reflexivity]|].
  split; [exact Hsum|]. split; [exact Hu|]. split; [exact Hk|].
  split; [exact Hm|].
  destruct (sla_rate (add_derived_columns sample_str_of_value
                        sample_to_numeric_object sample)) as [r|].
  - exists r. split; [reflexivity|]. destruct Hrate as [_ Hr].
    rewrite Hr. reflexivity.
  - discriminate Hrate.
Defined.

Lemma r2c_hours_clamped_witness :
  let out := add_derived_columns sample_str_of_value sample_to_numeric_object
               sample in
  cell_at out "R2C Hours (>=0)" 7 = Some (Num 24)
  ∧ (∃ q, cell_at out "R2C Hours (>=0)" 7 = Some (Num q) ∧ (0 < q)%Q
          ∧ (q * 3600 == 86400)%Q)
  ∧ cell_at out "R2C Hours (>=0)" 6 = Some (Num 0)
  ∧ cell_at out "_R2C_Strict_Flag" 7 = Some (Num 1)
  ∧ cell_at out "R2C Hours (>=0)" 0 = Some NA.
Proof.
  cbv zeta.
  destruct (r2c_hours_clamped sample_str_of_value sample_to_numeric_object
              sample 7%nat ltac:(vm_compute; reflexivity) ltac:(vm_compute; lia))
    as (_ & Hs7 & H7 & _).
  destruct (H7 1704153600 1704240000 ltac:(vm_compute; reflexivity)
              ltac:(vm_compute; reflexivity)) as (Hv & _ & _ & _ & Hpos).
  destruct (r2c_hours_clamped sample_str_of_value sample_to_numeric_object
              sample 6%nat ltac:(vm_compute; reflexivity) ltac:(vm_compute; lia))
    as (_ & _ & H6 & _).
  destruct (H6 1704672000 1704585600 ltac:(vm_compute; reflexivity)
              ltac:(vm_compute; reflexivity)) as (_ & _ & Hzero & _).
  destruct (r2c_hours_clamped sample_str_of_value sample_to_numeric_object
              sample 0%nat ltac:(vm_compute; reflexivity) ltac:(vm_compute; lia))
    as (_ & _ & _ & H0).
  split; [exact Hv|]. split; [exact (Hpos ltac:(lia))|].
  split; [exact (Hzero ltac:(lia))|]. split.
  - apply Hs7. split; eexists; vm_compute; reflexivity.
  - apply H0. vm_compute. reflexivity.
Defined.

Lemma total_cost_reconciled_witness :
  let out := add_derived_columns sample_str_of_value sample_to_numeric_object
               sample in
  cell_at out "Total Cost" 0 = Some (Num 150)
  ∧ cell_at out "Total Cost" 1 = Some (Num 500)
  ∧ cell_at out "Total Cost" 3 = Some NA.
Proof.
  cbv zeta.
  destruct (total_cost_reconciled sample_str_of_value sample_to_numeric_object
              sample 0%nat NA (Num 100) NA (Num 50) NA
              ltac:(vm_compute; reflexivity) ltac:(vm_compute; reflexivity)
              ltac:(vm_compute; reflexivity) ltac:(vm_compute; reflexivity)
              ltac:(vm_compute; reflexivity) ltac:(vm_compute; reflexivity))
    as (_ & _ & _ & _ & _ & H0 & _).
  destruct (total_cost_reconciled sample_str_of_value sample_to_numeric_object
              sample 1%nat (Num 500) (Num 10) NA (Num 20) NA
              ltac:(vm_compute; reflexivity) ltac:(vm_compute; reflexivity)
              ltac:(vm_compute; reflexivity) ltac:(vm_compute; reflexivity)
              ltac:(vm_compute; reflexivity) ltac:(vm_compute; reflexivity))
    as (_ & _ & _ & _ & H1 & _).
  destruct (total_cost_reconciled sample_str_of_value sample_to_numeric_object
              sample 3%nat NA NA NA NA NA
              ltac:(vm_compute; reflexivity) ltac:(vm_compute; reflexivity)
              ltac:(vm_compute; reflexivity) ltac:(vm_compute; reflexivity)
              ltac:(vm_compute; reflexivity) ltac:(vm_compute; reflexivity))
    as (_ & _ & _ & _ & _ & _ & _ & H3).
  split; [exact (H0 eq_refl 100%Q 50%Q eq_refl eq_refl eq_refl eq_refl)|].
  split; [exact (H1 500%Q eq_refl)|].
  exact (H3 eq_refl eq_refl eq_refl eq_refl eq_refl).
Defined.

Lemma responded_not_closed_is_resolved_witness :
  let out := add_derived_columns sample_str_of_value sample_to_numeric_object
               sample in
  ∃ rs, instant_at out "_RespondedOnDT" 1 = Some rs
      ∧ instant_at out "_ClosedOnDT" 1 = None
      ∧ instant_at out "_EffectiveResolutionDT" 1 = Some rs
      ∧ cell_at out "_EffectiveResolutionDT" 1 = Some (Ts rs)
      ∧ cell_at out "Close After Response (Hrs)" 1 = Some (Num 0).
Proof.
  apply (responded_not_closed_is_resolved sample_str_of_value
           sample_to_numeric_object sample 1%nat);
    [vm_compute; reflexivity | vm_compute; lia | vm_compute; reflexivity].
Defined.

(** The sample, computed: ten rows of which three have an unknown SLA give
    a rate over seven rows; components 100 and 50 with two missing give 150
    and an aggregate of 500 stays; equal closing and response instants give
    the label Closed, where the first labelling, overwritten, had Effective;
    a rejection after the closure gives a duration of 0. *)
Example sample_register :
  nrows sample_out = 10%nat
  ∧ count cell_isna (get_col sample_out "SLA Met") = 3%nat
  ∧ count is_known (get_col sample_out "SLA Met") = 7%nat
  ∧ count is_met (get_col sample_out "SLA Met") = 4%nat
  ∧ sla_rate sample_out = Some (400 # 7)
  ∧ cell_at sample_out "Total Cost" 0 = Some (Num 150)
  ∧ cell_at sample_out "Total Cost" 1 = Some (Num 500)
  ∧ cell_at sample_out "Total Cost" 2 = Some NA
  ∧ cell_at sample_out "_LastStatusEvent" 5 = Some (Str "Closed")
  ∧ last_status_event_object sample_out !! 5%nat = Some (Str "Effective")
  ∧ cell_at sample_out "R2C Hours (>=0)" 6 = Some (Num 0).
Proof. repeat split; vm_compute; reflexivity. Qed.

(** * Further properties *)

(** ** Checking a finite range by computation *)

Lemma forallb_Zrange (f : Z → bool) (n : Z) :
  forallb f (Zrange n) = true → ∀ z, 0 ≤ z < n → f z = true.
Proof.
  intros Hall z Hz. rewrite forallb_forall in Hall. apply Hall.
  apply list_elem_of_In, list_elem_of_fmap.
  exists (Z.to_nat z). split; [lia|]. apply elem_of_seq. lia.
Qed.

(** ** Lengths of texts *)

Lemma length_append (a b : string) :
  String.length (a +:+ b) = (String.length a + String.length b)%nat.
Proof.
  induction a as [|c a IH]; [done|].
  change (String c a +:+ b) with (String c (a +:+ b)). cbn [String.length].
  by rewrite IH.
Qed.


(** ** The date normaliser *)

Lemma string_forallb_all_digits s :
  string_forallb Py.isdecimal s = true ↔ all_digits s.
Proof.
  unfold all_digits. induction s as [|c s IH]; cbn.
  - split; [intros _ x []|done].
  - rewrite andb_true_iff, IH. split.
    + intros [Hc Hs] x [<-|Hx]; auto.
    + intros H. split; [apply H; by left|]. intros x Hx. apply H. by right.
Qed.

Lemma fmt_table w (bound : Z) :
  forallb (fmt_ok w) (Zrange bound) = true →
  ∀ n, 0 ≤ n < bound →
  all_digits (Py.fmt_0d w n) ∧ String.length (Py.fmt_0d w n) = w
  ∧ Py.int (Py.fmt_0d w n) = n.
Proof.
  intros Hall n Hn. assert (H := forallb_Zrange _ _ Hall n Hn).
  unfold fmt_ok in H. apply andb_true_iff in H as [H H3].
  apply andb_true_iff in H as [H1 H2].
  split; [by apply string_forallb_all_digits|].
  split; [by apply Nat.eqb_eq | by apply Z.eqb_eq].
Qed.

Lemma fmt_year y :
  0 ≤ y < 10000 →
  all_digits (Py.fmt_0d 4 y) ∧ String.length (Py.fmt_0d 4 y) = 4%nat
  ∧ Py.int (Py.fmt_0d 4 y) = y.
Proof. apply (fmt_table 4 10000). by vm_compute. Qed.

Lemma fmt_two n :
  0 ≤ n < 100 →
  all_digits (Py.fmt_0d 2 n) ∧ String.length (Py.fmt_0d 2 n) = 2%nat
  ∧ Py.int (Py.fmt_0d 2 n) = n.
Proof. apply (fmt_table 2 100). by vm_compute. Qed.

(** The value of a text of digits is below the power of ten of its
    length. *)
Lemma int_acc_bound s : ∀ acc,
  all_digits s → 0 ≤ acc →
  Py.int_acc acc s < (acc + 1) * 10 ^ Z.of_nat (String.length s).
Proof.
  induction s as [|c s IH]; intros acc Hd Hacc.
  - cbn. lia.
  - cbn [Py.int_acc String.length].
    assert (Hc : Py.isdecimal c = true) by (apply Hd; cbn; by left).
    assert (Hs : all_digits s) by (intros x Hx; apply Hd; cbn; by right).
    unfold Py.isdecimal in Hc.
    specialize (IH (acc * 10 + (Py.ord c - 48)) Hs ltac:(lia)).
    rewrite Nat2Z.inj_succ, Z.pow_succ_r by lia.
    assert (0 < 10 ^ Z.of_nat (String.length s)) by (apply Z.pow_pos_nonneg; lia).
    nia.
Qed.

Lemma int_bound s (k : nat) :
  all_digits s → (String.length s ≤ k)%nat → 0 ≤ Py.int s < 10 ^ Z.of_nat k.
Proof.
  intros Hd Hk. split; [by apply int_nonneg|].
  assert (H := int_acc_bound s 0 Hd ltac:(lia)). fold (Py.int s) in H.
  assert (10 ^ Z.of_nat (String.length s) ≤ 10 ^ Z.of_nat k)
    by (apply Z.pow_le_mono_r; lia).
  lia.
Qed.

Lemma digits_between_length lo hi s ds r :
  Re.digits_between lo hi s = Some (ds, r) →
  (lo ≤ String.length ds ≤ hi)%nat.
Proof.
  unfold Re.digits_between. destruct (Re.span_digits s) as [ds' r'].
  destruct ((lo <=? String.length ds')%nat && (String.length ds' <=? hi)%nat)
    eqn:Hb; [|done].
  intros [= <- <-]. apply andb_true_iff in Hb as [H1 H2].
  apply Nat.leb_le in H1, H2. lia.
Qed.

(** The groups of the two date patterns: digits, of bounded length. *)
Lemma match_dmy_groups sep s g1 g2 g3 :
  Re.match_dmy sep s = Some (g1, g2, g3) →
  (all_digits g1 ∧ (String.length g1 ≤ 2)%nat)
  ∧ (all_digits g2 ∧ (String.length g2 ≤ 2)%nat)
  ∧ (all_digits g3 ∧ (String.length g3 ≤ 4)%nat).
Proof.
  unfold Re.match_dmy. intros H.
  destruct (Re.digits_between 1 2 (Py.lstrip s)) as [[a s1]|] eqn:H1; [|done].
  cbn [mbind option_bind] in H.
  destruct (Re.expect sep s1) as [s2|]; [|done]. cbn [mbind option_bind] in H.
  destruct (Re.digits_between 1 2 s2) as [[b s3]|] eqn:H2; [|done].
  cbn [mbind option_bind] in H.
  destruct (Re.expect sep s3) as [s4|]; [|done]. cbn [mbind option_bind] in H.
  destruct (Re.digits_between 2 4 s4) as [[c s5]|] eqn:H3; [|done].
  cbn [mbind option_bind] in H.
  destruct (Re.only_space s5); [|done]. injection H as <- <- <-.
  repeat split;
    first [ by eapply digits_between_all
          | eapply digits_between_length in H1; lia
          | eapply digits_between_length in H2; lia
          | eapply digits_between_length in H3; lia ].
Qed.

Lemma match_ymd_groups s g1 g2 g3 :
  Re._date_yyyymmdd_dash s = Some (g1, g2, g3) →
  (all_digits g1 ∧ (String.length g1 ≤ 4)%nat)
  ∧ (all_digits g2 ∧ (String.length g2 ≤ 2)%nat)
  ∧ (all_digits g3 ∧ (String.length g3 ≤ 2)%nat).
Proof.
  unfold Re._date_yyyymmdd_dash. intros H.
  destruct (Re.digits_between 4 4 (Py.lstrip s)) as [[a s1]|] eqn:H1; [|done].
  cbn [mbind option_bind] in H.
  destruct (Re.expect "-" s1) as [s2|]; [|done]. cbn [mbind option_bind] in H.
  destruct (Re.digits_between 1 2 s2) as [[b s3]|] eqn:H2; [|done].
  cbn [mbind option_bind] in H.
  destruct (Re.expect "-" s3) as [s4|]; [|done]. cbn [mbind option_bind] in H.
  destruct (Re.digits_between 1 2 s4) as [[c s5]|] eqn:H3; [|done].
  cbn [mbind option_bind] in H.
  destruct (Re.only_space s5); [|done]. injection H as <- <- <-.
  repeat split;
    first [ by eapply digits_between_all
          | eapply digits_between_length in H1; lia
          | eapply digits_between_length in H2; lia
          | eapply digits_between_length in H3; lia ].
Qed.

(** X1: the year of two digits is read in the window 1970 to 2069, keeping
    its last two digits; a year of three digits or more is kept as it is. *)
Theorem norm_year_window y :
  (0 ≤ y < 100 →
     1970 ≤ _norm_year y ≤ 2069 ∧ _norm_year y mod 100 = y
     ∧ (_norm_year y < 2000 ↔ 70 ≤ y))
  ∧ (100 ≤ y → _norm_year y = y).
Proof.
  unfold _norm_year. split.
  - intros Hy. replace (y <? 100) with true by lia.
    destruct (y <? 70) eqn:H70.
    + repeat split; try lia.
      symmetry. apply (Z.mod_unique_pos _ 100 20 y); lia.
    + repeat split; try lia.
      symmetry. apply (Z.mod_unique_pos _ 100 19 y); lia.
  - intros Hy. by replace (y <? 100) with false by lia.
Qed.

Lemma norm_year_window_witness :
  1970 ≤ _norm_year 75 ≤ 2069 ∧ _norm_year 75 mod 100 = 75
  ∧ (_norm_year 75 < 2000 ↔ 70 ≤ 75).
Proof. apply (proj1 (norm_year_window 75)). lia. Defined.

(** The result of the date normaliser is empty or the formatted text of
    three numbers read from the input. *)
Lemma normalize_date_cases s :
  _normalize_date_str s = ""
  ∨ ∃ y m d, 0 ≤ y < 10000 ∧ 0 ≤ m < 100 ∧ 0 ≤ d < 100
             ∧ _normalize_date_str s = fmt_date y m d.
Proof.
  unfold _normalize_date_str. destruct (is_sentinel s); [by left|]. cbv zeta.
  unfold match_ddmmyyyy, Re._date_ddmmyyyy_slash, Re._date_ddmmyyyy_dash.
  assert (Hdmy : ∀ sep g1 g2 g3, Re.match_dmy sep (Py.strip s) = Some (g1, g2, g3) →
    ∃ y m d, 0 ≤ y < 10000 ∧ 0 ≤ m < 100 ∧ 0 ≤ d < 100
      ∧ fmt_date (_norm_year (Py.int g3)) (Py.int g2) (Py.int g1) = fmt_date y m d).
  { intros sep g1 g2 g3 Hm.
    destruct (match_dmy_groups _ _ _ _ _ Hm) as ([D1 L1] & [D2 L2] & [D3 L3]).
    assert (B1 := int_bound g1 2 D1 L1). assert (B2 := int_bound g2 2 D2 L2).
    assert (B3 := int_bound g3 4 D3 L3).
    change (10 ^ Z.of_nat 2) with 100 in *.
    change (10 ^ Z.of_nat 4) with 10000 in *.
    exists (_norm_year (Py.int g3)), (Py.int g2), (Py.int g1).
    repeat split; try lia; unfold _norm_year; repeat case_match; lia. }
  destruct (Re.match_dmy "/" (Py.strip s)) as [[[g1 g2] g3]|] eqn:H1.
  { right. by eapply Hdmy. }
  destruct (Re.match_dmy "-" (Py.strip s)) as [[[g1 g2] g3]|] eqn:H2.
  { right. by eapply Hdmy. }
  destruct (Re._date_yyyymmdd_dash (Py.strip s)) as [[[g1 g2] g3]|] eqn:H3;
    [|by left].
  right.
  destruct (match_ymd_groups _ _ _ _ H3) as ([D1 L1] & [D2 L2] & [D3 L3]).
  assert (B1 := int_bound g1 4 D1 L1). assert (B2 := int_bound g2 2 D2 L2).
  assert (B3 := int_bound g3 2 D3 L3).
  change (10 ^ Z.of_nat 2) with 100 in *.
  change (10 ^ Z.of_nat 4) with 10000 in *.
  exists (Py.int g1), (Py.int g2), (Py.int g3). repeat split; lia.
Qed.

(** X2: the date normaliser returns either the empty text or a text of ten
    characters [YYYY-MM-DD], the zero-padded year, month and day it read;
    the month and the day are any numbers below 100, for no calendar check
    is made. *)
Theorem normalize_date_shape s :
  _normalize_date_str s = ""
  ∨ ∃ y m d,
      0 ≤ y ≤ 9999 ∧ 0 ≤ m ≤ 99 ∧ 0 ≤ d ≤ 99
      ∧ _normalize_date_str s = fmt_date y m d
      ∧ String.length (_normalize_date_str s) = 10%nat
      ∧ to_datetime (_normalize_date_str s +:+ " 00:00:00")
        = if Calendar.valid_date y m d
             && Calendar.representable (Calendar.epoch_seconds y m d 0 0 0)
          then Some (Calendar.epoch_seconds y m d 0 0 0) else None.
Proof.
  destruct (normalize_date_cases s) as [H|(y & m & d & Hy & Hm & Hd & H)];
    [by left|].
  right. exists y, m, d. repeat split; try lia; [done| |].
  - rewrite H. unfold fmt_date.
    destruct (fmt_year y Hy) as (_ & Ly & _).
    destruct (fmt_two m Hm) as (_ & Lm & _).
    destruct (fmt_two d Hd) as (_ & Ld & _).
    rewrite !length_append, Ly, Lm, Ld. reflexivity.
  - rewrite H. unfold to_datetime, fmt_date. rewrite !append_assoc.
    rewrite (fixed_digits_app 4 _ 0 y) by (apply roundtrip_year; lia).
    cbn [mbind option_bind]. rewrite expect_literal. cbn [mbind option_bind].
    rewrite (fixed_digits_app 2 _ 0 m) by (apply roundtrip_two; lia).
    cbn [mbind option_bind]. rewrite expect_literal. cbn [mbind option_bind].
    rewrite (fixed_digits_app 2 _ 0 d) by (apply roundtrip_two; lia).
    cbn [mbind option_bind].
    change (Re.expect " " " 00:00:00") with (Some "00:00:00").
    cbn [mbind option_bind].
    change (fixed_digits 2 0 "00:00:00") with (Some (0, ":00:00")).
    cbn [mbind option_bind].
    change (Re.expect ":" ":00:00") with (Some "00:00").
    cbn [mbind option_bind].
    change (fixed_digits 2 0 "00:00") with (Some (0, ":00")).
    cbn [mbind option_bind].
    change (Re.expect ":" ":00") with (Some "00").
    cbn [mbind option_bind].
    change (fixed_digits 2 0 "00") with (Some (0, "")).
    cbn [mbind option_bind].
    change (String.eqb "" "") with true. change (time_in_range 0 0 0) with true.
    cbn [andb]. rewrite andb_true_r. reflexivity.
Qed.

Lemma head_is_append (f : ascii → bool) (a b : string) :
  a ≠ "" → head_is f (a +:+ b) = head_is f a.
Proof. by destruct a. Qed.

Lemma rev_onto_append s : ∀ acc, Py.rev_onto s acc = Py.rev s +:+ acc.
Proof.
  unfold Py.rev. induction s as [|c s IH]; intros acc; [done|].
  cbn [Py.rev_onto]. rewrite IH, (IH (String c "")), append_assoc. reflexivity.
Qed.

Lemma rev_append (a b : string) : Py.rev (a +:+ b) = Py.rev b +:+ Py.rev a.
Proof.
  induction a as [|c a IH].
  - change ("" +:+ b) with b. change (Py.rev "") with "".
    induction (Py.rev b) as [|x r IHr]; [done|].
    change (String x r +:+ "") with (String x (r +:+ "")). by rewrite <- IHr.
  - change (String c a +:+ b) with (String c (a +:+ b)).
    unfold Py.rev at 1 3. cbn [Py.rev_onto].
    rewrite !rev_onto_append, IH, append_assoc. reflexivity.
Qed.

Lemma rev_involutive s : Py.rev (Py.rev s) = s.
Proof.
  induction s as [|c s IH]; [done|].
  change (String c s) with (String c "" +:+ s) at 1.
  rewrite rev_append, rev_append, IH. reflexivity.
Qed.

Lemma rev_nonempty s : s ≠ "" → Py.rev s ≠ "".
Proof.
  intros Hs Hr. apply Hs. rewrite <- (rev_involutive s), Hr. reflexivity.
Qed.

Lemma last_is_append (f : ascii → bool) (a b : string) :
  b ≠ "" → last_is f (a +:+ b) = last_is f b.
Proof.
  intros Hb. unfold last_is. rewrite rev_append.
  by apply head_is_append, rev_nonempty.
Qed.

Lemma lstrip_head s :
  head_is (λ c, negb (Py.isspace c)) s = true → Py.lstrip s = s.
Proof.
  destruct s as [|c r]; [done|]. cbn. by destruct (Py.isspace c).
Qed.

(** A text that neither starts nor ends with white space is its own
    [strip]. *)
Lemma strip_id s :
  head_is (λ c, negb (Py.isspace c)) s = true →
  last_is (λ c, negb (Py.isspace c)) s = true →
  Py.strip s = s.
Proof.
  intros Hh Hl. unfold Py.strip, Py.rstrip. rewrite (lstrip_head s Hh).
  rewrite (lstrip_head (Py.rev s) Hl). apply rev_involutive.
Qed.

Lemma digit_not_space c : Py.isdecimal c = true → Py.isspace c = false.
Proof.
  unfold Py.isdecimal, Py.isspace. cbv zeta. intros H.
  apply andb_true_iff in H as [H1 H2]. apply Z.leb_le in H1, H2.
  repeat (apply orb_false_iff; split);
    first [apply andb_false_iff | apply Z.eqb_neq]; try lia;
    first [left; apply Z.leb_gt; lia | right; apply Z.leb_gt; lia].
Qed.

Lemma head_is_weaken (f g : ascii → bool) s :
  (∀ c, f c = true → g c = true) → head_is f s = true → head_is g s = true.
Proof. destruct s; [done|]. cbn. auto. Qed.

Lemma digit_lower c : Py.isdecimal c = true → Py.lower_char c = c.
Proof.
  unfold Py.isdecimal, Py.lower_char. cbv zeta. intros H.
  apply andb_true_iff in H as [H1 H2]. apply Z.leb_le in H1, H2.
  replace (Py.ord c <=? 90) with true by lia.
  replace (65 <=? Py.ord c) with false by lia.
  replace (192 <=? Py.ord c) with false by lia. reflexivity.
Qed.

(** A text that starts with a digit is none of the missing-value texts. *)
Lemma digit_head_not_sentinel s :
  head_is Py.isdecimal s = true → is_sentinel s = false.
Proof.
  destruct s as [|c r]; [done|]. cbn [head_is]. intros Hc.
  unfold is_sentinel, Py.in_tuple. cbn [Py.lower]. rewrite (digit_lower c Hc).
  assert (Hn : Ascii.eqb c "n" = false).
  { apply Ascii.eqb_neq. intros ->. discriminate Hc. }
  cbn. rewrite Hn. reflexivity.
Qed.

Lemma span_digits_app ds : ∀ rest,
  all_digits ds → head_is Py.isdecimal rest = false →
  Re.span_digits (ds +:+ rest) = (ds, rest).
Proof.
  induction ds as [|c ds IH]; intros rest Hd Hr.
  - change ("" +:+ rest) with rest. destruct rest as [|x r]; [done|].
    cbn in Hr |- *. by rewrite Hr.
  - change (String c ds +:+ rest) with (String c (ds +:+ rest)).
    cbn [Re.span_digits].
    assert (Hc : Py.isdecimal c = true) by (apply Hd; cbn; by left).
    rewrite Hc, IH; [done| |done]. intros x Hx. apply Hd. cbn. by right.
Qed.

Lemma append_empty_r s : s +:+ "" = s.
Proof.
  induction s as [|c s IH]; [done|].
  change (String c s +:+ "") with (String c (s +:+ "")). by rewrite IH.
Qed.

Lemma digits_between_app lo hi ds rest :
  all_digits ds → head_is Py.isdecimal rest = false →
  Re.digits_between lo hi (ds +:+ rest)
  = if (lo <=? String.length ds)%nat && (String.length ds <=? hi)%nat
    then Some (ds, rest) else None.
Proof.
  intros Hd Hr. unfold Re.digits_between. by rewrite span_digits_app.
Qed.

Lemma digits_between_end lo hi ds :
  all_digits ds →
  Re.digits_between lo hi ds
  = if (lo <=? String.length ds)%nat && (String.length ds <=? hi)%nat
    then Some (ds, "") else None.
Proof.
  intros Hd. rewrite <- (append_empty_r ds) at 1.
  by apply digits_between_app.
Qed.

Lemma all_digits_head s :
  all_digits s → s ≠ "" → head_is Py.isdecimal s = true.
Proof. destruct s as [|c r]; [done|]. intros H _. apply H. cbn. by left. Qed.

Lemma string_forallb_append (f : ascii → bool) (a b : string) :
  string_forallb f (a +:+ b) = string_forallb f a && string_forallb f b.
Proof.
  induction a as [|c a IH]; [done|].
  change (String c a +:+ b) with (String c (a +:+ b)). cbn [string_forallb].
  by rewrite IH, andb_assoc.
Qed.

Lemma all_digits_rev s : all_digits s → all_digits (Py.rev s).
Proof.
  intros Hd. apply string_forallb_all_digits.
  apply string_forallb_all_digits in Hd. revert Hd.
  induction s as [|c s IH]; [done|]. cbn [string_forallb]. intros H.
  apply andb_true_iff in H as [Hc Hs].
  change (String c s) with (String c "" +:+ s).
  rewrite rev_append, string_forallb_append, (IH Hs).
  change (Py.rev (String c "")) with (String c ""). cbn [string_forallb].
  by rewrite Hc.
Qed.

Lemma length_nonempty s (n : nat) : String.length s = S n → s ≠ "".
Proof. by destruct s. Qed.

(** The canonical text of a date is a fixed point of the normaliser,
    whatever the month and the day below 100. *)
Lemma normalize_date_fixed y m d :
  0 ≤ y < 10000 → 0 ≤ m < 100 → 0 ≤ d < 100 →
  _normalize_date_str (fmt_date y m d) = fmt_date y m d.
Proof.
  intros Hy Hm Hd.
  destruct (fmt_year y Hy) as (Dy & Ly & Iy).
  destruct (fmt_two m Hm) as (Dm & Lm & Im).
  destruct (fmt_two d Hd) as (Dd & Ld & Id).
  assert (Ny := length_nonempty _ _ Ly). assert (Nd := length_nonempty _ _ Ld).
  assert (Hhead : head_is Py.isdecimal (fmt_date y m d) = true).
  { unfold fmt_date. rewrite head_is_append by done. by apply all_digits_head. }
  assert (Hlast : last_is Py.isdecimal (fmt_date y m d) = true).
  { unfold fmt_date. rewrite <- !append_assoc, last_is_append by done.
    unfold last_is. apply all_digits_head; [by apply all_digits_rev|].
    by apply rev_nonempty. }
  assert (Hns : ∀ c, Py.isdecimal c = true → negb (Py.isspace c) = true).
  { intros c Hc. by rewrite digit_not_space. }
  assert (Hstrip : Py.strip (fmt_date y m d) = fmt_date y m d).
  { apply strip_id; [by apply (head_is_weaken _ _ _ Hns)|].
    unfold last_is in *. by apply (head_is_weaken _ _ _ Hns). }
  assert (Hl : Py.lstrip (fmt_date y m d) = fmt_date y m d).
  { apply lstrip_head. by apply (head_is_weaken _ _ _ Hns). }
  unfold _normalize_date_str. rewrite (digit_head_not_sentinel _ Hhead).
  cbv zeta. rewrite Hstrip.
  assert (Hdmy : ∀ sep, Re.match_dmy sep (fmt_date y m d) = None).
  { intros sep. unfold Re.match_dmy. rewrite Hl. unfold fmt_date.
    rewrite digits_between_app by done. rewrite Ly. reflexivity. }
  unfold match_ddmmyyyy, Re._date_ddmmyyyy_slash, Re._date_ddmmyyyy_dash.
  rewrite !Hdmy.
  unfold Re._date_yyyymmdd_dash. rewrite Hl. unfold fmt_date.
  rewrite digits_between_app by done. rewrite Ly.
  cbn [Nat.leb andb mbind option_bind]. rewrite expect_literal.
  cbn [mbind option_bind].
  rewrite digits_between_app by done. rewrite Lm.
  cbn [Nat.leb andb mbind option_bind]. rewrite expect_literal.
  cbn [mbind option_bind].
  rewrite digits_between_end by done. rewrite Ld.
  cbn [Nat.leb andb mbind option_bind].
  change (Re.only_space "") with true. cbv iota beta.
  rewrite Iy, Im, Id. reflexivity.
Qed.

(** X3: the date normaliser is idempotent, and the text [YYYY-MM-DD] of a
    year below 10000 with a month and a day below 100 is a fixed point of
    it. *)
Theorem normalize_date_idempotent :
  (∀ s, _normalize_date_str (_normalize_date_str s) = _normalize_date_str s)
  ∧ (∀ y m d, 0 ≤ y ≤ 9999 → 0 ≤ m ≤ 99 → 0 ≤ d ≤ 99 →
       _normalize_date_str (fmt_date y m d) = fmt_date y m d).
Proof.
  split.
  - intros s.
    destruct (normalize_date_cases s) as [H|(y & m & d & Hy & Hm & Hd & H)].
    + rewrite H. reflexivity.
    + rewrite H. by apply normalize_date_fixed.
  - intros y m d Hy Hm Hd. apply normalize_date_fixed; lia.
Qed.

Lemma normalize_date_idempotent_witness :
  _normalize_date_str (fmt_date 2024 2 31) = fmt_date 2024 2 31.
Proof.
  apply (proj2 normalize_date_idempotent); lia.
Defined.

(** ** Dates the normaliser accepts *)

Lemma append_cons (c : ascii) (a b : string) :
  String c a +:+ b = String c (a +:+ b).
Proof. reflexivity. Qed.

Lemma digit_group_spec lo hi g :
  digit_group lo hi g = true →
  all_digits g ∧ (lo ≤ String.length g ≤ hi)%nat.
Proof.
  unfold digit_group. intros H. apply andb_true_iff in H as [H H3].
  apply andb_true_iff in H as [H1 H2]. apply Nat.leb_le in H2, H3.
  split; [by apply string_forallb_all_digits | lia].
Qed.

Lemma space_lower c : Py.isspace c = true → Py.lower_char c = c.
Proof.
  unfold Py.isspace, Py.lower_char. cbv zeta. intros H.
  replace ((65 <=? Py.ord c) && (Py.ord c <=? 90)) with false by lia.
  replace ((192 <=? Py.ord c) && (Py.ord c <=? 222) && negb (Py.ord c =? 215))
    with false by lia.
  reflexivity.
Qed.

(** A text whose first character is not an [n] in either case is none of
    the missing-value texts. *)
Lemma head_not_sentinel s :
  head_is (λ c, negb (Ascii.eqb (Py.lower_char c) "n")) s = true →
  is_sentinel s = false.
Proof.
  destruct s as [|c r]; [done|]. cbn [head_is]. intros Hc.
  apply negb_true_iff in Hc.
  unfold is_sentinel, Py.in_tuple. cbn [Py.lower]. cbn. rewrite Hc. reflexivity.
Qed.

Lemma string_forallb_weaken (f g : ascii → bool) s :
  (∀ c, f c = true → g c = true) →
  string_forallb f s = true → string_forallb g s = true.
Proof.
  intros Hfg. induction s as [|c s IH]; [done|]. cbn. intros H.
  apply andb_true_iff in H as [Hc Hs]. by rewrite (Hfg c Hc), IH.
Qed.

Lemma head_is_pad (f : ascii → bool) (p s : string) :
  string_forallb f p = true → head_is f s = true → head_is f (p +:+ s) = true.
Proof.
  destruct p as [|c p]; [done|]. rewrite append_cons.
  cbn [head_is string_forallb]. intros H _.
  by apply andb_true_iff in H as [H _].
Qed.

Lemma lstrip_pad (p s : string) :
  white p = true → Py.lstrip (p +:+ s) = Py.lstrip s.
Proof.
  unfold white. induction p as [|c p IH]; [done|]. cbn [string_forallb].
  intros H. apply andb_true_iff in H as [Hc Hp].
  rewrite append_cons. cbn [Py.lstrip]. rewrite Hc. by apply IH.
Qed.

Lemma string_forallb_rev (f : ascii → bool) s :
  string_forallb f (Py.rev s) = string_forallb f s.
Proof.
  induction s as [|c s IH]; [done|].
  change (String c s) with (String c "" +:+ s) at 1.
  rewrite rev_append, string_forallb_append, IH.
  change (Py.rev (String c "")) with (String c ""). cbn [string_forallb].
  by rewrite andb_true_r, andb_comm.
Qed.

(** [strip] removes the white space around a text that neither starts nor
    ends with white space. *)
Lemma strip_pad (p1 s p2 : string) :
  white p1 = true → white p2 = true →
  head_is (λ c, negb (Py.isspace c)) s = true →
  last_is (λ c, negb (Py.isspace c)) s = true →
  Py.strip (p1 +:+ s +:+ p2) = s.
Proof.
  intros H1 H2 Hh Hl. unfold Py.strip, Py.rstrip.
  rewrite (lstrip_pad p1 _ H1).
  assert (Hne : s ≠ "") by (intros ->; discriminate Hh).
  rewrite (lstrip_head (s +:+ p2)) by (by rewrite head_is_append).
  rewrite rev_append, lstrip_pad by (unfold white; by rewrite string_forallb_rev).
  rewrite (lstrip_head (Py.rev s) Hl). apply rev_involutive.
Qed.

Lemma digits_last s :
  all_digits s → s ≠ "" → last_is Py.isdecimal s = true.
Proof.
  intros Hd Hs. unfold last_is.
  apply all_digits_head; [by apply all_digits_rev | by apply rev_nonempty].
Qed.

Lemma sep_not_digit (sep : ascii) (rest : string) :
  sep = "/"%char ∨ sep = "-"%char →
  head_is Py.isdecimal (String sep rest) = false.
Proof. by intros [-> | ->]. Qed.

Lemma nonempty_of_length s (n : nat) : (S n ≤ String.length s)%nat → s ≠ "".
Proof. destruct s; [cbn; lia | done]. Qed.

(** The day-first pattern on its own language. *)
Lemma match_dmy_accepts (sep : ascii) (g1 g2 g3 : string) :
  sep = "/"%char ∨ sep = "-"%char →
  digit_group 1 2 g1 = true → digit_group 1 2 g2 = true →
  digit_group 2 4 g3 = true →
  Re.match_dmy sep (g1 +:+ String sep (g2 +:+ String sep g3))
  = Some (g1, g2, g3).
Proof.
  intros Hsep H1 H2 H3.
  pose proof (sep_not_digit sep) as Hnd.
  unfold digit_group in H1, H2, H3.
  apply andb_true_iff in H1 as [H1 L1]. apply andb_true_iff in H1 as [D1 L1'].
  apply andb_true_iff in H2 as [H2 L2]. apply andb_true_iff in H2 as [D2 L2'].
  apply andb_true_iff in H3 as [H3 L3]. apply andb_true_iff in H3 as [D3 L3'].
  apply string_forallb_all_digits in D1, D2, D3.
  assert (N1 : g1 ≠ "")
    by (apply Nat.leb_le in L1'; eapply (nonempty_of_length _ 0); lia).
  unfold Re.match_dmy.
  rewrite lstrip_head.
  2:{ rewrite head_is_append by done.
      eapply head_is_weaken; [|by apply all_digits_head].
      intros c Hc. by rewrite digit_not_space. }
  rewrite digits_between_app by auto. rewrite L1, L1'.
  cbn [andb mbind option_bind Re.expect]. rewrite Ascii.eqb_refl.
  cbn [mbind option_bind].
  rewrite digits_between_app by auto. rewrite L2, L2'.
  cbn [andb mbind option_bind Re.expect]. rewrite Ascii.eqb_refl.
  cbn [mbind option_bind].
  rewrite digits_between_end by done. rewrite L3, L3'. reflexivity.
Qed.

(** A text that starts with a group of the wrong length, or goes on with
    the other separator, does not match the day-first pattern. *)
Lemma match_dmy_rejects (sep : ascii) (g rest : string) :
  all_digits g → g ≠ "" → head_is Py.isdecimal rest = false →
  (2 < String.length g)%nat ∨ Re.expect sep rest = None →
  Re.match_dmy sep (g +:+ rest) = None.
Proof.
  intros Dg Ng Hr Hwhy. unfold Re.match_dmy.
  rewrite lstrip_head.
  2:{ rewrite head_is_append by done.
      eapply head_is_weaken; [|by apply all_digits_head].
      intros c Hc. by rewrite digit_not_space. }
  rewrite digits_between_app by done.
  destruct ((1 <=? String.length g)%nat && (String.length g <=? 2)%nat) eqn:Hb;
    [|reflexivity].
  destruct Hwhy as [Hlen | Hexp].
  - apply andb_true_iff in Hb as [_ Hb]. apply Nat.leb_le in Hb. lia.
  - cbn [mbind option_bind]. by rewrite Hexp.
Qed.

Lemma match_ymd_accepts (g1 g2 g3 : string) :
  digit_group 4 4 g1 = true → digit_group 1 2 g2 = true →
  digit_group 1 2 g3 = true →
  Re._date_yyyymmdd_dash (g1 +:+ String "-" (g2 +:+ String "-" g3))
  = Some (g1, g2, g3).
Proof.
  intros H1 H2 H3.
  unfold digit_group in H1, H2, H3.
  apply andb_true_iff in H1 as [H1 L1]. apply andb_true_iff in H1 as [D1 L1'].
  apply andb_true_iff in H2 as [H2 L2]. apply andb_true_iff in H2 as [D2 L2'].
  apply andb_true_iff in H3 as [H3 L3]. apply andb_true_iff in H3 as [D3 L3'].
  apply string_forallb_all_digits in D1, D2, D3.
  assert (N1 : g1 ≠ "")
    by (apply Nat.leb_le in L1'; eapply (nonempty_of_length _ 0); lia).
  unfold Re._date_yyyymmdd_dash.
  rewrite lstrip_head.
  2:{ rewrite head_is_append by done.
      eapply head_is_weaken; [|by apply all_digits_head].
      intros c Hc. by rewrite digit_not_space. }
  rewrite digits_between_app by done. rewrite L1, L1'.
  cbn [andb mbind option_bind Re.expect Ascii.eqb Bool.eqb].
  rewrite digits_between_app by done. rewrite L2, L2'.
  cbn [andb mbind option_bind Re.expect Ascii.eqb Bool.eqb].
  rewrite digits_between_end by done. rewrite L3, L3'. reflexivity.
Qed.

(** The text of a date with white space around it: not a missing-value
    text, and stripped to the date. *)
Lemma padded_date_text (p1 g rest p2 : string) :
  white p1 = true → white p2 = true →
  all_digits g → g ≠ "" →
  last_is Py.isdecimal (g +:+ rest) = true →
  is_sentinel (p1 +:+ (g +:+ rest) +:+ p2) = false
  ∧ Py.strip (p1 +:+ (g +:+ rest) +:+ p2) = g +:+ rest.
Proof.
  intros H1 H2 Dg Ng Hlast.
  assert (Hhead : head_is Py.isdecimal (g +:+ rest) = true).
  { rewrite head_is_append by done. by apply all_digits_head. }
  split.
  - apply head_not_sentinel, head_is_pad.
    + eapply string_forallb_weaken; [|exact H1].
      intros c Hc. rewrite (space_lower c Hc). apply negb_true_iff.
      apply Ascii.eqb_neq. intros ->. discriminate Hc.
    + rewrite head_is_append.
      * eapply head_is_weaken; [|exact Hhead].
        intros c Hc. rewrite (digit_lower c Hc). apply negb_true_iff.
        apply Ascii.eqb_neq. intros ->. discriminate Hc.
      * intros Hg. apply Ng. destruct g; [done|discriminate Hg].
  - apply strip_pad; try done.
    + eapply head_is_weaken; [|exact Hhead].
      intros c Hc. by rewrite digit_not_space.
    + unfold last_is in *. eapply head_is_weaken; [|exact Hlast].
      intros c Hc. by rewrite digit_not_space.
Qed.

(** X4: a date written day first, [D/M/Y] or [D-M-Y] with one or two
    digits for the day and the month and two to four for the year, possibly
    with white space around it, is normalised to the year (two digits being
    read in the window 1970 to 2069), the month and the day it names. *)
Theorem normalize_date_day_first (p1 g1 g2 g3 p2 : string) (sep : ascii) :
  sep = "/"%char ∨ sep = "-"%char →
  white p1 = true → white p2 = true →
  digit_group 1 2 g1 = true → digit_group 1 2 g2 = true →
  digit_group 2 4 g3 = true →
  _normalize_date_str
    (p1 +:+ (g1 +:+ String sep (g2 +:+ String sep g3)) +:+ p2)
  = fmt_date (_norm_year (Py.int g3)) (Py.int g2) (Py.int g1).
Proof.
  intros Hsep W1 W2 H1 H2 H3.
  destruct (digit_group_spec _ _ _ H1) as [D1 L1].
  destruct (digit_group_spec _ _ _ H2) as [D2 L2].
  destruct (digit_group_spec _ _ _ H3) as [D3 L3].
  assert (N1 : g1 ≠ "") by (eapply (nonempty_of_length _ 0); lia).
  assert (N3 : g3 ≠ "") by (eapply (nonempty_of_length _ 0); lia).
  assert (Hlast : last_is Py.isdecimal
                    (g1 +:+ String sep (g2 +:+ String sep g3)) = true).
  { rewrite last_is_append by done.
    change (String sep (g2 +:+ String sep g3))
      with (String sep "" +:+ (g2 +:+ String sep g3)).
    rewrite last_is_append
      by (intros E; by apply (append_cons_nonempty g2 g3 sep)).
    change (String sep g3) with (String sep "" +:+ g3).
    rewrite !last_is_append by done. by apply digits_last. }
  destruct (padded_date_text p1 g1 _ p2 W1 W2 D1 N1 Hlast) as [Hs Hstrip].
  unfold _normalize_date_str. rewrite Hs. cbv zeta. rewrite Hstrip.
  unfold match_ddmmyyyy, Re._date_ddmmyyyy_slash, Re._date_ddmmyyyy_dash.
  destruct Hsep as [-> | ->].
  - rewrite match_dmy_accepts by auto. reflexivity.
  - rewrite (match_dmy_rejects "/") by (try done; by right).
    rewrite match_dmy_accepts by auto. reflexivity.
Qed.

Lemma normalize_date_day_first_witness :
  _normalize_date_str (" " +:+ ("5" +:+ String "/" ("3" +:+ String "/" "24")) +:+ " ")
  = fmt_date (_norm_year (Py.int "24")) (Py.int "3") (Py.int "5").
Proof.
  apply normalize_date_day_first; first [by left | reflexivity].
Defined.

(** X5: a date written year first, [YYYY-M-D] with four digits for the
    year and one or two for the month and the day, possibly with white
    space around it, is normalised to the year, the month and the day it
    names; the year is taken as written. *)
Theorem normalize_date_year_first (p1 g1 g2 g3 p2 : string) :
  white p1 = true → white p2 = true →
  digit_group 4 4 g1 = true → digit_group 1 2 g2 = true →
  digit_group 1 2 g3 = true →
  _normalize_date_str
    (p1 +:+ (g1 +:+ String "-" (g2 +:+ String "-" g3)) +:+ p2)
  = fmt_date (Py.int g1) (Py.int g2) (Py.int g3).
Proof.
  intros W1 W2 H1 H2 H3.
  destruct (digit_group_spec _ _ _ H1) as [D1 L1].
  destruct (digit_group_spec _ _ _ H2) as [D2 L2].
  destruct (digit_group_spec _ _ _ H3) as [D3 L3].
  assert (N1 : g1 ≠ "") by (eapply (nonempty_of_length _ 0); lia).
  assert (N3 : g3 ≠ "") by (eapply (nonempty_of_length _ 0); lia).
  assert (Hlast : last_is Py.isdecimal
                    (g1 +:+ String "-" (g2 +:+ String "-" g3)) = true).
  { rewrite last_is_append by done.
    change (String "-" (g2 +:+ String "-" g3))
      with (String "-" "" +:+ (g2 +:+ String "-" g3)).
    rewrite last_is_append
      by (intros E; by apply (append_cons_nonempty g2 g3 "-")).
    change (String "-" g3) with (String "-" "" +:+ g3).
    rewrite !last_is_append by done. by apply digits_last. }
  destruct (padded_date_text p1 g1 _ p2 W1 W2 D1 N1 Hlast) as [Hs Hstrip].
  unfold _normalize_date_str. rewrite Hs. cbv zeta. rewrite Hstrip.
  unfold match_ddmmyyyy, Re._date_ddmmyyyy_slash, Re._date_ddmmyyyy_dash.
  rewrite !match_dmy_rejects by (try done; left; lia).
  rewrite match_ymd_accepts by done. reflexivity.
Qed.

Lemma normalize_date_year_first_witness :
  _normalize_date_str ("" +:+ ("2024" +:+ String "-" ("1" +:+ String "-" "15")) +:+ "")
  = fmt_date (Py.int "2024") (Py.int "1") (Py.int "15").
Proof.
  apply normalize_date_year_first; reflexivity.
Defined.

(** ** The time normaliser *)

Lemma time_hm_table :
  forallb (λ mk, forallb (λ h, forallb (λ m, time_hm_ok mk (h + 1) m)
                                       (Zrange 60)) (Zrange 12)) markers
  = true.
Proof. vm_compute. reflexivity. Qed.

Lemma digits_table :
  forallb (λ h, digit_group 1 2 (Py.digits h) && (Py.int (Py.digits h) =? h))
          (Zrange 100) = true.
Proof. vm_compute. reflexivity. Qed.

Lemma digits_group h :
  0 ≤ h < 100 →
  digit_group 1 2 (Py.digits h) = true ∧ Py.int (Py.digits h) = h.
Proof.
  intros Hh. assert (H := forallb_Zrange _ 100 digits_table h Hh).
  cbv beta in H. apply andb_true_iff in H as [H1 H2].
  split; [done | by apply Z.eqb_eq].
Qed.

Lemma fmt_two_group n :
  0 ≤ n < 100 → digit_group 2 2 (Py.fmt_0d 2 n) = true.
Proof.
  intros Hn. destruct (fmt_two n Hn) as (Hd & Hl & _).
  unfold digit_group. rewrite Hl.
  by rewrite (proj2 (string_forallb_all_digits _) Hd).
Qed.

Lemma digit_plain c : Py.isdecimal c = true → plain_char c = true.
Proof.
  intros Hc. unfold plain_char. rewrite (digit_lower c Hc), Ascii.eqb_refl.
  apply negb_true_iff, Ascii.eqb_neq. intros ->. discriminate Hc.
Qed.

Lemma lower_plain s : string_forallb plain_char s = true → Py.lower s = s.
Proof.
  induction s as [|c s IH]; [done|]. cbn [string_forallb Py.lower].
  intros H. apply andb_true_iff in H as [Hc Hs]. rewrite (IH Hs).
  unfold plain_char in Hc. apply andb_true_iff in Hc as [Hc _].
  apply Ascii.eqb_eq in Hc. by rewrite Hc.
Qed.

Lemma remove_dot_plain s :
  string_forallb plain_char s = true → Py.remove_char "." s = s.
Proof.
  induction s as [|c s IH]; [done|]. cbn [string_forallb Py.remove_char].
  intros H. apply andb_true_iff in H as [Hc Hs]. rewrite (IH Hs).
  unfold plain_char in Hc. apply andb_true_iff in Hc as [_ Hc].
  apply negb_true_iff in Hc. by rewrite Hc.
Qed.

(** A text in lower case without periods and without white space at its
    ends is what the normaliser matches its patterns on. *)
Lemma time_text_plain s :
  head_is (λ c, negb (Py.isspace c)) s = true →
  last_is (λ c, negb (Py.isspace c)) s = true →
  string_forallb plain_char s = true →
  time_text s = s.
Proof.
  intros Hh Hl Hp. unfold time_text.
  by rewrite (strip_id s Hh Hl), (lower_plain s Hp), remove_dot_plain.
Qed.

Lemma plain_markers_spec mk :
  In mk ["am"; "pm"] →
  head_is Py.isdecimal mk = false
  ∧ last_is (λ c, negb (Py.isspace c)) mk = true
  ∧ string_forallb plain_char mk = true
  ∧ mk ≠ ""
  ∧ Re.match_marker (Py.lstrip mk) = Some mk
  ∧ Py.lower mk = mk.
Proof.
  cbn [In]. intros [<-|[<-|[]]]; repeat split; done.
Qed.

(** The time [H:MM:SS] written with digits only, and the same followed by
    a plain marker: the groups are read as they stand. *)
Lemma normalize_time_hms (g1 g2 g3 mk : string) :
  digit_group 1 2 g1 = true → digit_group 2 2 g2 = true →
  digit_group 2 2 g3 = true →
  mk = "" ∨ In mk ["am"; "pm"] →
  _normalize_time_str (g1 +:+ String ":" (g2 +:+ String ":" (g3 +:+ mk)))
  = if String.eqb mk ""
    then (if negb (time_in_range (Py.int g1) (Py.int g2) (Py.int g3)) then ""
          else fmt_time (Py.int g1) (Py.int g2) (Py.int g3))
    else ampm_branch (Py.int g1) (Py.int g2) (Py.int g3) mk.
Proof.
  intros H1 H2 H3 Hmk.
  destruct (digit_group_spec _ _ _ H1) as [D1 L1].
  destruct (digit_group_spec _ _ _ H2) as [D2 L2].
  destruct (digit_group_spec _ _ _ H3) as [D3 L3].
  assert (N1 : g1 ≠ "") by (eapply (nonempty_of_length _ 0); lia).
  assert (N3 : g3 ≠ "") by (eapply (nonempty_of_length _ 0); lia).
  assert (E1 : (1 <=? String.length g1)%nat && (String.length g1 <=? 2)%nat = true)
    by (apply andb_true_iff; split; apply Nat.leb_le; lia).
  assert (E2 : (2 <=? String.length g2)%nat && (String.length g2 <=? 2)%nat = true)
    by (apply andb_true_iff; split; apply Nat.leb_le; lia).
  assert (E3 : (2 <=? String.length g3)%nat && (String.length g3 <=? 2)%nat = true)
    by (apply andb_true_iff; split; apply Nat.leb_le; lia).
  assert (P1 := string_forallb_weaken _ _ g1 digit_plain
                  (proj2 (string_forallb_all_digits g1) D1)).
  assert (P2 := string_forallb_weaken _ _ g2 digit_plain
                  (proj2 (string_forallb_all_digits g2) D2)).
  assert (P3 := string_forallb_weaken _ _ g3 digit_plain
                  (proj2 (string_forallb_all_digits g3) D3)).
  assert (Hns : ∀ c, Py.isdecimal c = true → negb (Py.isspace c) = true)
    by (intros c Hc; by rewrite digit_not_space).
  assert (Hmk' : head_is Py.isdecimal mk = false
                 ∧ last_is (λ c, negb (Py.isspace c)) (g3 +:+ mk) = true
                 ∧ string_forallb plain_char mk = true
                 ∧ Re.match_marker (Py.lstrip mk)
                   = (if String.eqb mk "" then None else Some mk)
                 ∧ Py.lower mk = mk).
  { destruct Hmk as [->|Hmk].
    - rewrite append_empty_r. repeat split; try done.
      unfold last_is. eapply head_is_weaken; [exact Hns|].
      by apply digits_last.
    - destruct (plain_markers_spec mk Hmk) as (M1 & M2 & M3 & M4 & M5 & M6).
      rewrite last_is_append by done. repeat split; try done.
      rewrite M5. by destruct mk. }
  destruct Hmk' as (M1 & M2 & M3 & M5 & M6).
  set (S := g1 +:+ String ":" (g2 +:+ String ":" (g3 +:+ mk))).
  assert (Hhead : head_is Py.isdecimal S = true).
  { unfold S. rewrite head_is_append by done. by apply all_digits_head. }
  assert (Hlast : last_is (λ c, negb (Py.isspace c)) S = true).
  { unfold S.
    change (String ":" (g2 +:+ String ":" (g3 +:+ mk)))
      with (String ":" "" +:+ (g2 +:+ (String ":" "" +:+ (g3 +:+ mk)))).
    assert (N : g3 +:+ mk ≠ "") by (destruct g3; [done | discriminate]).
    rewrite (last_is_append _ g1) by discriminate.
    rewrite (last_is_append _ (String ":" ""))
      by apply (append_cons_nonempty g2 (g3 +:+ mk) ":").
    rewrite (last_is_append _ g2) by discriminate.
    by rewrite (last_is_append _ (String ":" "")). }
  assert (Hplain : string_forallb plain_char S = true).
  { unfold S.
    change (String ":" (g2 +:+ String ":" (g3 +:+ mk)))
      with (String ":" "" +:+ (g2 +:+ (String ":" "" +:+ (g3 +:+ mk)))).
    rewrite !string_forallb_append, P1, P2, P3, M3. reflexivity. }
  assert (Hhms : Re.match_hms S = Some (g1, g2, Some g3, mk)).
  { unfold Re.match_hms, S.
    rewrite lstrip_head
      by (rewrite head_is_append by done;
          eapply head_is_weaken; [exact Hns | by apply all_digits_head]).
    rewrite digits_between_app by done. rewrite E1.
    cbn [mbind option_bind Re.expect Ascii.eqb Bool.eqb].
    rewrite digits_between_app by done. rewrite E2.
    cbn [mbind option_bind].
    rewrite digits_between_app by done. rewrite E3. reflexivity. }
  unfold _normalize_time_str.
  rewrite (digit_head_not_sentinel S Hhead). cbv zeta.
  rewrite (time_text_plain S) by (try done; by eapply head_is_weaken).
  unfold Re._time_hhmm_ampm, Re._time_hhmm_24. rewrite Hhms.
  cbn [mbind option_bind]. rewrite M5.
  assert (Hsec : seconds_group (Some g3) = Py.int g3).
  { unfold seconds_group. by destruct g3. }
  destruct (String.eqb_spec mk "") as [->|Hne].
  - cbn [mbind option_bind]. change (Re.only_space "") with true.
    cbv iota beta zeta. by rewrite Hsec.
  - cbn [mbind option_bind]. by rewrite Hsec, M6.
Qed.

Lemma time_in_range_true hh mm ss :
  0 ≤ hh ≤ 23 → 0 ≤ mm ≤ 59 → 0 ≤ ss ≤ 59 → time_in_range hh mm ss = true.
Proof.
  intros Hh Hm Hs. unfold time_in_range.
  repeat (apply andb_true_iff; split); apply Z.leb_le; lia.
Qed.

(** The branch of the 12-hour clock on an hour of that clock. *)
Lemma ampm_branch_hour24 h m s :
  1 ≤ h ≤ 12 → 0 ≤ m ≤ 59 → 0 ≤ s ≤ 59 →
  ampm_branch h m s "am" = fmt_time (hour24 h false) m s
  ∧ ampm_branch h m s "pm" = fmt_time (hour24 h true) m s.
Proof.
  intros Hh Hm Hs. unfold ampm_branch, hour24.
  change (Py.contains "pm" "am") with false.
  change (Py.contains "am" "am") with true.
  change (Py.contains "pm" "pm") with true.
  change (Py.contains "am" "pm") with false.
  cbn [andb]. split.
  - destruct (Z.eqb_spec h 12) as [->|Hne].
    + by rewrite time_in_range_true by lia.
    + by rewrite time_in_range_true by lia.
  - destruct (Z.ltb_spec h 12) as [Hlt|Hge].
    + rewrite time_in_range_true by lia.
      destruct (Z.eqb_spec h 12); [lia|done].
    + assert (h = 12) as -> by lia. by rewrite time_in_range_true by lia.
Qed.

(** The result of the time normaliser is empty or the canonical text of a
    time of the day. *)
Lemma normalize_time_cases s :
  _normalize_time_str s = ""
  ∨ ∃ hh mm ss, time_in_range hh mm ss = true
                ∧ _normalize_time_str s = fmt_time hh mm ss.
Proof.
  unfold _normalize_time_str. destruct (is_sentinel s); [by left|].
  destruct (Re._time_hhmm_ampm (time_text s)) as [[[[g1 g2] g3] g4]|].
  - unfold ampm_branch.
    set (h1 := if Py.contains "pm" (Py.lower g4) && (Py.int g1 <? 12)
               then Py.int g1 + 12 else Py.int g1).
    set (h2 := if Py.contains "am" (Py.lower g4) && (h1 =? 12) then 0 else h1).
    destruct (time_in_range h2 (Py.int g2) (seconds_group g3)) eqn:Hr;
      [right; eauto | by left].
  - destruct (Re._time_hhmm_24 (time_text s)) as [[[g1 g2] g3]|]; [|by left].
    cbv zeta.
    destruct (time_in_range (Py.int g1) (Py.int g2) (seconds_group g3)) eqn:Hr;
      [right; eauto | by left].
Qed.

Lemma normalize_time_fixed hh mm ss :
  time_in_range hh mm ss = true →
  _normalize_time_str (fmt_time hh mm ss) = fmt_time hh mm ss.
Proof.
  intros Hr. assert (Hr' := Hr). unfold time_in_range in Hr'.
  assert (Hh : 0 ≤ hh < 100) by lia. assert (Hm : 0 ≤ mm < 100) by lia.
  assert (Hs : 0 ≤ ss < 100) by lia.
  destruct (fmt_two hh Hh) as (_ & _ & Ih).
  destruct (fmt_two mm Hm) as (_ & _ & Im).
  destruct (fmt_two ss Hs) as (_ & _ & Is).
  assert (G1 : digit_group 1 2 (Py.fmt_0d 2 hh) = true).
  { destruct (digit_group_spec _ _ _ (fmt_two_group hh Hh)) as [D L].
    unfold digit_group.
    rewrite (proj2 (string_forallb_all_digits _) D).
    apply andb_true_iff. split; [|apply Nat.leb_le; lia].
    apply andb_true_iff. split; [done|apply Nat.leb_le; lia]. }
  unfold fmt_time.
  rewrite <- (append_empty_r (Py.fmt_0d 2 ss)).
  change (Py.fmt_0d 2 hh +:+ ":" +:+ Py.fmt_0d 2 mm +:+ ":" +:+ Py.fmt_0d 2 ss +:+ "")
    with (Py.fmt_0d 2 hh
          +:+ String ":" (Py.fmt_0d 2 mm +:+ String ":" (Py.fmt_0d 2 ss +:+ ""))).
  rewrite normalize_time_hms
    by first [done | by apply fmt_two_group | by left].
  change (String.eqb "" "") with true. cbv iota.
  rewrite Ih, Im, Is, Hr. cbn [negb]. by rewrite append_empty_r.
Qed.

(** X6: the time normaliser returns either the empty text or a text
    [HH:MM:SS] of eight characters that names a time of the day: hour 0 to
    23, minute and second 0 to 59. An out-of-range time never comes back. *)
Theorem normalize_time_canonical s :
  _normalize_time_str s = ""
  ∨ ∃ hh mm ss,
      0 ≤ hh ≤ 23 ∧ 0 ≤ mm ≤ 59 ∧ 0 ≤ ss ≤ 59
      ∧ _normalize_time_str s = fmt_time hh mm ss
      ∧ String.length (_normalize_time_str s) = 8%nat.
Proof.
  destruct (normalize_time_cases s) as [H|(hh & mm & ss & Hr & H)]; [by left|].
  right. exists hh, mm, ss. unfold time_in_range in Hr.
  repeat split; try lia; [done|].
  rewrite H. unfold fmt_time.
  destruct (fmt_two hh ltac:(lia)) as (_ & Lh & _).
  destruct (fmt_two mm ltac:(lia)) as (_ & Lm & _).
  destruct (fmt_two ss ltac:(lia)) as (_ & Ls & _).
  rewrite !length_append, Lh, Lm, Ls. reflexivity.
Qed.

(** X7: the time normaliser is idempotent, and every canonical time of the
    day is a fixed point of it. *)
Theorem normalize_time_idempotent :
  (∀ s, _normalize_time_str (_normalize_time_str s) = _normalize_time_str s)
  ∧ (∀ hh mm ss, time_in_range hh mm ss = true →
       _normalize_time_str (fmt_time hh mm ss) = fmt_time hh mm ss).
Proof.
  split; [|exact normalize_time_fixed].
  intros s. destruct (normalize_time_cases s) as [H|(hh & mm & ss & Hr & H)].
  - rewrite H. reflexivity.
  - rewrite H. by apply normalize_time_fixed.
Qed.

Lemma normalize_time_idempotent_witness :
  _normalize_time_str (fmt_time 14 30 0) = fmt_time 14 30 0.
Proof.
  apply (proj2 normalize_time_idempotent). reflexivity.
Defined.

(** X8: a time of the 12-hour clock, hour 1 to 12, is normalised to the
    24-hour clock: 12 am is hour 0, 12 pm is hour 12, any other pm hour gains
    12; the marker may be written in capitals, with periods, or after a
    blank, and the seconds are 0 when they are not written. *)
Theorem normalize_time_12h_clock h m s mk pm :
  1 ≤ h ≤ 12 → 0 ≤ m ≤ 59 → 0 ≤ s ≤ 59 →
  (In (mk, pm) markers →
   _normalize_time_str (Py.digits h +:+ ":" +:+ Py.fmt_0d 2 m +:+ mk)
   = fmt_time (hour24 h pm) m 0)
  ∧ (In (mk, pm) plain_markers →
     _normalize_time_str
       (Py.digits h +:+ ":" +:+ Py.fmt_0d 2 m +:+ ":" +:+ Py.fmt_0d 2 s +:+ mk)
     = fmt_time (hour24 h pm) m s).
Proof.
  intros Hh Hm Hs. split; intros Hmk.
  - assert (H := proj1 (forallb_forall _ _) time_hm_table (mk, pm) Hmk).
    cbv beta in H.
    assert (H1 := forallb_Zrange _ 12 H (h - 1) ltac:(lia)). cbv beta in H1.
    assert (H2 := forallb_Zrange _ 60 H1 m ltac:(lia)). cbv beta in H2.
    replace (h - 1 + 1) with h in H2 by lia.
    by apply String.eqb_eq in H2.
  - destruct (digits_group h ltac:(lia)) as [G1 I1].
    destruct (fmt_two m ltac:(lia)) as (_ & _ & I2).
    destruct (fmt_two s ltac:(lia)) as (_ & _ & I3).
    destruct (ampm_branch_hour24 h m s Hh Hm Hs) as [Ham Hpm].
    change (Py.digits h +:+ ":" +:+ Py.fmt_0d 2 m +:+ ":" +:+ Py.fmt_0d 2 s +:+ mk)
      with (Py.digits h
            +:+ String ":" (Py.fmt_0d 2 m +:+ String ":" (Py.fmt_0d 2 s +:+ mk))).
    unfold plain_markers in Hmk. cbn [In] in Hmk.
    destruct Hmk as [Hmk|[Hmk|[]]]; injection Hmk as <- <-;
      (rewrite normalize_time_hms
         by first [ done | apply fmt_two_group; lia
                  | right; cbn [In]; tauto ]);
      cbn [String.eqb Ascii.eqb Bool.eqb]; by rewrite I1, I2, I3.
Qed.

Lemma normalize_time_12h_clock_witness :
  _normalize_time_str (Py.digits 12 +:+ ":" +:+ Py.fmt_0d 2 5 +:+ " AM")
  = fmt_time (hour24 12 false) 5 0.
Proof.
  apply (proj1 (normalize_time_12h_clock 12 5 0 " AM" false
                  ltac:(lia) ltac:(lia) ltac:(lia))).
  vm_compute. tauto.
Defined.

(** ** Durations and labels of a row *)

Lemma sub_hours_lookup (A B : list cell) (i : nat) a b :
  A !! i = Some a → B !! i = Some b →
  S.sub_hours A B !! i = Some (sub_hours a b).
Proof. intros Ha Hb. unfold S.sub_hours. rows. reflexivity. Qed.

Ltac forget_row :=
  repeat match goal with
  | |- context [instant_at ?o ?c ?i] =>
      let x := fresh "x" in generalize (instant_at o c i); intro x
  end.

Section Durations.

Variable str_of_value : cell → string.
Variable to_numeric_object : cell → option Q.

Lemma responding_time_row df (i : nat) :
  wf df → (i < nrows df)%nat →
  let out := add_derived_columns str_of_value to_numeric_object df in
  cell_at out "Responding Time (Hrs)" i
  = Some match instant_at out "_RespondedOnDT" i,
               instant_at out "_RaisedOnDT" i with
         | Some r, Some a => Num (hours (r - a))
         | _, _ => NA
         end.
Proof.
  intros Hwf Hi out.
  assert (Hr := responded_row str_of_value to_numeric_object df i Hwf Hi).
  assert (Ha := raised_row str_of_value to_numeric_object df i Hwf Hi).
  cbv zeta in Hr, Ha. fold out in Hr, Ha.
  unfold cell_at at 1. unfold out at 1. rewrite out_responding_time.
  fold out. cbn [mbind option_bind].
  rewrite <- !get_col_lookup in Hr, Ha.
  rewrite (sub_hours_lookup _ _ i _ _ Hr Ha).
  clear. forget_row. intros. f_equal.
  by destruct x as [r|], x0 as [a|].
Qed.

Lemma closure_time_row df (i : nat) :
  wf df → (i < nrows df)%nat →
  let out := add_derived_columns str_of_value to_numeric_object df in
  cell_at out "Computed Closure Time (Hrs)" i
  = Some match instant_at out "_EffectiveResolutionDT" i,
               instant_at out "_RaisedOnDT" i with
         | Some e, Some a => Num (hours (e - a))
         | _, _ => NA
         end.
Proof.
  intros Hwf Hi out.
  assert (He := effective_cell str_of_value to_numeric_object df i Hwf Hi).
  assert (Ha := raised_row str_of_value to_numeric_object df i Hwf Hi).
  cbv zeta in He, Ha. fold out in He, Ha.
  unfold cell_at at 1. unfold out at 1. rewrite out_closure_time.
  fold out. cbn [mbind option_bind].
  rewrite <- !get_col_lookup in He, Ha.
  rewrite (sub_hours_lookup _ _ i _ _ He Ha).
  clear. forget_row. intros. f_equal.
  by destruct x as [e|], x0 as [a|].
Qed.

(** X9: on every row the responding time is the hours from RaisedAt to
    RespondedAt, negative when the response precedes the raising (it is not
    clamped) and NaN when either instant is absent; the computed closure
    time is the hours from RaisedAt to EffectiveResolutionAt; on a row that
    is not closed the closure time, when it is a number, is positive and
    equal to the responding time. *)
Theorem timings_of_a_row df (i : nat) :
  wf df → (i < nrows df)%nat →
  let out := add_derived_columns str_of_value to_numeric_object df in
  let raised := instant_at out "_RaisedOnDT" i in
  let responded := instant_at out "_RespondedOnDT" i in
  let closed := instant_at out "_ClosedOnDT" i in
  let effective := instant_at out "_EffectiveResolutionDT" i in
  let responding := cell_at out "Responding Time (Hrs)" i in
  let closure := cell_at out "Computed Closure Time (Hrs)" i in
  responding = Some match responded, raised with
                    | Some r, Some a => Num (hours (r - a))
                    | _, _ => NA
                    end
  ∧ closure = Some match effective, raised with
                   | Some e, Some a => Num (hours (e - a))
                   | _, _ => NA
                   end
  ∧ (∀ r a, responded = Some r → raised = Some a → r < a →
       ∃ x, responding = Some (Num x) ∧ (x < 0)%Q)
  ∧ (closed = None → ∀ x, closure = Some (Num x) →
       (0 < x)%Q ∧ responding = Some (Num x)).
Proof.
  intros Hwf Hi. cbv zeta.
  assert (Hrt := responding_time_row df i Hwf Hi).
  assert (Hct := closure_time_row df i Hwf Hi).
  assert (He := effective_instant str_of_value to_numeric_object df i Hwf Hi).
  cbv zeta in Hrt, Hct, He.
  generalize dependent (add_derived_columns str_of_value to_numeric_object df).
  intros out Hrt Hct He. rewrite Hrt, Hct, He. clear.
  destruct (instant_at out "_ClosedOnDT" i) as [c|],
           (instant_at out "_RespondedOnDT" i) as [r|],
           (instant_at out "_RaisedOnDT" i) as [a|];
    cbn [spec_EffectiveResolutionAt];
    (split; [reflexivity|]); (split; [reflexivity|]);
    (split; [intros r' a' Hr' Ha' Hlt;
             first [ discriminate
                   | injection Hr' as <-; injection Ha' as <-;
                     eexists; (split; [reflexivity|]); apply hours_neg; lia ]|]);
    intros Hc x Hx; try discriminate.
  destruct (a <? r) eqn:Hlt; [|discriminate].
  injection Hx as <-. split; [apply hours_pos; lia | reflexivity].
Qed.

(** X10: the time from response to closure is never negative: it is the
    hours from RespondedAt to EffectiveResolutionAt when that is not before
    RespondedAt, and NaN otherwise, so a closure recorded before the
    response gives NaN, not zero. *)
Theorem close_after_response_never_negative df (i : nat) :
  wf df → (i < nrows df)%nat →
  let out := add_derived_columns str_of_value to_numeric_object df in
  let responded := instant_at out "_RespondedOnDT" i in
  let closed := instant_at out "_ClosedOnDT" i in
  let car := cell_at out "Close After Response (Hrs)" i in
  (car = Some NA ∨ ∃ x, car = Some (Num x) ∧ (0 <= x)%Q)
  ∧ (∀ c r, closed = Some c → responded = Some r →
       car = Some (if r <=? c then Num (hours (c - r)) else NA))
  ∧ (responded = None → car = Some NA).
Proof.
  intros Hwf Hi. cbv zeta.
  assert (Hcar := close_after_response_row str_of_value to_numeric_object
                    df i Hwf Hi).
  assert (He := effective_instant str_of_value to_numeric_object df i Hwf Hi).
  cbv zeta in Hcar, He.
  generalize dependent (add_derived_columns str_of_value to_numeric_object df).
  intros out Hcar He. rewrite Hcar, He. clear.
  destruct (instant_at out "_ClosedOnDT" i) as [c|],
           (instant_at out "_RespondedOnDT" i) as [r|],
           (instant_at out "_RaisedOnDT" i) as [a|];
    cbn [spec_EffectiveResolutionAt];
    repeat match goal with
    | |- context [if ?b then _ else _] => destruct b eqn:?
    end;
    (split; [first [ by left
                   | right; eexists; (split; [reflexivity|]);
                     apply hours_nonneg; lia ]|]);
    (split; [intros c' r' Hc' Hr';
             first [ discriminate
                   | injection Hc' as <-; injection Hr' as <-;
                     repeat match goal with
                     | H : (_ <=? _) = _ |- _ => rewrite H
                     end;
                     reflexivity ]|]);
    intros; first [discriminate | reflexivity].
Qed.

(** X11: a row is resolved, that is EffectiveResolutionAt is present,
    exactly when it is closed or its RespondedNotClosed flag is 1; on a row
    that is not resolved the flag is 0 and the closure time, the time from
    response to closure and the SLA state are all unknown. *)
Theorem resolved_row_accounting df (i : nat) :
  wf df → (i < nrows df)%nat →
  let out := add_derived_columns str_of_value to_numeric_object df in
  let closed := instant_at out "_ClosedOnDT" i in
  let effective := instant_at out "_EffectiveResolutionDT" i in
  let flag := cell_at out "_RespondedNotClosed_Flag" i in
  (flag = Some (Num 1) ∨ flag = Some (Num 0))
  ∧ (is_Some effective ↔ is_Some closed ∨ flag = Some (Num 1))
  ∧ (effective = None →
       flag = Some (Num 0)
       ∧ cell_at out "Computed Closure Time (Hrs)" i = Some NA
       ∧ cell_at out "Close After Response (Hrs)" i = Some NA
       ∧ cell_at out "SLA Met" i = Some NA).
Proof.
  intros Hwf Hi. cbv zeta.
  assert (Hf := responded_not_closed_row str_of_value to_numeric_object
                  df i Hwf Hi).
  assert (He := effective_instant str_of_value to_numeric_object df i Hwf Hi).
  assert (Hct := closure_time_row df i Hwf Hi).
  assert (Hcar := close_after_response_row str_of_value to_numeric_object
                    df i Hwf Hi).
  assert (Hsla := sla_met_row str_of_value to_numeric_object df i Hwf Hi).
  cbv zeta in Hf, He, Hct, Hcar, Hsla.
  generalize dependent (add_derived_columns str_of_value to_numeric_object df).
  intros out Hf He Hct Hcar Hsla. rewrite Hf, Hct, Hcar, Hsla, He. clear.
  destruct (instant_at out "_ClosedOnDT" i) as [c|],
           (instant_at out "_RespondedOnDT" i) as [r|],
           (instant_at out "_RaisedOnDT" i) as [a|];
    cbn [spec_EffectiveResolutionAt];
    try destruct (a <? r) eqn:Hlt;
    (split; [first [by left | by right]|]);
    (split; [split;
             [ intros [x Hx]; first [discriminate Hx | left; by eexists | by right]
             | intros [[x Hx]|Hx]; first [discriminate Hx | by eexists] ]|]);
    intros Hnone; try discriminate Hnone; repeat split.
Qed.

(** X12: the label of the last status event is one of Closed, Rejected,
    Responded and the text nan, never Effective, since the effective
    resolution is always ClosedAt or RespondedAt, which come first; it is
    the text nan exactly when the row has none of ClosedAt, RejectedAt and
    RespondedAt, and then LastStatusChangeAt is absent. *)
Theorem last_status_event_labels df (i : nat) :
  wf df → (i < nrows df)%nat →
  let out := add_derived_columns str_of_value to_numeric_object df in
  let closed := instant_at out "_ClosedOnDT" i in
  let rejected := instant_at out "_RejectedOnDT" i in
  let responded := instant_at out "_RespondedOnDT" i in
  let label := cell_at out "_LastStatusEvent" i in
  (label = Some (Str "Closed") ∨ label = Some (Str "Rejected")
   ∨ label = Some (Str "Responded") ∨ label = Some (Str "nan"))
  ∧ label ≠ Some (Str "Effective")
  ∧ (label = Some (Str "nan")
     ↔ closed = None ∧ rejected = None ∧ responded = None)
  ∧ (instant_at out "_LastStatusChangeDT" i = None
     ↔ closed = None ∧ rejected = None ∧ responded = None).
Proof.
  intros Hwf Hi. cbv zeta.
  assert (Hl := last_status_change_cell str_of_value to_numeric_object
                  df i Hwf Hi).
  assert (Hv := last_status_event_cell str_of_value to_numeric_object
                  df i _ Hwf Hi Hl).
  assert (He := effective_instant str_of_value to_numeric_object df i Hwf Hi).
  cbv zeta in Hl, Hv, He.
  generalize dependent (add_derived_columns str_of_value to_numeric_object df).
  intros out Hl Hv He.
  unfold instant_at at 4. rewrite Hv, Hl. cbn [mbind option_bind].
  rewrite He. clear.
  destruct (instant_at out "_ClosedOnDT" i) as [c|],
           (instant_at out "_RejectedOnDT" i) as [j|],
           (instant_at out "_RespondedOnDT" i) as [r|],
           (instant_at out "_RaisedOnDT" i) as [a|];
    cbn [spec_EffectiveResolutionAt];
    try destruct (a <? r) eqn:Hlt;
    unfold cmp_dt, max_skipna; cbn [of_instant as_instant];
    repeat match goal with
    | |- context [Z.eqb ?x ?y] => destruct (Z.eqb_spec x y)
    end;
    try (exfalso; lia);
    (split; [tauto|]); (split; [discriminate|]);
    (split; (split; [intros H; first [discriminate H | by repeat split]
                    | intros (H1 & H2 & H3);
                      first [discriminate H1 | discriminate H2
                            | discriminate H3 | reflexivity]])).
Qed.

End Durations.

Lemma timings_of_a_row_witness :
  let out := add_derived_columns sample_str_of_value sample_to_numeric_object
               sample in
  ∃ x, cell_at out "Responding Time (Hrs)" 3 = Some (Num x) ∧ (x < 0)%Q.
Proof.
  refine (proj1 (proj2 (proj2 (timings_of_a_row sample_str_of_value
            sample_to_numeric_object sample 3%nat _ _)))
            1704326400 1704412800 _ _ _);
    first [vm_compute; reflexivity | vm_compute; lia | lia].
Defined.

Lemma close_after_response_never_negative_witness :
  let out := add_derived_columns sample_str_of_value sample_to_numeric_object
               sample in
  cell_at out "Close After Response (Hrs)" 4 = Some NA.
Proof.
  refine (proj2 (proj2 (close_after_response_never_negative sample_str_of_value
            sample_to_numeric_object sample 4%nat _ _)) _);
    first [vm_compute; reflexivity | vm_compute; lia].
Defined.

Lemma resolved_row_accounting_witness :
  let out := add_derived_columns sample_str_of_value sample_to_numeric_object
               sample in
  cell_at out "_RespondedNotClosed_Flag" 3 = Some (Num 0)
  ∧ cell_at out "Computed Closure Time (Hrs)" 3 = Some NA
  ∧ cell_at out "Close After Response (Hrs)" 3 = Some NA
  ∧ cell_at out "SLA Met" 3 = Some NA.
Proof.
  refine (proj2 (proj2 (resolved_row_accounting sample_str_of_value
            sample_to_numeric_object sample 3%nat _ _)) _);
    first [vm_compute; reflexivity | vm_compute; lia].
Defined.

Lemma last_status_event_labels_witness :
  let out := add_derived_columns sample_str_of_value sample_to_numeric_object
               sample in
  cell_at out "_LastStatusEvent" 4 = Some (Str "nan").
Proof.
  refine (proj2 (proj1 (proj2 (proj2 (last_status_event_labels
            sample_str_of_value sample_to_numeric_object sample 4%nat _ _)))) _);
    first [vm_compute; reflexivity | vm_compute; lia | vm_compute; tauto].
Defined.

(** ** From the raw texts to the instants *)

(** The strict parse reads back a formatted date and time: the instant when
    the date is one of the calendar and a timestamp can hold it, NaT
    otherwise. *)
Lemma to_datetime_fmt y m d hh mm ss :
  0 ≤ y < 10000 → 0 ≤ m < 100 → 0 ≤ d < 100 →
  time_in_range hh mm ss = true →
  to_datetime ((fmt_date y m d +:+ " ") +:+ fmt_time hh mm ss)
  = if Calendar.valid_date y m d
       && Calendar.representable (Calendar.epoch_seconds y m d hh mm ss)
    then Some (Calendar.epoch_seconds y m d hh mm ss) else None.
Proof.
  intros Hy Hm Hd Hr. assert (Hr' := Hr). unfold time_in_range in Hr'.
  unfold to_datetime, fmt_date, fmt_time. rewrite !append_assoc.
  rewrite (fixed_digits_app 4 _ 0 y) by (apply roundtrip_year; lia).
  cbn [mbind option_bind]. rewrite expect_literal. cbn [mbind option_bind].
  rewrite (fixed_digits_app 2 _ 0 m) by (apply roundtrip_two; lia).
  cbn [mbind option_bind]. rewrite expect_literal. cbn [mbind option_bind].
  rewrite (fixed_digits_app 2 _ 0 d) by (apply roundtrip_two; lia).
  cbn [mbind option_bind]. rewrite expect_literal. cbn [mbind option_bind].
  rewrite (fixed_digits_app 2 _ 0 hh) by (apply roundtrip_two; lia).
  cbn [mbind option_bind]. rewrite expect_literal. cbn [mbind option_bind].
  rewrite (fixed_digits_app 2 _ 0 mm) by (apply roundtrip_two; lia).
  cbn [mbind option_bind]. rewrite expect_literal. cbn [mbind option_bind].
  rewrite (roundtrip_two ss) by lia.
  cbn [mbind option_bind].
  change (String.eqb "" "") with true. rewrite Hr.
  cbn [andb]. rewrite andb_true_r. reflexivity.
Qed.

Section Instants.

Variable str_of_value : cell → string.
Variable to_numeric_object : cell → option Q.

(** X13: when the date of a row is normalised to a year, a month and a
    day, and its time to a time of the day, the combined instant is that
    date at that time if the date exists in the calendar and a timestamp
    can hold it, and is absent otherwise. *)
Theorem combine_datetime_instant
    (ds ts : list cell) (i : nat) (dc tc : cell) (y m dd hh mm ss : Z) :
  ds !! i = Some dc → ts !! i = Some tc →
  0 ≤ y ≤ 9999 → 0 ≤ m ≤ 99 → 0 ≤ dd ≤ 99 →
  time_in_range hh mm ss = true →
  _normalize_date_str (astype_str str_of_value dc) = fmt_date y m dd →
  _normalize_time_str (astype_str str_of_value tc) = fmt_time hh mm ss →
  combine_datetime str_of_value ds ts !! i
  = Some (if Calendar.valid_date y m dd
             && Calendar.representable (Calendar.epoch_seconds y m dd hh mm ss)
          then Ts (Calendar.epoch_seconds y m dd hh mm ss) else NA).
Proof.
  intros Hd Ht Hy Hm Hdd Hr Hdate Htime.
  rewrite (combine_datetime_lookup str_of_value ds ts i dc tc Hd Ht).
  unfold combine_row. rewrite Hdate, Htime.
  assert (Hne : String.eqb (fmt_date y m dd) "" = false)
    by (apply String.eqb_neq, fmt_date_nonempty).
  assert (Hnt : String.eqb (fmt_time hh mm ss) "" = false)
    by (apply String.eqb_neq, fmt_time_nonempty).
  cbv zeta. rewrite Hne, Hnt. cbn [negb andb].
  rewrite to_datetime_fmt by (done || lia).
  by destruct (_ && _).
Qed.

Lemma combine_row_missing_date (tc : cell) :
  combine_row str_of_value NA tc = NA.
Proof. reflexivity. Qed.

(** X14: each datetime column of the enriched frame is combined, row by
    row, from its own raw date and time cells of the input and from nothing
    else; when the date column is missing from the input, every row of the
    datetime column is absent, whatever the time column holds. *)
Theorem datetime_columns_from_raw df (i : nat) (c dcol tcol : string) :
  wf df → (i < nrows df)%nat →
  In (c, (dcol, tcol)) datetime_sources →
  let out := add_derived_columns str_of_value to_numeric_object df in
  cell_at out c i
  = Some (combine_row str_of_value (field df dcol i) (field df tcol i))
  ∧ (columns df !! dcol = None → cell_at out c i = Some NA).
Proof.
  intros Hwf Hi Hin. cbv zeta.
  assert (Hrow : cell_at (add_derived_columns str_of_value to_numeric_object df)
                   c i
                 = combine_datetime str_of_value (_safe_get df dcol)
                     (_safe_get df tcol) !! i).
  { unfold datetime_sources in Hin. cbn [In] in Hin.
    destruct Hin as [Hin|[Hin|[Hin|[Hin|[Hin|[]]]]]];
      injection Hin as <- <- <-;
      eapply (out_datetime_row _ _ df i _ _ _ Hwf Hi);
      first [ apply out_raised | apply out_deadline | apply out_responded
            | apply out_rejected | apply out_closed | by vm_compute ]. }
  rewrite Hrow. clear Hrow Hin.
  destruct (lookup_lt_is_Some_2 (_safe_get df dcol) i) as [dc Hdc];
    [by rewrite safe_get_length|].
  destruct (lookup_lt_is_Some_2 (_safe_get df tcol) i) as [tc Htc];
    [by rewrite safe_get_length|].
  rewrite (combine_datetime_lookup str_of_value _ _ i dc tc Hdc Htc).
  unfold field. rewrite Hdc, Htc. cbn [default]. split; [reflexivity|].
  intros Hnone. unfold _safe_get in Hdc. rewrite Hnone in Hdc.
  apply lookup_replicate in Hdc as [-> _]. reflexivity.
Qed.

End Instants.

Lemma combine_datetime_instant_witness :
  combine_datetime (λ _, "") [Str "15/01/2024"] [Str "2:30pm"] !! 0%nat
  = Some (if Calendar.valid_date 2024 1 15
             && Calendar.representable (Calendar.epoch_seconds 2024 1 15 14 30 0)
          then Ts (Calendar.epoch_seconds 2024 1 15 14 30 0) else NA).
Proof.
  apply (combine_datetime_instant (λ _, "") [Str "15/01/2024"] [Str "2:30pm"]
           0%nat (Str "15/01/2024") (Str "2:30pm") 2024 1 15 14 30 0);
    first [reflexivity | lia].
Defined.

Lemma datetime_columns_from_raw_witness :
  let out := add_derived_columns sample_str_of_value sample_to_numeric_object
               sample in
  cell_at out "_RejectedOnDT" 6
  = Some (combine_row sample_str_of_value (field sample "Rejected On Date" 6)
            (field sample "Rejected On Time" 6)).
Proof.
  refine (proj1 (datetime_columns_from_raw sample_str_of_value
            sample_to_numeric_object sample 6%nat _ _ _ _ _ _));
    first [vm_compute; reflexivity | vm_compute; lia | vm_compute; tauto].
Defined.

(** ** Rejected and then closed *)

Lemma field_lookup df x (i : nat) :
  wf df → (i < nrows df)%nat → _safe_get df x !! i = Some (field df x i).
Proof.
  intros Hwf Hi. unfold field.
  destruct (lookup_lt_is_Some_2 (_safe_get df x) i) as [c Hc];
    [by rewrite safe_get_length|].
  by rewrite Hc.
Qed.

Section Evidence.

Variable str_of_value : cell → string.
Variable to_numeric_object : cell → option Q.

Lemma nz_lookup df d x (i : nat) :
  wf df → (i < nrows df)%nat → _safe_get d x = _safe_get df x →
  ne_empty (_nz str_of_value d x) !! i
  = Some (filled str_of_value (field df x i)).
Proof.
  intros Hwf Hi Hx. unfold ne_empty, _nz. rewrite Hx.
  rewrite !list_lookup_fmap, (field_lookup df x i Hwf Hi). reflexivity.
Qed.

Lemma r2c_flag_row df (i : nat) :
  wf df → (i < nrows df)%nat →
  let out := add_derived_columns str_of_value to_numeric_object df in
  cell_at out "_R2C_Flag" i
  = Some (of_bool
      (reject_evidence_row str_of_value df i (instant_at out "_RejectedOnDT" i)
       && close_evidence_row str_of_value df i (instant_at out "_ClosedOnDT" i))).
Proof.
  intros Hwf Hi. cbv zeta.
  assert (Hj := rejected_row str_of_value to_numeric_object df i Hwf Hi).
  assert (Hc := closed_row str_of_value to_numeric_object df i Hwf Hi).
  assert (Hcol := out_r2c_flag str_of_value to_numeric_object df).
  assert (Hraw : ∀ x,
    untouched [x] (derivation str_of_value to_numeric_object) = true →
    _safe_get (add_derived_columns str_of_value to_numeric_object df) x
    = _safe_get df x) by (intros x; apply safe_get_pass).
  assert (H1 := Hraw "Rejected By" eq_refl).
  assert (H2 := Hraw "Rejected Comment" eq_refl).
  assert (H3 := Hraw "Rejected On Date" eq_refl).
  assert (H4 := Hraw "Rejected On Time" eq_refl).
  assert (H5 := Hraw "Current Status" eq_refl).
  assert (H6 := Hraw "Closed By" eq_refl).
  assert (H7 := Hraw "Closed Comment" eq_refl).
  assert (H8 := Hraw "Closed On Date" eq_refl).
  assert (H9 := Hraw "Closed On Time" eq_refl).
  clear Hraw. cbv zeta in Hj, Hc, Hcol.
  generalize dependent (add_derived_columns str_of_value to_numeric_object df).
  intros out Hj Hc Hcol H1 H2 H3 H4 H5 H6 H7 H8 H9.
  unfold cell_at at 1. rewrite Hcol. cbn [mbind option_bind].
  rewrite <- !get_col_lookup in Hj, Hc.
  unfold has_reject_evidence, has_close_evidence, S.astype_int, S.and_, S.or_,
    S.notna.
  cbv zeta.
  rewrite list_lookup_fmap, !lookup_zip_with, !list_lookup_fmap, Hj, Hc.
  rewrite !(nz_lookup df out _ i Hwf Hi) by done.
  unfold _nz. rewrite H5, !list_lookup_fmap, (field_lookup df _ i Hwf Hi).
  cbn [mbind option_bind fmap option_fmap option_map].
  unfold reject_evidence_row, close_evidence_row, nz_text, present.
  generalize (instant_at out "_RejectedOnDT" i) (instant_at out "_ClosedOnDT" i).
  intros [j|] [c|]; reflexivity.
Qed.

(** X15: a row with both RejectedAt and ClosedAt, the strict flag, always
    has the inferred Rejected-to-Closed flag as well; a row with no
    RejectedAt and nothing but blanks in the four rejection fields never
    has it, whatever is known of its closure. *)
Theorem r2c_flag_rule df (i : nat) :
  wf df → (i < nrows df)%nat →
  let out := add_derived_columns str_of_value to_numeric_object df in
  let flag := cell_at out "_R2C_Flag" i in
  (flag = Some (Num 1) ∨ flag = Some (Num 0))
  ∧ (cell_at out "_R2C_Strict_Flag" i = Some (Num 1) → flag = Some (Num 1))
  ∧ (instant_at out "_RejectedOnDT" i = None →
     filled str_of_value (field df "Rejected By" i) = false →
     filled str_of_value (field df "Rejected Comment" i) = false →
     filled str_of_value (field df "Rejected On Date" i) = false →
     filled str_of_value (field df "Rejected On Time" i) = false →
     flag = Some (Num 0)).
Proof.
  intros Hwf Hi. cbv zeta.
  assert (Hf := r2c_flag_row df i Hwf Hi).
  assert (Hs := r2c_strict_row str_of_value to_numeric_object df i Hwf Hi).
  cbv zeta in Hf, Hs.
  generalize dependent (add_derived_columns str_of_value to_numeric_object df).
  intros out Hf Hs. rewrite Hf, Hs. clear Hf Hs.
  split; [|split].
  - match goal with |- context [of_bool ?b] => destruct b end;
      first [by left | by right].
  - unfold reject_evidence_row, close_evidence_row.
    destruct (instant_at out "_RejectedOnDT" i) as [j|],
             (instant_at out "_ClosedOnDT" i) as [c|];
      first [done | intros H; discriminate H].
  - unfold reject_evidence_row. intros -> -> -> -> ->. reflexivity.
Qed.

End Evidence.

Lemma r2c_flag_rule_witness :
  let out := add_derived_columns sample_str_of_value sample_to_numeric_object
               sample in
  cell_at out "_R2C_Flag" 6 = Some (Num 1).
Proof.
  refine (proj1 (proj2 (r2c_flag_rule sample_str_of_value
            sample_to_numeric_object sample 6%nat _ _)) _);
    first [vm_compute; reflexivity | vm_compute; lia].
Defined.

(** ** The words of a closing status *)

Lemma drop_prefix_app (w b : string) : drop_prefix w (w +:+ b) = Some b.
Proof.
  induction w as [|c w IH]; [done|].
  rewrite append_cons. cbn [drop_prefix]. by rewrite Ascii.eqb_refl.
Qed.

Lemma drop_prefix_prefix (w s rest : string) :
  drop_prefix w s = Some rest → String.prefix w s = true.
Proof.
  revert s. induction w as [|c w IH]; intros s; [by destruct s|].
  destruct s as [|x s]; [done|]. cbn [drop_prefix String.prefix].
  destruct (Ascii.eqb_spec c x) as [->|Hne]; [|done].
  intros H. destruct (ascii_dec x x); [by eapply IH | done].
Qed.

(** A match of the pattern is an occurrence of one of its words. *)
Lemma search_closed_sound s : ∀ prev,
  search_closed prev s = true →
  ∃ w, In w closed_words ∧ Py.contains w s = true.
Proof.
  assert (Hhere : ∀ prev s, existsb (word_here prev s) closed_words = true →
            ∃ w, In w closed_words ∧ String.prefix w s = true).
  { intros prev s' H. apply existsb_exists in H as (w & Hin & Hw).
    exists w. split; [done|]. unfold word_here in Hw.
    apply andb_true_iff in Hw as [_ Hw].
    destruct (drop_prefix w s') as [rest|] eqn:Hd; [|done].
    by eapply drop_prefix_prefix. }
  induction s as [|c s IH]; intros prev H; cbn [search_closed] in H;
    apply orb_true_iff in H as [H|H]; try done.
  - destruct (Hhere _ _ H) as (w & Hin & Hp). exists w. split; [done|].
    destruct w; cbn [Py.contains]; by rewrite Hp.
  - destruct (Hhere _ _ H) as (w & Hin & Hp). exists w. split; [done|].
    cbn [Py.contains]. by rewrite Hp.
  - destruct (IH _ H) as (w & Hin & Hc). exists w. split; [done|].
    cbn [Py.contains]. rewrite Hc. apply orb_true_r.
Qed.

(** One of the words, with no word character before or after it, is a
    match of the pattern. *)
Lemma search_closed_complete (a w b : string) : ∀ prev,
  In w closed_words →
  last_is_word prev a = false → next_is_word b = false →
  search_closed prev (a +:+ w +:+ b) = true.
Proof.
  induction a as [|c a IH]; intros prev Hin Ha Hb.
  - cbn [last_is_word] in Ha. subst prev.
    change ("" +:+ w +:+ b) with (w +:+ b).
    assert (Hw : word_here false (w +:+ b) w = true).
    { unfold word_here. rewrite drop_prefix_app, Hb.
      unfold closed_words in Hin. cbn [In] in Hin.
      destruct Hin as [<-|[<-|[<-|[<-|[]]]]]; reflexivity. }
    assert (He : existsb (word_here false (w +:+ b)) closed_words = true).
    { apply existsb_exists. by exists w. }
    destruct (w +:+ b); cbn [search_closed]; by rewrite He.
  - rewrite append_cons. cbn [search_closed].
    cbn [last_is_word] in Ha. rewrite (IH _ Hin Ha Hb). apply orb_true_r.
Qed.

Section Status.

Variable str_of_value : cell → string.
Variable to_numeric_object : cell → option Q.

(** X16: the status of a row is evidence of a closure exactly by its
    words: on a row with RejectedAt, a status that reads, once stripped and
    in lower case, as one of closed, approved, resolved and complete with no
    word character before or after it sets the Rejected-to-Closed flag; and
    on a row with the flag but with no ClosedAt and blank closure fields, the
    status contains one of these words. *)
Theorem status_words_close_evidence df (i : nat) :
  wf df → (i < nrows df)%nat →
  let out := add_derived_columns str_of_value to_numeric_object df in
  let status := Py.lower (nz_text str_of_value (field df "Current Status" i)) in
  let flag := cell_at out "_R2C_Flag" i in
  (∀ a w b, In w closed_words → status = a +:+ w +:+ b →
     last_is_word false a = false → next_is_word b = false →
     is_Some (instant_at out "_RejectedOnDT" i) → flag = Some (Num 1))
  ∧ (flag = Some (Num 1) →
     instant_at out "_ClosedOnDT" i = None →
     filled str_of_value (field df "Closed By" i) = false →
     filled str_of_value (field df "Closed Comment" i) = false →
     filled str_of_value (field df "Closed On Date" i) = false →
     filled str_of_value (field df "Closed On Time" i) = false →
     ∃ w, In w closed_words ∧ Py.contains w status = true).
Proof.
  intros Hwf Hi. cbv zeta.
  assert (Hf := r2c_flag_row str_of_value to_numeric_object df i Hwf Hi).
  cbv zeta in Hf.
  generalize dependent (add_derived_columns str_of_value to_numeric_object df).
  intros out Hf. rewrite Hf. clear Hf.
  unfold reject_evidence_row, close_evidence_row. split.
  - intros a w b Hin Hst Ha Hb [j Hj]. rewrite Hj, Hst.
    rewrite (search_closed_complete a w b false Hin Ha Hb).
    cbn [present orb]. by rewrite orb_true_r.
  - intros Hflag Hc H1 H2 H3 H4. rewrite Hc, H1, H2, H3, H4 in Hflag.
    cbn [present orb] in Hflag. rewrite !orb_false_r in Hflag.
    destruct (search_closed false _) eqn:Hs.
    + by apply (search_closed_sound _ false).
    + rewrite andb_false_r in Hflag. discriminate Hflag.
Qed.

End Status.

Lemma status_words_close_evidence_witness :
  let df := mkDF 1 (list_to_map
              [("Rejected On Date", [Str "02/01/2024"]);
               ("Current Status", [Str " Closed (verified) "])]) in
  cell_at (add_derived_columns (λ _, "") (λ _, None) df) "_R2C_Flag" 0
  = Some (Num 1).
Proof.
  refine (proj1 (status_words_close_evidence (λ _, "") (λ _, None)
            (mkDF 1 (list_to_map
              [("Rejected On Date", [Str "02/01/2024"]);
               ("Current Status", [Str " Closed (verified) "])]))
            0%nat _ _) "" "closed" " (verified)" _ _ _ _ _);
    first [ vm_compute; reflexivity | vm_compute; lia | vm_compute; tauto
          | eexists; vm_compute; reflexivity ].
Defined.

(** ** The frame after the pass *)

Lemma wf_intro d :
  (∀ c s, columns d !! c = Some s → length s = nrows d) → wf d.
Proof.
  intros H. unfold wf, wfb. apply forallb_forall. intros [c s] Hin.
  apply list_elem_of_In, elem_of_map_to_list in Hin. cbn.
  apply Nat.eqb_eq. by eapply H.
Qed.

Lemma where_fits {A} (n : nat) (mask : list bool) (x y : operand A) :
  length mask = n → fits n x → fits n y → length (S.where_ mask x y) = n.
Proof.
  intros Hm Hx Hy. rewrite where_length; [done| |].
  - destruct x; cbn in *; [by rewrite length_replicate | lia].
  - destruct y; cbn in *; [by rewrite length_replicate | lia].
Qed.

Lemma zip_with_fits {A B C} (f : A → B → C) (a : list A) (b : list B) n :
  length a = n → length b = n → length (zip_with f a b) = n.
Proof. intros Ha Hb. rewrite length_zip_with. lia. Qed.

Lemma fmap_fits {A B} (f : A → B) (a : list A) n :
  length a = n → length (f <$> a) = n.
Proof. intros Ha. by rewrite length_fmap. Qed.

(** Lengths of columns built by the vectorised operations. *)
Ltac fits :=
  repeat first
    [ assumption
    | exact I
    | apply length_replicate
    | apply where_fits
    | apply zip_with_fits
    | apply fmap_fits
    | progress cbn [fits]
    | progress unfold S.and_, S.or_, S.isna, S.notna, S.gt, S.ge, S.le, S.eq,
        S.sub_hours, S.astype_int, S.isfinite, S.maximum, S.loc_assign,
        S.fillna ].

Lemma row_sum_fits n (cols : list (list (option Q))) :
  Forall (λ c, length c = n) cols → length (S.row_sum n cols) = n.
Proof.
  unfold S.row_sum. intros H.
  assert (Hg : ∀ acc : list (option Q), length acc = n →
            length (foldl (zip_with S.nanadd) acc cols) = n).
  { induction H as [|c cols Hc _ IH]; intros acc Hacc; [done|].
    cbn [foldl]. apply IH. by apply zip_with_fits. }
  apply Hg, length_replicate.
Qed.

Section Frame.

Variable str_of_value : cell → string.
Variable to_numeric_object : cell → option Q.

Lemma targets_of_derivation c :
  c ∉ derived_columns → c ≠ "Total Cost" →
  c ∉ (target <$> derivation str_of_value to_numeric_object).
Proof.
  intros Hd Ht Hin. apply Hd. clear Hd.
  cbn [derivation fmap list_fmap target] in Hin. unfold derived_columns.
  repeat (apply elem_of_cons in Hin as [->|Hin];
          [first [ done
                 | repeat first [ apply list_elem_of_here
                                | apply list_elem_of_further ] ]|]).
  by apply elem_of_nil in Hin.
Qed.

(** X17: the pass keeps the number of rows and leaves every column of the
    input that is not one of its own as it was; a column it only makes sure
    of, when the input lacks it, is a column of missing values. The only
    input column it rewrites is the aggregate cost. *)
Theorem pass_keeps_input df (c : string) :
  c ∉ derived_columns → c ≠ "Total Cost" →
  let out := add_derived_columns str_of_value to_numeric_object df in
  nrows out = nrows df
  ∧ _safe_get out c = _safe_get df c
  ∧ (is_Some (columns df !! c) → columns out !! c = columns df !! c)
  ∧ (c ∈ future_columns → columns out !! c = Some (_safe_get df c))
  ∧ (c ∉ future_columns → columns out !! c = columns df !! c).
Proof.
  intros Hd Ht. cbv zeta.
  assert (Hc := targets_of_derivation c Hd Ht).
  assert (Hl : columns (add_derived_columns str_of_value to_numeric_object df)
               !! c = columns (ensure_future_columns df) !! c)
    by (by apply lookup_run_other).
  split; [apply nrows_pass|]. split; [|split; [|split]].
  - rewrite <- (safe_get_ensure_future df c). unfold _safe_get.
    by rewrite Hl, nrows_pass, nrows_ensure_future.
  - intros [s Hs]. rewrite Hl. unfold ensure_future_columns.
    by rewrite lookup_ensure_all, Hs.
  - intros Hf. rewrite Hl. unfold ensure_future_columns, _safe_get.
    rewrite lookup_ensure_all. destruct (columns df !! c); [done|].
    by rewrite decide_True.
  - intros Hf. rewrite Hl. by apply lookup_ensure_future_other.
Qed.

Lemma derived_columns_fit df :
  wf df →
  Forall (λ c, ∃ s,
            columns (add_derived_columns str_of_value to_numeric_object df) !! c
            = Some s ∧ length s = nrows df)
         ("Total Cost" :: derived_columns).
Proof.
  intros Hwf.
  assert (Hdt : ∀ c dcol tcol,
    columns (add_derived_columns str_of_value to_numeric_object df) !! c
    = Some (combine_datetime str_of_value
              (_safe_get (add_derived_columns str_of_value to_numeric_object df) dcol)
              (_safe_get (add_derived_columns str_of_value to_numeric_object df) tcol)) →
    untouched [dcol] (derivation str_of_value to_numeric_object) = true →
    untouched [tcol] (derivation str_of_value to_numeric_object) = true →
    length (get_col (add_derived_columns str_of_value to_numeric_object df) c)
    = nrows df)
    by (intros c dcol tcol; apply (out_datetime_length _ _ df c dcol tcol Hwf)).
  assert (LA := Hdt _ _ _ (out_raised _ _ df) eq_refl eq_refl).
  assert (LD := Hdt _ _ _ (out_deadline _ _ df) eq_refl eq_refl).
  assert (LR := Hdt _ _ _ (out_responded _ _ df) eq_refl eq_refl).
  assert (LJ := Hdt _ _ _ (out_rejected _ _ df) eq_refl eq_refl).
  assert (LC := Hdt _ _ _ (out_closed _ _ df) eq_refl eq_refl).
  clear Hdt.
  assert (Hraw : ∀ x,
    untouched [x] (derivation str_of_value to_numeric_object) = true →
    length (_safe_get (add_derived_columns str_of_value to_numeric_object df) x)
    = nrows df).
  { intros x Hx. rewrite safe_get_pass by done. by apply safe_get_length. }
  assert (R0 := Hraw "Location Variable" eq_refl).
  assert (R1 := Hraw "Rejected By" eq_refl).
  assert (R2 := Hraw "Rejected Comment" eq_refl).
  assert (R3 := Hraw "Rejected On Date" eq_refl).
  assert (R4 := Hraw "Rejected On Time" eq_refl).
  assert (R5 := Hraw "Current Status" eq_refl).
  assert (R6 := Hraw "Closed By" eq_refl).
  assert (R7 := Hraw "Closed Comment" eq_refl).
  assert (R8 := Hraw "Closed On Date" eq_refl).
  assert (R9 := Hraw "Closed On Time" eq_refl).
  clear Hraw.
  assert (Hn := nrows_pass str_of_value to_numeric_object df).
  assert (C0 := out_location str_of_value to_numeric_object df).
  assert (CA := out_raised str_of_value to_numeric_object df).
  assert (CD := out_deadline str_of_value to_numeric_object df).
  assert (CR := out_responded str_of_value to_numeric_object df).
  assert (CJ := out_rejected str_of_value to_numeric_object df).
  assert (CC := out_closed str_of_value to_numeric_object df).
  assert (CE := out_effective str_of_value to_numeric_object df).
  assert (C7 := out_closure_time str_of_value to_numeric_object df).
  assert (C8 := out_responding_time str_of_value to_numeric_object df).
  assert (C9 := out_responded_not_closed str_of_value to_numeric_object df).
  assert (C10 := out_close_after_response str_of_value to_numeric_object df).
  assert (C11 := out_sla_met str_of_value to_numeric_object df).
  assert (C12 := out_total_cost_value str_of_value to_numeric_object df).
  assert (C13 := out_r2c_flag str_of_value to_numeric_object df).
  assert (C14 := out_r2c_strict str_of_value to_numeric_object df).
  assert (C15 := out_r2c_hours str_of_value to_numeric_object df).
  assert (C16 := out_last_status_change str_of_value to_numeric_object df).
  assert (C18 := out_last_status_event str_of_value to_numeric_object df).
  cbv zeta in C0, CA, CD, CR, CJ, CC, CE, C7, C8, C9, C10, C11, C12, C13, C14,
    C15, C16, C18.
  rewrite total_cost_ensure in C12.
  assert (T0 := safe_get_length df "Total Cost" Hwf).
  assert (T1 := safe_get_length df "Labour Cost" Hwf).
  assert (T2 := safe_get_length df "Material Cost" Hwf).
  assert (T3 := safe_get_length df "Machinery Cost" Hwf).
  assert (T4 := safe_get_length df "Other Cost" Hwf).
  clear Hwf.
  generalize dependent (add_derived_columns str_of_value to_numeric_object df).
  intros out LA LD LR LJ LC R0 R1 R2 R3 R4 R5 R6 R7 R8 R9 Hn.
  intros C0 CA CD CR CJ CC CE C7 C8 C9 C10 C11 C12 C13 C14 C15 C16 C18.
  generalize dependent (nrows df). intros n. intros.
  assert (LE : length (get_col out "_EffectiveResolutionDT") = n).
  { rewrite (get_col_some _ _ _ CE). by apply effective_resolution_length. }
  assert (LL : length (get_col out "_LastStatusChangeDT") = n).
  { rewrite (get_col_some _ _ _ C16). unfold last_status_change, S.row_max.
    cbn [foldl]. fits. }
  repeat apply Forall_cons_2; [..|apply Forall_nil_2];
    eexists; (split; [eassumption|]).
  - apply fmap_fits, zip_with_fits; [by apply fmap_fits|].
    apply row_sum_fits. repeat apply Forall_cons_2; [..|apply Forall_nil_2];
      by apply fmap_fits.
  - unfold location_fixed. destruct (has_col out "Location Variable").
    + unfold extract_location_variable. by apply fmap_fits.
    + rewrite Hn. apply length_replicate.
  - by rewrite <- (get_col_some _ _ _ CA).
  - by rewrite <- (get_col_some _ _ _ CD).
  - by rewrite <- (get_col_some _ _ _ CR).
  - by rewrite <- (get_col_some _ _ _ CJ).
  - by rewrite <- (get_col_some _ _ _ CC).
  - by rewrite <- (get_col_some _ _ _ CE).
  - fits.
  - fits.
  - unfold responded_not_closed. fits.
  - unfold close_after_response. cbv zeta. fits.
  - by apply sla_met_length.
  - unfold has_reject_evidence, has_close_evidence, ne_empty, _nz. cbv zeta.
    fits.
  - unfold both_dt. fits.
  - unfold r2c_hours, both_dt. cbv zeta. fits.
  - by rewrite <- (get_col_some _ _ _ C16).
  - unfold last_status_event. cbv zeta. fits.
Qed.

(** X18: on a well-formed input the enriched frame is well formed: every
    column has one cell per row, and the seventeen derived columns and the
    eight columns the pass makes sure of are all there. *)
Theorem pass_well_formed df :
  wf df →
  let out := add_derived_columns str_of_value to_numeric_object df in
  wf out
  ∧ ∀ c, c ∈ (derived_columns ++ future_columns)%list →
      ∃ s, columns out !! c = Some s ∧ length s = nrows df.
Proof.
  intros Hwf. cbv zeta.
  assert (Hfit := derived_columns_fit df Hwf).
  rewrite Forall_forall in Hfit.
  assert (Hother : ∀ c s,
    c ∉ "Total Cost" :: derived_columns →
    columns (add_derived_columns str_of_value to_numeric_object df) !! c = Some s →
    length s = nrows df).
  { intros c s Hc Hs. rewrite not_elem_of_cons in Hc. destruct Hc as [Ht Hd].
    unfold add_derived_columns in Hs.
    rewrite lookup_run_other in Hs by (by apply targets_of_derivation).
    unfold ensure_future_columns in Hs. rewrite lookup_ensure_all in Hs.
    destruct (columns df !! c) as [s'|] eqn:Hc.
    - injection Hs as <-. by eapply wf_lookup.
    - case_decide; [|done]. injection Hs as <-. apply length_replicate. }
  split.
  - apply wf_intro. intros c s Hs. rewrite nrows_pass.
    destruct (decide (c ∈ "Total Cost" :: derived_columns)) as [Hin|Hout].
    + destruct (Hfit c Hin) as (s' & Hs' & Hlen). congruence.
    + by eapply Hother.
  - intros c Hc. apply elem_of_app in Hc as [Hc|Hc].
    + apply Hfit. by apply list_elem_of_further.
    + destruct (future_columns_present str_of_value to_numeric_object df c Hc)
        as [s Hs].
      exists s. split; [done|].
      destruct (decide (c ∈ "Total Cost" :: derived_columns)) as [Hin|Hout].
      * destruct (Hfit c Hin) as (s' & Hs' & Hlen). congruence.
      * by eapply Hother.
Qed.

End Frame.

Lemma pass_keeps_input_witness :
  let out := add_derived_columns sample_str_of_value sample_to_numeric_object
               sample in
  columns out !! "Raised On Date" = columns sample !! "Raised On Date".
Proof.
  refine (proj1 (proj2 (proj2 (pass_keeps_input sample_str_of_value
            sample_to_numeric_object sample "Raised On Date" _ _))) _).
  - unfold derived_columns. intros H.
    repeat (apply elem_of_cons in H as [H|H]; [discriminate H|]).
    by apply elem_of_nil in H.
  - discriminate.
  - eexists. vm_compute. reflexivity.
Defined.

Lemma pass_well_formed_witness :
  wf (add_derived_columns sample_str_of_value sample_to_numeric_object sample).
Proof.
  apply (pass_well_formed sample_str_of_value sample_to_numeric_object sample).
  vm_compute. reflexivity.
Defined.

(** ** The metrics header *)

Lemma count_cons (f : cell → bool) (x : cell) (l : list cell) :
  count f (x :: l) = ((if f x then 1 else 0) + count f l)%nat.
Proof.
  unfold count. rewrite filter_cons. destruct (f x); by case_decide.
Qed.

Lemma count_le_length (f : cell → bool) (l : list cell) :
  (count f l ≤ length l)%nat.
Proof. unfold count. apply length_filter. Qed.

Lemma count_met_le_known (l : list cell) :
  (count is_met l ≤ count is_known l)%nat.
Proof.
  induction l as [|c l IH]; [done|]. rewrite !count_cons.
  destruct c; cbn [is_met is_known cell_isna negb]; try lia.
  destruct (Qeq_bool x 1); lia.
Qed.

Lemma count_zero_lookup (f : cell → bool) (l : list cell) (i : nat) c :
  count f l = 0%nat → l !! i = Some c → f c = false.
Proof.
  revert i. induction l as [|x l IH]; intros i; [done|].
  rewrite count_cons. intros H0 Hi. destruct i as [|i].
  - injection Hi as <-. destruct (f x); [lia|done].
  - apply (IH i); [destruct (f x); lia | done].
Qed.

Lemma count_pos_lookup (f : cell → bool) (l : list cell) :
  (0 < count f l)%nat → ∃ i c, l !! i = Some c ∧ f c = true.
Proof.
  induction l as [|x l IH]; [cbn; lia|]. rewrite count_cons. intros H.
  destruct (f x) eqn:Hx.
  - by exists 0%nat, x.
  - destruct IH as (i & c & Hi & Hc); [lia|]. by exists (S i), c.
Qed.

(** Counting the rows of one column through two others that decide it. *)
Lemma count_rows (n : nat) : ∀ E C F : list cell,
  length E = n → length C = n → length F = n →
  (∀ i e c f, E !! i = Some e → C !! i = Some c → F !! i = Some f →
     is_known e = is_known c || is_met f ∧ is_known c && is_met f = false) →
  count is_known E = (count is_known C + count is_met F)%nat.
Proof.
  induction n as [|n IH]; intros E C F HE HC HF Hrow.
  - by destruct E, C, F.
  - destruct E as [|e E], C as [|c C], F as [|f F]; try discriminate.
    rewrite !count_cons.
    rewrite (IH E C F) by
      first [ by injection HE | by injection HC | by injection HF
            | intros i; apply (Hrow (S i)) ].
    destruct (Hrow 0%nat e c f eq_refl eq_refl eq_refl) as [H1 H2].
    rewrite H1. destruct (is_known c), (is_met f); cbn in *; first [lia | done].
Qed.

Section Metrics.

Variable str_of_value : cell → string.
Variable to_numeric_object : cell → option Q.

(** X19: the SLA rate of the enriched frame, when it is a number, lies
    between 0 and 100 and some row has both a deadline and an effective
    resolution; it is NaN exactly when the SLA state of every row is
    unknown. *)
Theorem sla_rate_bounds df :
  wf df →
  let out := add_derived_columns str_of_value to_numeric_object df in
  match sla_rate out with
  | Some r =>
      (0 <= r)%Q ∧ (r <= 100)%Q
      ∧ ∃ i : nat, (i < nrows df)%nat
          ∧ is_Some (instant_at out "_EffectiveResolutionDT" i)
          ∧ is_Some (instant_at out "_DeadlineDT" i)
  | None => ∀ i : nat, (i < nrows df)%nat → cell_at out "SLA Met" i = Some NA
  end.
Proof.
  intros Hwf. cbv zeta.
  destruct (sla_column str_of_value to_numeric_object df Hwf)
    as (col & Hcol & Hlen & Htern).
  assert (Hrate := sla_rate_of_column _ col Hcol Htern).
  assert (Hrow : ∀ i : nat, (i < nrows df)%nat →
    cell_at (add_derived_columns str_of_value to_numeric_object df) "SLA Met" i
    = Some (of_ternary (spec_SLAMet
        (instant_at (add_derived_columns str_of_value to_numeric_object df)
           "_EffectiveResolutionDT" i)
        (instant_at (add_derived_columns str_of_value to_numeric_object df)
           "_DeadlineDT" i))))
    by (intros i Hi; apply (sla_met_row str_of_value to_numeric_object df i Hwf Hi)).
  generalize dependent (add_derived_columns str_of_value to_numeric_object df).
  intros out Hcol Hrate Hrow.
  destruct (sla_rate out) as [r|].
  - destruct Hrate as [Hk Hr].
    assert (Hm := count_met_le_known col).
    set (m := count is_met col) in *. set (k := count is_known col) in *.
    assert (Hk' : (0 < inject_Z (Z.of_nat k))%Q).
    { rewrite <- (Zlt_Qlt 0). lia. }
    assert (Hm0 : (0 <= inject_Z (Z.of_nat m))%Q).
    { rewrite <- (Zle_Qle 0). lia. }
    assert (Hmk : (inject_Z (Z.of_nat m) <= inject_Z (Z.of_nat k))%Q).
    { rewrite <- Zle_Qle. lia. }
    split; [|split].
    + rewrite Hr. apply Qmult_le_0_compat; [|done].
      apply Qle_shift_div_l; [done|]. by rewrite Qmult_0_l.
    + rewrite Hr. apply Qle_trans with (1 * 100)%Q; [|by compute].
      apply Qmult_le_compat_r; [|done].
      apply Qle_shift_div_r; [done|]. by rewrite Qmult_1_l.
    + destruct (count_pos_lookup is_known col Hk) as (i & c & Hi & Hc).
      assert (Hlt : (i < nrows df)%nat)
        by (rewrite <- Hlen; by eapply lookup_lt_Some).
      exists i. split; [done|].
      specialize (Hrow i Hlt). unfold cell_at at 1 in Hrow.
      rewrite Hcol in Hrow. cbn [mbind option_bind] in Hrow.
      rewrite Hi in Hrow. injection Hrow as ->.
      destruct (instant_at out "_EffectiveResolutionDT" i),
               (instant_at out "_DeadlineDT" i); by eauto.
  - intros i Hi. unfold cell_at. rewrite Hcol. cbn [mbind option_bind].
    destruct (lookup_lt_is_Some_2 col i) as [c Hc]; [lia|].
    rewrite Hc. f_equal.
    assert (Hna := count_zero_lookup is_known col i c Hrate Hc).
    by destruct c.
Qed.

(** X20: in the metrics header the number of resolved rows is the number
    of closed rows plus the number of rows responded to but not closed; the
    number of open rows is the number of rows with no effective resolution,
    between 0 and the number of rows of the input. *)
Theorem resolved_and_open_counts df :
  wf df →
  let out := add_derived_columns str_of_value to_numeric_object df in
  total_issues out = Z.of_nat (nrows df)
  ∧ resolved out
    = Z.of_nat (count is_known (get_col out "_ClosedOnDT"))
      + Z.of_nat (count is_met (get_col out "_RespondedNotClosed_Flag"))
  ∧ open_issues out
    = Z.of_nat (count cell_isna (get_col out "_EffectiveResolutionDT"))
  ∧ 0 ≤ open_issues out ≤ total_issues out.
Proof.
  intros Hwf. cbv zeta.
  assert (Hfit := derived_columns_fit str_of_value to_numeric_object df Hwf).
  rewrite Forall_forall in Hfit.
  assert (HE := Hfit "_EffectiveResolutionDT"). assert (HC := Hfit "_ClosedOnDT").
  assert (HF := Hfit "_RespondedNotClosed_Flag"). clear Hfit.
  destruct HE as (E & HE & LE);
    [repeat first [apply list_elem_of_here | apply list_elem_of_further]|].
  destruct HC as (C & HC & LC);
    [repeat first [apply list_elem_of_here | apply list_elem_of_further]|].
  destruct HF as (F & HF & LF);
    [repeat first [apply list_elem_of_here | apply list_elem_of_further]|].
  assert (Hrows : ∀ i : nat, (i < nrows df)%nat →
    ∃ c r a,
      cell_at (add_derived_columns str_of_value to_numeric_object df)
        "_ClosedOnDT" i = Some (of_instant c)
      ∧ cell_at (add_derived_columns str_of_value to_numeric_object df)
          "_EffectiveResolutionDT" i
        = Some (of_instant (spec_EffectiveResolutionAt c r a))
      ∧ cell_at (add_derived_columns str_of_value to_numeric_object df)
          "_RespondedNotClosed_Flag" i
        = Some (of_bool match c, r, a with
                        | None, Some r, Some a => a <? r
                        | _, _, _ => false
                        end)).
  { intros i Hi. eexists _, _, _. split; [|split].
    - apply (closed_row str_of_value to_numeric_object df i Hwf Hi).
    - apply (effective_row str_of_value to_numeric_object df i Hwf Hi).
    - apply (responded_not_closed_row str_of_value to_numeric_object df i Hwf Hi). }
  assert (Hn := nrows_pass str_of_value to_numeric_object df).
  unfold open_issues, total_issues, resolved.
  generalize dependent (add_derived_columns str_of_value to_numeric_object df).
  intros out HE HC HF Hrows Hn.
  rewrite (get_col_some _ _ _ HE), (get_col_some _ _ _ HC),
    (get_col_some _ _ _ HF), Hn.
  assert (Hcount : count is_known E = (count is_known C + count is_met F)%nat).
  { apply (count_rows (nrows df)); try done.
    intros i e c f Hi Hc Hf.
    assert (Hlt : (i < nrows df)%nat)
      by (rewrite <- LE; by eapply lookup_lt_Some).
    destruct (Hrows i Hlt) as (c' & r & a & H1 & H2 & H3).
    unfold cell_at in H1, H2, H3. rewrite HC in H1. rewrite HE in H2.
    rewrite HF in H3. cbn [mbind option_bind] in H1, H2, H3.
    rewrite Hc in H1. rewrite Hi in H2. rewrite Hf in H3.
    injection H1 as ->. injection H2 as ->. injection H3 as ->.
    destruct c' as [c'|], r as [r|], a as [a|]; cbn; try done.
    by destruct (a <? r). }
  assert (Hsplit := count_split E). rewrite LE in Hsplit.
  split; [done|]. split; [lia|]. split; lia.
Qed.

End Metrics.

Lemma sla_rate_bounds_witness :
  match sla_rate (add_derived_columns sample_str_of_value
                    sample_to_numeric_object sample) with
  | Some r => (0 <= r)%Q ∧ (r <= 100)%Q
  | None => True
  end.
Proof.
  assert (H := sla_rate_bounds sample_str_of_value sample_to_numeric_object
                 sample eq_refl).
  cbv zeta in H.
  destruct (sla_rate (add_derived_columns sample_str_of_value
                        sample_to_numeric_object sample));
    [exact (conj (proj1 H) (proj1 (proj2 H))) | exact I].
Defined.

Lemma resolved_and_open_counts_witness :
  let out := add_derived_columns sample_str_of_value sample_to_numeric_object
               sample in
  0 ≤ open_issues out ≤ total_issues out.
Proof.
  apply (resolved_and_open_counts sample_str_of_value sample_to_numeric_object
           sample).
  vm_compute. reflexivity.
Defined.

(** ** The location *)

Lemma contains_slash s :
  Py.contains "/" s = negb (string_forallb (λ c, negb (Ascii.eqb c "/")) s).
Proof.
  induction s as [|c s IH]; [done|].
  cbn [Py.contains string_forallb String.prefix]. rewrite IH.
  destruct (ascii_dec "/" c) as [<-|Hne]; [by destruct s|].
  assert (Hc : Ascii.eqb c "/" = false) by (apply Ascii.eqb_neq; congruence).
  by rewrite Hc.
Qed.

Lemma until_slash_app (x y : string) :
  string_forallb (λ c, negb (Ascii.eqb c "/")) x = true →
  until_slash (x +:+ String "/" y) = x.
Proof.
  induction x as [|c x IH]; [done|]. cbn [string_forallb]. intros H.
  apply andb_true_iff in H as [Hc Hx]. apply negb_true_iff in Hc.
  rewrite append_cons. cbn [until_slash]. by rewrite Hc, IH.
Qed.

(** What follows the last slash. *)
Lemma after_last_slash_app (a b : string) :
  Py.contains "/" b = false → after_last_slash (a +:+ String "/" b) = b.
Proof.
  intros Hb. rewrite contains_slash in Hb. apply negb_false_iff in Hb.
  unfold after_last_slash.
  change (String "/" b) with (String "/" "" +:+ b).
  rewrite !rev_append. change (Py.rev (String "/" "")) with (String "/" "").
  rewrite append_assoc, append_cons. change ("" +:+ Py.rev a) with (Py.rev a).
  rewrite until_slash_app by (by rewrite string_forallb_rev).
  apply rev_involutive.
Qed.

Lemma contains_slash_app (a b : string) :
  Py.contains "/" (a +:+ String "/" b) = true.
Proof.
  rewrite contains_slash. apply negb_true_iff.
  change (String "/" b) with (String "/" "" +:+ b).
  rewrite !string_forallb_append. cbn. apply andb_false_r.
Qed.

Section Location.

Variable str_of_value : cell → string.
Variable to_numeric_object : cell → option Q.

(** X21: the fixed location of a row is the text after the last slash of
    its Location Variable, stripped of the white space around it, or the
    whole text stripped when it has no slash; a missing value stays missing,
    and when the input has no Location Variable column every row is
    missing. *)
Theorem location_fixed_rule df (i : nat) :
  wf df → (i < nrows df)%nat →
  let out := add_derived_columns str_of_value to_numeric_object df in
  let raw := field df "Location Variable" i in
  let fixed := cell_at out "Location Variable (Fixed)" i in
  (columns df !! "Location Variable" = None → fixed = Some NA)
  ∧ (raw = NA → fixed = Some NA)
  ∧ (∀ a b, raw = Str (a +:+ String "/" b) → Py.contains "/" b = false →
       fixed = Some (Str (Py.strip b)))
  ∧ (∀ s, raw = Str s → Py.contains "/" s = false →
       fixed = Some (Str (Py.strip s))).
Proof.
  intros Hwf Hi. cbv zeta.
  assert (Hcol := out_location str_of_value to_numeric_object df).
  assert (Hraw : _safe_get (add_derived_columns str_of_value to_numeric_object df)
                   "Location Variable" = _safe_get df "Location Variable")
    by (by apply safe_get_pass).
  assert (Hhas : has_col (add_derived_columns str_of_value to_numeric_object df)
                   "Location Variable" = has_col df "Location Variable").
  { unfold add_derived_columns. rewrite has_col_run_untouched by done.
    rewrite has_col_ensure_future.
    rewrite (bool_decide_eq_false_2 ("Location Variable" ∈ future_columns)).
    - apply orb_false_r.
    - unfold future_columns. intros H.
      repeat (apply elem_of_cons in H as [H|H]; [discriminate H|]).
      by apply elem_of_nil in H. }
  assert (Hn := nrows_pass str_of_value to_numeric_object df).
  cbv zeta in Hcol.
  generalize dependent (add_derived_columns str_of_value to_numeric_object df).
  intros out Hcol Hraw Hhas Hn.
  unfold cell_at. rewrite Hcol. cbn [mbind option_bind].
  unfold location_fixed. rewrite Hhas, Hraw, Hn.
  assert (Hf := field_lookup df "Location Variable" i Hwf Hi).
  unfold has_col.
  destruct (columns df !! "Location Variable") as [col|] eqn:Hc.
  - rewrite bool_decide_eq_true_2 by eauto.
    unfold extract_location_variable. rewrite list_lookup_fmap, Hf.
    cbn [fmap option_fmap option_map].
    split; [done|]. split; [by intros ->|]. split.
    + intros a b -> Hb. cbn [cell_isna astype_str].
      by rewrite contains_slash_app, after_last_slash_app.
    + intros s -> Hs. cbn [cell_isna astype_str]. by rewrite Hs.
  - rewrite bool_decide_eq_false_2 by (intros [? ?]; done).
    assert (Hna : field df "Location Variable" i = NA).
    { unfold _safe_get in Hf. rewrite Hc in Hf.
      rewrite lookup_replicate_2 in Hf by done. by injection Hf as <-. }
    rewrite lookup_replicate_2 by done. rewrite Hna.
    repeat split; intros; done.
Qed.

End Location.

Lemma location_fixed_rule_witness :
  let df := mkDF 1 (list_to_map
              [("Location Variable", [Str "Tower A/Floor 3/ Flat 302 "])]) in
  cell_at (add_derived_columns (λ _, "") (λ _, None) df)
    "Location Variable (Fixed)" 0
  = Some (Str (Py.strip " Flat 302 ")).
Proof.
  refine (proj1 (proj2 (proj2 (location_fixed_rule (λ _, "") (λ _, None)
            (mkDF 1 (list_to_map
              [("Location Variable", [Str "Tower A/Floor 3/ Flat 302 "])]))
            0%nat _ _))) "Tower A/Floor 3" " Flat 302 " _ _);
    first [vm_compute; reflexivity | vm_compute; lia].
Defined.

(** ** Durations in words *)

Lemma total_seconds_nonneg t f :
  0 ≤ t → 0 ≤ f < 1000000000 →
  total_seconds_int (1000000000 * t + f) = t.
Proof.
  intros Ht Hf. unfold total_seconds_int.
  assert (H0 : 0 ≤ (1000000000 * t + f) / 1000)
    by (apply Z.div_pos; lia).
  rewrite Z.quot_div_nonneg by lia.
  symmetry. apply (Z.div_unique_pos _ 1000000 t
                     (((1000000000 * t + f) / 1000) - 1000000 * t)); [|lia].
  assert (H1 : 1000 * ((1000000000 * t + f) / 1000) ≤ 1000000000 * t + f)
    by (apply Z.mul_div_le; lia).
  assert (H2 : 1000000000 * t + f
               < 1000 * ((1000000000 * t + f) / 1000) + 1000).
  { assert (H := Z.mod_pos_bound (1000000000 * t + f) 1000 ltac:(lia)).
    rewrite (Z.div_mod (1000000000 * t + f) 1000) at 1 by lia. lia. }
  lia.
Qed.

Lemma total_seconds_negative ns :
  ns ≤ - 1000000000 → total_seconds_int ns < 0.
Proof.
  intros Hns. unfold total_seconds_int.
  assert (H1 : ns / 1000 ≤ - 1000000).
  { apply Z.div_le_upper_bound; lia. }
  assert (H2 : 1 ≤ - (ns / 1000) / 1000000).
  { apply Z.div_le_lower_bound; lia. }
  replace (ns / 1000) with (- - (ns / 1000)) by lia.
  rewrite Z.quot_opp_l by lia.
  rewrite Z.quot_div_nonneg by lia. lia.
Qed.

Lemma total_seconds_small ns :
  - 1000000000 + 1000 ≤ ns < 0 → total_seconds_int ns = 0.
Proof.
  intros Hns. unfold total_seconds_int.
  assert (H1 : - 1000000 < ns / 1000).
  { apply Z.lt_le_trans with (-999999); [lia|].
    apply Z.div_le_lower_bound; lia. }
  assert (H2 : ns / 1000 < 0) by (apply Z.div_lt_upper_bound; lia).
  replace (ns / 1000) with (- - (ns / 1000)) by lia.
  rewrite Z.quot_opp_l by lia.
  rewrite Z.quot_small by lia. reflexivity.
Qed.

Lemma humanize_seconds (t : Z) :
  0 ≤ t →
  ∀ f, 0 ≤ f < 1000000000 →
  humanize (Some (1000000000 * t + f))
  = match (part (t / 86400) "d" ++ part (t mod 86400 / 3600) "h"
           ++ part (t mod 86400 mod 3600 / 60) "m")%list with
    | [] => "0m"
    | parts => join " " parts
    end.
Proof.
  intros Ht f Hf. unfold humanize. rewrite total_seconds_nonneg by done.
  cbv zeta. replace (t <? 0) with false by lia.
  by destruct (part _ "d" ++ part _ "h" ++ part _ "m")%list.
Qed.

(** X22: a missing duration, and a negative one of a second or more, is
    written as the empty text; any other duration of [d] days, [h] hours,
    [m] minutes, [s] seconds and a fraction of a second is written with its
    non-zero parts among [d]d, [h]h and [m]m, in this order and separated
    by blanks, the seconds and the fraction being dropped, and as 0m when
    it is shorter than a minute, which includes the negative durations
    down to 999999 microseconds below zero, cut off to zero. *)
Theorem humanize_parts (d h m s f : Z) :
  0 ≤ d → 0 ≤ h < 24 → 0 ≤ m < 60 → 0 ≤ s < 60 → 0 ≤ f < 1000000000 →
  humanize (Some (1000000000 * (86400 * d + 3600 * h + 60 * m + s) + f))
  = match (part d "d" ++ part h "h" ++ part m "m")%list with
    | [] => "0m"
    | parts => join " " parts
    end
  ∧ humanize (Some (1000000000 * (86400 * d + 3600 * h + 60 * m + s) + f))
    = humanize (Some (1000000000 * (86400 * d + 3600 * h + 60 * m)))
  ∧ (∀ ns, ns ≤ - 1000000000 → humanize (Some ns) = "")
  ∧ (∀ ns, - 1000000000 + 1000 ≤ ns < 60 * 1000000000 →
       humanize (Some ns) = "0m")
  ∧ humanize_td [None; Some (- 500000000); Some (1000000000 * s + f)]
    = [""; "0m"; "0m"].
Proof.
  intros Hd Hh Hm Hs Hf.
  assert (Hgen : ∀ s' f', 0 ≤ s' < 60 → 0 ≤ f' < 1000000000 →
    humanize (Some (1000000000 * (86400 * d + 3600 * h + 60 * m + s') + f'))
    = match (part d "d" ++ part h "h" ++ part m "m")%list with
      | [] => "0m"
      | parts => join " " parts
      end).
  { intros s' f' Hs' Hf'. rewrite humanize_seconds by lia.
    set (t := 86400 * d + 3600 * h + 60 * m + s').
    assert (Hdays : t / 86400 = d)
      by (symmetry; apply (Z.div_unique_pos t 86400 d (3600 * h + 60 * m + s'));
          unfold t; lia).
    assert (Hrem : t mod 86400 = 3600 * h + 60 * m + s')
      by (symmetry; apply (Z.mod_unique_pos t 86400 d); unfold t; lia).
    rewrite Hdays, Hrem.
    assert (Hhours : (3600 * h + 60 * m + s') / 3600 = h)
      by (symmetry; apply (Z.div_unique_pos _ 3600 h (60 * m + s')); lia).
    assert (Hrem2 : (3600 * h + 60 * m + s') mod 3600 = 60 * m + s')
      by (symmetry; apply (Z.mod_unique_pos _ 3600 h); lia).
    rewrite Hhours, Hrem2.
    assert (Hmin : (60 * m + s') / 60 = m)
      by (symmetry; apply (Z.div_unique_pos _ 60 m s'); lia).
    by rewrite Hmin. }
  assert (Hsmall : ∀ ns, - 1000000000 + 1000 ≤ ns < 60 * 1000000000 →
            humanize (Some ns) = "0m").
  { intros ns Hns. destruct (Z.lt_ge_cases ns 0) as [Hneg|Hpos].
    - unfold humanize. by rewrite total_seconds_small by lia.
    - rewrite (Z.div_mod ns 1000000000) by lia.
      assert (Hq : 0 ≤ ns / 1000000000 < 60).
      { split; [apply Z.div_pos; lia | apply Z.div_lt_upper_bound; lia]. }
      assert (Hr := Z.mod_pos_bound ns 1000000000 ltac:(lia)).
      rewrite humanize_seconds by lia.
      rewrite (Z.div_small (ns / 1000000000) 86400),
        (Z.mod_small (ns / 1000000000) 86400) by lia.
      rewrite (Z.div_small (ns / 1000000000) 3600),
        (Z.mod_small (ns / 1000000000) 3600) by lia.
      by rewrite (Z.div_small (ns / 1000000000) 60) by lia. }
  split; [by apply Hgen|]. split; [|split; [|split; [exact Hsmall|]]].
  - rewrite (Hgen s f Hs Hf).
    rewrite <- (Hgen 0 0 ltac:(lia) ltac:(lia)). f_equal. f_equal. lia.
  - intros ns Hns. unfold humanize. cbv zeta.
    assert (H := total_seconds_negative ns Hns).
    by replace (total_seconds_int ns <? 0) with true by lia.
  - unfold humanize_td. cbn [fmap list_fmap].
    rewrite (Hsmall (- 500000000)) by lia.
    rewrite (Hsmall (1000000000 * s + f)) by lia. reflexivity.
Qed.

Lemma humanize_parts_witness :
  humanize (Some 173142500000000) = "2d 5m"
  ∧ humanize (Some 173100000000000) = "2d 5m"
  ∧ humanize (Some (- 500000000)) = "0m"
  ∧ humanize (Some (- 1000000000)) = ""
  ∧ humanize_td [None; Some (- 500000000); Some 42500000000]
    = [""; "0m"; "0m"].
Proof.
  destruct (humanize_parts 2 0 5 42 500000000 ltac:(lia) ltac:(lia)
              ltac:(lia) ltac:(lia) ltac:(lia))
    as (Hparts & Hdrop & Hneg & Hsmall & Htd).
  split; [exact Hparts|].
  split; [exact (eq_trans (eq_sym Hdrop) Hparts)|].
  split; [apply Hsmall; lia|]. split; [apply Hneg; lia|]. exact Htd.
Defined.

(** ** Colours *)

Lemma hex_table : forallb hex_ok (Zrange 256) = true.
Proof. vm_compute. reflexivity. Qed.

Lemma hex_component n :
  0 ≤ n ≤ 255 →
  ∃ a b, fmt_02X n = String a (String b "")
         ∧ Ascii.eqb a "#" = false
         ∧ int16 (String a (String b "")) = Some n.
Proof.
  intros Hn. assert (H := forallb_Zrange _ 256 hex_table n ltac:(lia)).
  unfold hex_ok in H.
  destruct (fmt_02X n) as [|a [|b [|]]]; try discriminate H.
  apply andb_true_iff in H as [Ha Hv]. apply negb_true_iff in Ha.
  destruct (int16 (String a (String b ""))) as [v|] eqn:Hi; [|discriminate Hv].
  apply Z.eqb_eq in Hv as ->. exists a, b. by repeat split.
Qed.

Lemma lstrip_hash_other a r :
  Ascii.eqb a "#" = false → lstrip_hash (String a r) = String a r.
Proof. by destruct a as [[] [] [] [] [] [] [] []]. Qed.

Lemma lstrip_hash_hash r : lstrip_hash (String "#" r) = lstrip_hash r.
Proof. reflexivity. Qed.

Lemma substring_short (n m : nat) s :
  (String.length s ≤ n)%nat → String.substring n m s = "".
Proof.
  revert n. induction s as [|c s IH]; intros n Hn.
  - by destruct n, m.
  - destruct n as [|n]; cbn in Hn; [lia|]. cbn [String.substring].
    apply IH. lia.
Qed.

(** X23: a colour of three components between 0 and 255 is written as a
    text of seven characters that is read back as the same components; a
    text with fewer than five characters after its leading hashes is not a
    colour: reading it fails. *)
Theorem hex_round_trip (r g b : Z) :
  0 ≤ r ≤ 255 → 0 ≤ g ≤ 255 → 0 ≤ b ≤ 255 →
  _hex_to_rgb (_rgb_to_hex (r, g, b)) = Some (r, g, b)
  ∧ String.length (_rgb_to_hex (r, g, b)) = 7%nat
  ∧ ∀ h, (String.length (lstrip_hash h) ≤ 4)%nat → _hex_to_rgb h = None.
Proof.
  intros Hr Hg Hb.
  destruct (hex_component r Hr) as (a1 & b1 & E1 & N1 & I1).
  destruct (hex_component g Hg) as (a2 & b2 & E2 & N2 & I2).
  destruct (hex_component b Hb) as (a3 & b3 & E3 & N3 & I3).
  unfold _rgb_to_hex. rewrite E1, E2, E3.
  split; [|split; [reflexivity|]].
  - unfold _hex_to_rgb.
    change ("#" +:+ String a1 (String b1 "") +:+ String a2 (String b2 "")
            +:+ String a3 (String b3 ""))
      with (String "#" (String a1 (String b1 (String a2 (String b2
              (String a3 (String b3 ""))))))).
    rewrite lstrip_hash_hash, (lstrip_hash_other a1 _ N1).
    cbn [String.substring]. rewrite I1, I2, I3. reflexivity.
  - intros h Hh. unfold _hex_to_rgb.
    rewrite (substring_short 4 2 _ Hh).
    destruct (int16 (String.substring 0 2 (lstrip_hash h))); [|done].
    by destruct (int16 (String.substring 2 2 (lstrip_hash h))).
Qed.

Lemma hex_round_trip_witness :
  _hex_to_rgb (_rgb_to_hex (0, 174, 218)) = Some (0, 174, 218).
Proof. apply (hex_round_trip 0 174 218); lia. Defined.

(** ** Column labels *)

Lemma space_32 : U.isspace 32 = true.
Proof. reflexivity. Qed.

Lemma not_space_not_32 c : U.isspace c = false → (c =? 32) = false.
Proof.
  intros Hc. destruct (Z.eqb_spec c 32) as [->|]; [discriminate Hc | done].
Qed.

Lemma collapse_tidy s : ∀ b, tidy b (U.collapse b s) = true.
Proof.
  induction s as [|c s IH]; intros b; [done|]. cbn [U.collapse].
  destruct (U.isspace c) eqn:Hc.
  - destruct b; [apply IH|]. cbn [tidy]. change (32 =? 32) with true.
    cbn [negb andb]. apply IH.
  - cbn [tidy]. rewrite (not_space_not_32 c Hc), Hc. cbn [negb andb]. apply IH.
Qed.

Lemma collapse_id s : ∀ b, tidy b s = true → U.collapse b s = s.
Proof.
  induction s as [|c s IH]; intros b; [done|]. cbn [tidy U.collapse].
  destruct (Z.eqb_spec c 32) as [->|Hne].
  - intros H. apply andb_true_iff in H as [Hb Hs].
    apply negb_true_iff in Hb as ->. rewrite space_32. by rewrite (IH true Hs).
  - intros H. apply andb_true_iff in H as [Hc Hs].
    apply negb_true_iff in Hc as ->. by rewrite (IH false Hs).
Qed.

Lemma tidy_weaken s : tidy true s = true → tidy false s = true.
Proof. destruct s as [|c s]; [done|]. cbn [tidy]. by destruct (c =? 32). Qed.

Lemma tidy_true_lstrip s : tidy true s = true → U.lstrip s = s.
Proof.
  destruct s as [|c s]; [done|]. cbn [tidy U.lstrip].
  destruct (c =? 32); [done|]. intros H. apply andb_true_iff in H as [Hc _].
  by apply negb_true_iff in Hc as ->.
Qed.

Lemma tidy_lstrip s : ∀ b, tidy b s = true → tidy true (U.lstrip s) = true.
Proof.
  destruct s as [|c s]; intros b; [done|]. cbn [tidy U.lstrip].
  destruct (Z.eqb_spec c 32) as [->|Hne].
  - intros H. apply andb_true_iff in H as [_ Hs]. rewrite space_32.
    by rewrite (tidy_true_lstrip s Hs).
  - intros H. assert (H' := H). apply andb_true_iff in H as [Hc _].
    apply negb_true_iff in Hc. rewrite Hc. cbn [tidy].
    by destruct (Z.eqb_spec c 32).
Qed.

Lemma tidy_rstrip s : ∀ b, tidy b s = true → tidy b (U.rstrip s) = true.
Proof.
  induction s as [|c s IH]; intros b; [done|]. cbn [tidy U.rstrip].
  destruct (Z.eqb_spec c 32) as [->|Hne].
  - intros H. apply andb_true_iff in H as [Hb Hs]. specialize (IH true Hs).
    destruct (U.rstrip s) as [|x r]; [by rewrite space_32|].
    cbn [tidy] in IH |- *. change (32 =? 32) with true. by rewrite Hb.
  - intros H. apply andb_true_iff in H as [Hc Hs]. specialize (IH false Hs).
    assert (Hc' := Hc). apply negb_true_iff in Hc'.
    destruct (U.rstrip s) as [|x r].
    + rewrite Hc'. cbn [tidy]. destruct (Z.eqb_spec c 32); [done|].
      by rewrite Hc.
    + cbn [tidy] in IH |- *. destruct (Z.eqb_spec c 32); [done|].
      by rewrite Hc.
Qed.

Lemma rstrip_idem s : U.rstrip (U.rstrip s) = U.rstrip s.
Proof.
  induction s as [|c s IH]; [done|]. cbn [U.rstrip].
  destruct (U.rstrip s) as [|x r] eqn:Hr.
  - destruct (U.isspace c) eqn:Hc; [done|]. cbn [U.rstrip]. by rewrite Hc.
  - cbn [U.rstrip]. cbn [U.rstrip] in IH. by rewrite IH.
Qed.

Lemma lstrip_idem s : U.lstrip (U.lstrip s) = U.lstrip s.
Proof.
  induction s as [|c s IH]; [done|]. cbn [U.lstrip].
  destruct (U.isspace c) eqn:Hc; [done|]. cbn [U.lstrip]. by rewrite Hc.
Qed.

Lemma lstrip_rstrip s : U.lstrip s = s → U.lstrip (U.rstrip s) = U.rstrip s.
Proof.
  destruct s as [|c s]; [done|]. cbn [U.lstrip U.rstrip].
  destruct (U.isspace c) eqn:Hc.
  - intros H. exfalso. assert (Hl : length (U.lstrip s) = S (length s))
      by (by rewrite H).
    assert (Hle : ∀ l, (length (U.lstrip l) ≤ length l)%nat).
    { induction l as [|x l IHl]; [done|]. cbn [U.lstrip].
      destruct (U.isspace x); cbn [length]; lia. }
    specialize (Hle s). lia.
  - intros _. destruct (U.rstrip s); cbn [U.lstrip]; by rewrite Hc.
Qed.

Lemma strip_idem s : U.strip (U.strip s) = U.strip s.
Proof.
  unfold U.strip.
  rewrite (lstrip_rstrip (U.lstrip s)) by apply lstrip_idem.
  apply rstrip_idem.
Qed.

Lemma no_dash_collapse s : ∀ b, no_dash s = true → no_dash (U.collapse b s) = true.
Proof.
  unfold no_dash. induction s as [|c s IH]; intros b; [done|].
  cbn [forallb U.collapse]. intros H. apply andb_true_iff in H as [Hc Hs].
  destruct (U.isspace c), b; cbn [forallb]; rewrite ?Hc, ?IH; done.
Qed.

Lemma no_dash_lstrip s : no_dash s = true → no_dash (U.lstrip s) = true.
Proof.
  unfold no_dash. induction s as [|c s IH]; [done|].
  cbn [forallb U.lstrip]. intros H. assert (H' := H).
  apply andb_true_iff in H as [Hc Hs].
  destruct (U.isspace c); [by apply IH | done].
Qed.

Lemma no_dash_rstrip s : no_dash s = true → no_dash (U.rstrip s) = true.
Proof.
  unfold no_dash. induction s as [|c s IH]; [done|].
  cbn [forallb U.rstrip]. intros H. apply andb_true_iff in H as [Hc Hs].
  specialize (IH Hs). destruct (U.rstrip s) as [|x r].
  - destruct (U.isspace c); [done|]. cbn [forallb]. by rewrite Hc.
  - cbn [forallb] in IH |- *. by rewrite Hc, IH.
Qed.

Lemma no_dash_replaced s :
  no_dash (U.replace 160 32 (U.replace 8212 45 (U.replace 8211 45 s))) = true.
Proof.
  unfold no_dash, U.replace. rewrite <- !list_fmap_compose.
  induction s as [|c s IH]; [done|]. rewrite fmap_cons. cbn [forallb compose].
  rewrite IH. clear IH.
  destruct (Z.eqb_spec c 8211) as [->|H1]; [done|].
  destruct (Z.eqb_spec c 8212) as [->|H2]; [done|].
  destruct (Z.eqb_spec c 160) as [->|H3]; [done|].
  rewrite andb_true_r. apply andb_true_iff.
  split; apply negb_true_iff, Z.eqb_neq; done.
Qed.

Lemma replace_id (a b : Z) s : Forall (λ c, c ≠ a) s → U.replace a b s = s.
Proof.
  unfold U.replace. induction 1 as [|c s Hc _ IH]; [done|].
  rewrite fmap_cons, IH. by destruct (Z.eqb_spec c a).
Qed.

Lemma tidy_spaces s : ∀ b,
  tidy b s = true → Forall (λ c, U.isspace c = true → c = 32) s.
Proof.
  induction s as [|c s IH]; intros b; [constructor|]. cbn [tidy].
  destruct (Z.eqb_spec c 32) as [->|Hne]; intros H;
    apply andb_true_iff in H as [Hc Hs]; constructor; eauto.
  apply negb_true_iff in Hc. congruence.
Qed.

(** A tidy text without dashes and without white space at its end is a
    fixed point of the normaliser. *)
Lemma normalize_colname_fixed t :
  tidy true t = true → U.rstrip t = t → no_dash t = true →
  normalize_colname t = t.
Proof.
  intros Ht Hr Hd. unfold normalize_colname. cbv zeta.
  assert (Hsp := tidy_spaces t true Ht).
  assert (Hnd : Forall (λ c, c ≠ 8211 ∧ c ≠ 8212) t).
  { unfold no_dash in Hd. rewrite forallb_forall in Hd.
    apply Forall_forall. intros c Hc.
    specialize (Hd c (proj1 (list_elem_of_In _ _) Hc)).
    apply andb_true_iff in Hd as [H1 H2].
    apply negb_true_iff in H1, H2. split; by apply Z.eqb_neq. }
  rewrite (replace_id 8211 45 t)
    by (eapply Forall_impl; [exact Hnd | by intros c [? ?]]).
  rewrite (replace_id 8212 45 t)
    by (eapply Forall_impl; [exact Hnd | by intros c [? ?]]).
  rewrite (replace_id 160 32 t).
  2:{ eapply Forall_impl; [exact Hsp|]. intros c Hc ->.
      specialize (Hc eq_refl). discriminate Hc. }
  rewrite (collapse_id t false (tidy_weaken t Ht)).
  unfold U.strip. by rewrite (tidy_true_lstrip t Ht).
Qed.

Lemma normalize_colname_form (c : list Z) :
  tidy true (normalize_colname c) = true
  ∧ U.rstrip (normalize_colname c) = normalize_colname c
  ∧ no_dash (normalize_colname c) = true.
Proof.
  set (s := U.replace 160 32 (U.replace 8212 45 (U.replace 8211 45 c))).
  split; [|split].
  - unfold normalize_colname, U.strip. cbv zeta. fold s.
    apply tidy_rstrip. eapply tidy_lstrip. apply (collapse_tidy s false).
  - unfold normalize_colname, U.strip. cbv zeta. apply rstrip_idem.
  - unfold normalize_colname, U.strip. cbv zeta. fold s.
    apply no_dash_rstrip, no_dash_lstrip, no_dash_collapse, no_dash_replaced.
Qed.

Lemma normalize_colname_idem (c : list Z) :
  normalize_colname (normalize_colname c) = normalize_colname c.
Proof.
  destruct (normalize_colname_form c) as (Ht & Hr & Hd).
  by apply normalize_colname_fixed.
Qed.

Lemma normalize_colname_strip (c : list Z) :
  U.strip (normalize_colname c) = normalize_colname c.
Proof. unfold normalize_colname. cbv zeta. apply strip_idem. Qed.

(** X24: a normalised column label has no white space but single blanks
    between other characters, none at its ends, and no en dash, em dash or
    no-break space; normalising it again, or stripping it as [preprocess]
    does, leaves it as it is; and a label that is already of this form is
    kept intact. *)
Theorem normalize_colname_clean (c : list Z) :
  let t := normalize_colname c in
  tidy true t = true ∧ U.rstrip t = t ∧ no_dash t = true
  ∧ Forall (λ x, x ≠ 160 ∧ (U.isspace x = true → x = 32)) t
  ∧ normalize_colname t = t
  ∧ U.strip t = t
  ∧ (tidy true c = true → U.rstrip c = c → no_dash c = true → t = c).
Proof.
  cbv zeta. destruct (normalize_colname_form c) as (Ht & Hr & Hd).
  split; [done|]. split; [done|]. split; [done|]. split; [|split; [|split]].
  - eapply Forall_impl; [apply (tidy_spaces _ true Ht)|].
    intros x Hx. split; [|done]. intros ->. specialize (Hx eq_refl).
    discriminate Hx.
  - apply normalize_colname_idem.
  - apply normalize_colname_strip.
  - apply normalize_colname_fixed.
Qed.

Lemma normalize_colname_clean_witness :
  normalize_colname [82; 97; 105; 115; 101; 100; 32; 79; 110]
  = [82; 97; 105; 115; 101; 100; 32; 79; 110].
Proof.
  apply (normalize_colname_clean [82; 97; 105; 115; 101; 100; 32; 79; 110]);
    reflexivity.
Defined.

Lemma drop_duplicated_labels {A} (cols : labelled A) : ∀ seen,
  NoDup (fst <$> drop_duplicated seen cols)
  ∧ ∀ p, p ∈ drop_duplicated seen cols → (p.1 ∉ seen) ∧ p ∈ cols.
Proof.
  induction cols as [|q r IH]; intros seen.
  - split; [constructor|]. intros p Hp. by apply elem_of_nil in Hp.
  - cbn [drop_duplicated]. case_bool_decide as Hq.
    + destruct (IH seen) as [Hnd Hin]. split; [done|].
      intros p Hp. destruct (Hin p Hp) as [H1 H2]. split; [done|].
      by apply list_elem_of_further.
    + destruct (IH (q.1 :: seen)) as [Hnd Hin]. split.
      * rewrite fmap_cons. apply NoDup_cons. split; [|done].
        intros Hq'. apply list_elem_of_fmap in Hq' as (p & Hp1 & Hp2).
        destruct (Hin p Hp2) as [H1 _]. apply H1. rewrite <- Hp1.
        apply list_elem_of_here.
      * intros p Hp. apply elem_of_cons in Hp as [->|Hp].
        { split; [done | apply list_elem_of_here]. }
        destruct (Hin p Hp) as [H1 H2]. split.
        { intros Hs. apply H1. by apply list_elem_of_further. }
        by apply list_elem_of_further.
Qed.

Lemma drop_duplicated_first {A} (k : list Z) (cols : labelled A) : ∀ seen,
  k ∉ seen →
  first_labelled k (drop_duplicated seen cols) = first_labelled k cols.
Proof.
  induction cols as [|q r IH]; intros seen Hk; [done|].
  cbn [drop_duplicated first_labelled]. case_bool_decide as Hq.
  - rewrite (IH seen Hk). rewrite bool_decide_eq_false_2; [done|].
    intros E. apply Hk. by rewrite <- E.
  - cbn [first_labelled]. case_bool_decide as Hqk; [done|].
    apply IH. rewrite not_elem_of_cons. split; [congruence | done].
Qed.

Lemma drop_duplicated_length {A} (cols : labelled A) : ∀ seen,
  (length (drop_duplicated seen cols) ≤ length cols)%nat.
Proof.
  induction cols as [|q r IH]; intros seen; [done|].
  cbn [drop_duplicated]. case_bool_decide.
  - specialize (IH seen). cbn [length]. lia.
  - specialize (IH (q.1 :: seen)). cbn [length]. lia.
Qed.

(** X25: the frame that [load_data] returns has distinct column labels,
    each of them normalised; under a label it keeps the first of the
    columns whose normalised label it is, and drops the later ones; the
    stripping of the labels in [preprocess] then changes nothing, so the
    labels are still distinct when the derived columns are added. *)
Theorem load_columns_labels {A} (cols : labelled A) :
  NoDup (fst <$> load_columns cols)
  ∧ (∀ k, first_labelled k (load_columns cols)
          = first_labelled k (rename_columns cols))
  ∧ (∀ p, p ∈ load_columns cols →
       normalize_colname p.1 = p.1 ∧ ∃ q, q ∈ cols ∧ p = (normalize_colname q.1, q.2))
  ∧ strip_labels (load_columns cols) = load_columns cols
  ∧ (length (load_columns cols) ≤ length cols)%nat.
Proof.
  unfold load_columns.
  destruct (drop_duplicated_labels (rename_columns cols) []) as [Hnd Hin].
  assert (Hp : ∀ p, p ∈ drop_duplicated [] (rename_columns cols) →
            normalize_colname p.1 = p.1
            ∧ ∃ q, q ∈ cols ∧ p = (normalize_colname q.1, q.2)).
  { intros p Hp. destruct (Hin p Hp) as [_ Hr]. unfold rename_columns in Hr.
    apply list_elem_of_fmap in Hr as (q & -> & Hq). cbn [fst].
    split; [apply normalize_colname_idem | by exists q]. }
  split; [done|]. split; [|split; [done|split]].
  - intros k. apply drop_duplicated_first, not_elem_of_nil.
  - unfold strip_labels.
    assert (Hall : Forall (λ p : list Z * A, (U.strip p.1, p.2) = p)
                     (drop_duplicated [] (rename_columns cols))).
    { apply Forall_forall. intros p Hp'. destruct (Hp p Hp') as [_ (q & _ & ->)].
      cbn [fst snd]. f_equal. apply normalize_colname_strip. }
    clear Hnd Hin Hp. induction Hall as [|p l Hpl _ IH]; [done|].
    rewrite fmap_cons. f_equal; [exact Hpl | exact IH].
  - rewrite <- (length_fmap (λ p : list Z * A, (normalize_colname p.1, p.2)) cols).
    apply drop_duplicated_length.
Qed.

(** ** The filtered view *)

Lemma mask_filter_all {A} (l : list A) :
  mask_filter (replicate (length l) true) l = l.
Proof. induction l as [|x l IH]; [done|]. cbn. by rewrite IH. Qed.

Lemma filter_true_replicate (n : nat) :
  length (filter (λ b, b = true) (replicate n true)) = n.
Proof.
  induction n as [|n IH]; [done|]. cbn [replicate].
  rewrite filter_cons_True by done. cbn [length]. by rewrite IH.
Qed.

Lemma filter_true_le (m : list bool) :
  (length (filter (λ b, b = true) m) ≤ length m)%nat.
Proof. apply length_filter. Qed.

Lemma select_rows_all df :
  wf df → select_rows (replicate (nrows df) true) df = df.
Proof.
  intros Hwf. unfold select_rows. rewrite filter_true_replicate.
  destruct df as [n cols]. cbn [nrows columns] in *. f_equal.
  apply map_eq. intros c. rewrite lookup_fmap.
  destruct (cols !! c) as [s|] eqn:Hc; [|done]. cbn [fmap option_fmap option_map].
  f_equal. assert (Hl := wf_lookup (mkDF n cols) c s Hwf Hc).
  cbn [nrows] in Hl. rewrite <- Hl. apply mask_filter_all.
Qed.

Lemma and_mask_row (m x : option (list bool)) (r : list bool) (i : nat) :
  and_mask m x = Some r → r !! i = Some true →
  ∃ m' x', m = Some m' ∧ x = Some x'
           ∧ m' !! i = Some true ∧ x' !! i = Some true.
Proof.
  unfold and_mask. destruct m as [m'|]; [|done]. destruct x as [x'|]; [|done].
  cbn [mbind option_bind]. intros [= <-] Hi. exists m', x'.
  rewrite lookup_zip_with in Hi.
  destruct (m' !! i) as [a|]; [|done]. destruct (x' !! i) as [b|]; [|done].
  cbn [mbind option_bind] in Hi. injection Hi as Hi.
  apply andb_true_iff in Hi as [-> ->]. done.
Qed.

Lemma and_mask_length (m x : option (list bool)) (r : list bool) (n : nat) :
  and_mask m x = Some r →
  (∀ m', m = Some m' → length m' = n) → (∀ x', x = Some x' → length x' = n) →
  length r = n.
Proof.
  unfold and_mask. destruct m as [m'|]; [|done]. destruct x as [x'|]; [|done].
  cbn [mbind option_bind]. intros [= <-] Hm Hx.
  rewrite length_zip_with, (Hm m' eq_refl), (Hx x' eq_refl). lia.
Qed.

Section View.

Variable str_of_value : cell → string.

Lemma match_length df col sel x :
  wf df → match_ str_of_value df col sel = Some x → length x = nrows df.
Proof.
  intros Hwf. unfold match_. destruct (columns df !! col) as [s|] eqn:Hc; [|done].
  intros [= <-]. rewrite length_fmap.
  by eapply wf_lookup.
Qed.

Lemma match_row df col sel x (i : nat) :
  match_ str_of_value df col sel = Some x → x !! i = Some true →
  ∃ c, cell_at df col i = Some c ∧ astype_str str_of_value c ∈ sel.
Proof.
  unfold match_, cell_at. destruct (columns df !! col) as [s|]; [|done].
  intros [= <-]. cbn [mbind option_bind]. rewrite list_lookup_fmap.
  destruct (s !! i) as [c|]; [|done]. cbn [fmap option_fmap option_map].
  intros [= H]. exists c. split; [done|]. by apply bool_decide_eq_true in H.
Qed.

Lemma date_mask_length cmp df d x :
  wf df → date_mask cmp df d = Some x → length x = nrows df.
Proof.
  intros Hwf. unfold date_mask.
  destruct (columns df !! "_RaisedOnDT") as [s|] eqn:Hc; [|done].
  destruct (negb (datetime_column s)); [done|].
  destruct ((0 <? length s)%nat && forallb cell_isna s); [done|].
  intros [= <-]. rewrite length_fmap.
  by eapply wf_lookup.
Qed.

Lemma date_mask_row cmp df d x (i : nat) :
  date_mask cmp df d = Some x → x !! i = Some true →
  ∃ t, instant_at df "_RaisedOnDT" i = Some t ∧ cmp (t / 86400) d = true.
Proof.
  unfold date_mask, instant_at, cell_at.
  destruct (columns df !! "_RaisedOnDT") as [s|]; [|done].
  destruct (negb (datetime_column s)); [done|].
  destruct ((0 <? length s)%nat && forallb cell_isna s); [done|].
  intros [= <-]. cbn [mbind option_bind]. rewrite list_lookup_fmap.
  destruct (s !! i) as [c|]; [|done]. cbn [fmap option_fmap option_map].
  cbn [mbind option_bind]. unfold date_of.
  destruct (as_instant c) as [t|]; [|done]. cbn [fmap option_fmap option_map].
  intros [= H]. by exists t.
Qed.

(** The selections, one after the other. *)
Lemma filter_steps df (l : list (string * list string)) : ∀ m0 r,
  wf df →
  foldl (filter_step str_of_value df) m0 l = Some r →
  ∃ m0', m0 = Some m0'
    ∧ (length m0' = nrows df → length r = nrows df)
    ∧ ∀ i : nat, r !! i = Some true →
        m0' !! i = Some true
        ∧ ∀ col sel, (col, sel) ∈ l → sel ≠ [] →
            ∃ c, cell_at df col i = Some c ∧ astype_str str_of_value c ∈ sel.
Proof.
  induction l as [|[col sel] l IH]; intros m0 r Hwf Hr.
  - cbn [foldl] in Hr. subst m0. exists r. split; [done|]. split; [done|].
    intros i Hi. split; [done|]. intros col sel Hin. by apply elem_of_nil in Hin.
  - cbn [foldl] in Hr. destruct (IH _ r Hwf Hr) as (m1 & Hm1 & Hlen & Hrow).
    unfold filter_step in Hm1. cbn [fst snd] in Hm1.
    destruct sel as [|s0 sel].
    + exists m1. split; [done|]. split; [done|]. intros i Hi.
      destruct (Hrow i Hi) as [H1 H2]. split; [done|].
      intros col' sel' Hin Hne. apply elem_of_cons in Hin as [Heq|Hin];
        [by injection Heq as -> -> | by apply H2].
    + destruct m0 as [m0'|]; [|done].
      destruct (match_ str_of_value df col (s0 :: sel)) as [x|] eqn:Hx;
        [|done].
      exists m0'. split; [done|]. split.
      * intros Hl0. apply Hlen.
        eapply (and_mask_length _ _ _ _ Hm1);
          [by intros ? [= <-] | intros ? [= <-]; by eapply match_length].
      * intros i Hi. destruct (Hrow i Hi) as [H1 H2].
        destruct (and_mask_row _ _ _ i Hm1 H1) as (a & b & [= <-] & [= <-] & Ha & Hb).
        split; [done|]. intros col' sel' Hin Hne.
        apply elem_of_cons in Hin as [Heq|Hin]; [|by apply H2].
        injection Heq as -> ->. by eapply match_row.
Qed.

(** X26: with no selection and no date range the filtered view is the
    frame itself; when a bound of the range is set and the frame has rows
    but no RaisedAt at all, there is no view: the comparison of the days
    raises; otherwise every row that is kept has, in each column with a
    selection, a value whose text is one of the selected, and a day of
    RaisedAt within the bounds that are set, so a row with no RaisedAt is
    dropped as soon as a bound is set; the view never has more rows than
    the frame. *)
Theorem filtered_view_keeps df (f : filters) :
  wf df →
  filtered_view str_of_value df no_filters = Some df
  ∧ (∀ col, columns df !! "_RaisedOnDT" = Some col → col ≠ [] →
       Forall (λ c, c = NA) col →
       is_Some (date_min f) ∨ is_Some (date_max f) →
       filtered_view str_of_value df f = None)
  ∧ ∀ m, view_mask str_of_value df f = Some m →
      filtered_view str_of_value df f = Some (select_rows m df)
      ∧ length m = nrows df
      ∧ (nrows (select_rows m df) ≤ nrows df)%nat
      ∧ ∀ i : nat, m !! i = Some true →
          (∀ col sel, (col, sel) ∈ filter_columns f → sel ≠ [] →
             ∃ c, cell_at df col i = Some c ∧ astype_str str_of_value c ∈ sel)
          ∧ (∀ d, date_min f = Some d →
               ∃ t, instant_at df "_RaisedOnDT" i = Some t ∧ d ≤ t / 86400)
          ∧ (∀ d, date_max f = Some d →
               ∃ t, instant_at df "_RaisedOnDT" i = Some t ∧ t / 86400 ≤ d).
Proof.
  intros Hwf. split; [|split].
  - unfold filtered_view, view_mask, no_filters. cbn [foldl filter_columns
      filter_step proj status types_l0 types_l1 types_l2 tags1 tags2 raised_by
      assigned_team assigned_user date_min date_max snd mbind option_bind].
    by rewrite select_rows_all.
  - intros col Hcol Hne Hall Hbound.
    assert (Hdm : ∀ cmp d, date_mask cmp df d = None).
    { intros cmp d. unfold date_mask. rewrite Hcol.
      assert (H1 : datetime_column col = true).
      { unfold datetime_column. apply forallb_forall. intros c Hc.
        rewrite Forall_forall in Hall.
        by rewrite (Hall c (proj2 (list_elem_of_In _ _) Hc)). }
      assert (H2 : forallb cell_isna col = true).
      { apply forallb_forall. intros c Hc. rewrite Forall_forall in Hall.
        by rewrite (Hall c (proj2 (list_elem_of_In _ _) Hc)). }
      rewrite H1, H2. by destruct col. }
    assert (Hand : ∀ m, and_mask m None = None) by (by intros [m|]).
    unfold filtered_view, view_mask. cbv zeta.
    destruct (date_min f) as [d1|], (date_max f) as [d2|];
      rewrite ?Hdm, ?Hand; try reflexivity.
    destruct Hbound as [H|H]; by apply is_Some_None in H.
  - intros m Hm. unfold filtered_view. rewrite Hm. cbn [mbind option_bind].
    split; [done|]. unfold view_mask in Hm. cbv zeta in Hm.
    set (m1 := foldl (filter_step str_of_value df)
                 (Some (replicate (nrows df) true)) (filter_columns f)) in Hm.
    set (m2 := match date_min f with
               | Some d => and_mask m1 (date_mask Z.geb df d)
               | None => m1
               end) in Hm.
    assert (H2 : ∃ r2, m2 = Some r2 ∧ (m !! 0%nat = m !! 0%nat)
              ∧ (length r2 = nrows df → length m = nrows df)
              ∧ ∀ i : nat, m !! i = Some true → r2 !! i = Some true
                  ∧ ∀ d, date_max f = Some d →
                      ∃ t, instant_at df "_RaisedOnDT" i = Some t
                           ∧ t / 86400 ≤ d).
    { destruct (date_max f) as [d|].
      - destruct m2 as [r2|]; [|done].
        destruct (date_mask Z.leb df d) as [x|] eqn:Hx;
          [|by destruct r2].
        exists r2. split; [done|]. split; [done|]. split.
        + intros Hl. eapply (and_mask_length _ _ _ _ Hm);
            [by intros ? [= <-] | intros ? [= <-]; by eapply date_mask_length].
        + intros i Hi.
          destruct (and_mask_row _ _ _ i Hm Hi) as (a & b & [= <-] & [= <-] & Ha & Hb).
          split; [done|]. intros d' [= <-].
          destruct (date_mask_row _ _ _ _ i Hx Hb) as (t & Ht & Hc).
          exists t. split; [done|]. by apply Z.leb_le.
      - exists m. split; [done|]. split; [done|]. split; [done|].
        intros i Hi. split; [done|]. intros d Hd. discriminate Hd. }
    destruct H2 as (r2 & Hr2 & _ & Hlen2 & Hrow2).
    assert (H1 : ∃ r1, m1 = Some r1
              ∧ (length r1 = nrows df → length r2 = nrows df)
              ∧ ∀ i : nat, r2 !! i = Some true → r1 !! i = Some true
                  ∧ ∀ d, date_min f = Some d →
                      ∃ t, instant_at df "_RaisedOnDT" i = Some t
                           ∧ d ≤ t / 86400).
    { unfold m2 in Hr2. destruct (date_min f) as [d|].
      - destruct m1 as [r1|]; [|done].
        destruct (date_mask Z.geb df d) as [x|] eqn:Hx;
          [|by destruct r1].
        exists r1. split; [done|]. split.
        + intros Hl. eapply (and_mask_length _ _ _ _ Hr2);
            [by intros ? [= <-] | intros ? [= <-]; by eapply date_mask_length].
        + intros i Hi.
          destruct (and_mask_row _ _ _ i Hr2 Hi) as (a & b & [= <-] & [= <-] & Ha & Hb).
          split; [done|]. intros d' [= <-].
          destruct (date_mask_row _ _ _ _ i Hx Hb) as (t & Ht & Hc).
          exists t. split; [done|]. apply Z.geb_le in Hc. lia.
      - exists r2. split; [done|]. split; [done|].
        intros i Hi. split; [done|]. intros d Hd. discriminate Hd. }
    destruct H1 as (r1 & Hr1 & Hlen1 & Hrow1).
    destruct (filter_steps df _ _ r1 Hwf Hr1) as (m0 & [= <-] & Hlen0 & Hrow0).
    assert (Hlen : length m = nrows df)
      by (apply Hlen2, Hlen1, Hlen0, length_replicate).
    split; [done|]. split.
    { unfold select_rows. cbn [nrows]. rewrite <- Hlen. apply filter_true_le. }
    intros i Hi. destruct (Hrow2 i Hi) as [Hi2 Hmax].
    destruct (Hrow1 i Hi2) as [Hi1 Hmin].
    destruct (Hrow0 i Hi1) as [_ Hsel]. done.
Qed.

End View.

Lemma filtered_view_keeps_witness :
  filtered_view sample_str_of_value view_sample view_filters
  = Some (select_rows [true; false; false] view_sample)
  ∧ nrows (select_rows [true; false; false] view_sample) = 1%nat
  ∧ (∃ c, cell_at view_sample "Current Status" 0 = Some c
          ∧ astype_str sample_str_of_value c ∈ ["Open"])
  ∧ (∃ t, instant_at view_sample "_RaisedOnDT" 0 = Some t ∧ 19723 ≤ t / 86400)
  ∧ filtered_view sample_str_of_value view_sample no_filters = Some view_sample
  ∧ filtered_view sample_str_of_value view_undated view_filters = None.
Proof.
  destruct (filtered_view_keeps sample_str_of_value view_undated view_filters
              ltac:(vm_compute; reflexivity)) as (_ & Hraise & _).
  destruct (filtered_view_keeps sample_str_of_value view_sample view_filters
              ltac:(vm_compute; reflexivity)) as (Hall & _ & Hkeep).
  destruct (Hkeep [true; false; false] ltac:(vm_compute; reflexivity))
    as (Hview & _ & _ & Hrow).
  destruct (Hrow 0%nat eq_refl) as (Hsel & Hmin & _).
  split; [exact Hview|]. split; [reflexivity|]. split; [|split].
  - apply (Hsel "Current Status" ["Open"]); [|discriminate].
    apply list_elem_of_further, list_elem_of_here.
  - apply (Hmin 19723). reflexivity.
  - split; [exact Hall|].
    apply (Hraise [NA; NA]); [reflexivity | discriminate | | by left].
    by repeat constructor.
Defined.
